(** * Xpccm-web: probes, state tracker and scheduler glue

    A shallow embedding of [monitor.py] (class [MonitorChecker]), of the
    tables of [database.py] that the probes and the scheduler pipeline use,
    and of [check_monitor], [schedule_monitor], [api_delete_monitor],
    [api_check_now] and [api_push_heartbeat] of [app.py]; then of
    [update_monitor], [api_update_monitor] and [init_scheduler], of the routes
    of [/api/auth], and of the providers of [notify.py].

    Python dictionaries are [gmap]s, SQLite tables are lists of rows in
    insertion order, integers are [Z].  Strings are UTF-8 texts: sequences
    of bytes in which a code point is a byte outside [0x80..0xBF] with the
    bytes of that range that follow it; [len] and the slices count code
    points.  Code that raises or mutates the module-level state runs in a
    state-and-exception monad [M].  The network, the clock and the library
    functions whose results the code consumes ([int], [urlparse],
    [strptime], the floating-point product of a response time) are given by
    an environment [Env]; every network operation is recorded in a trace.
    The scheduler is its table of jobs, and a tick is the firing of one
    job. *)

From stdpp Require Import gmap strings list fin_maps pretty.
From Stdlib Require Import ZArith Ascii.
From Stdlib Require OrderedTypeEx.

Local Open Scope string_scope.
Local Open Scope Z_scope.
Local Open Scope list_scope.

(** ** Python string operations used by the probes *)

Module PyStr.

(** [needle in hay] *)
Fixpoint contains (needle hay : string) : bool :=
  String.prefix needle hay ||
  match hay with
  | EmptyString => false
  | String _ rest => contains needle rest
  end.

(** [s.startswith(p)] *)
Definition startswith (s p : string) : bool := String.prefix p s.

(** [s.split(c, 1)] when [c] occurs in [s]: the text before and after the
    first occurrence. *)
Fixpoint split_first (c : ascii) (s : string) : option (string * string) :=
  match s with
  | EmptyString => None
  | String a rest =>
      if Ascii.eqb a c then Some (EmptyString, rest)
      else match split_first c rest with
           | Some (h, t) => Some (String a h, t)
           | None => None
           end
  end.

(** [s.rsplit(c, 1)] when [c] occurs in [s]: the text before and after the
    last occurrence. *)
Fixpoint split_last (c : ascii) (s : string) : option (string * string) :=
  match s with
  | EmptyString => None
  | String a rest =>
      match split_last c rest with
      | Some (h, t) => Some (String a h, t)
      | None => if Ascii.eqb a c then Some (EmptyString, rest) else None
      end
  end.

(** [s.split(c)[0]] *)
Definition before_first (c : ascii) (s : string) : string :=
  match split_first c s with
  | Some (h, _) => h
  | None => s
  end.

Definition upper_ascii (a : ascii) : ascii :=
  let n := nat_of_ascii a in
  if (Nat.leb 97 n && Nat.leb n 122)%bool then ascii_of_nat (n - 32) else a.

(** The code points of two bytes whose upper case is ASCII: U+00DF (sharp
    s), U+0131 (dotless i) and U+017F (long s). *)
Definition upper_two (a b : ascii) : option string :=
  match nat_of_ascii a, nat_of_ascii b with
  | 195, 159 => Some "SS"
  | 196, 177 => Some "I"
  | 197, 191 => Some "S"
  | _, _ => None
  end%nat.

(** The code points of three bytes whose upper case is ASCII: the ligatures
    U+FB00 to U+FB06. *)
Definition upper_three (a b c : ascii) : option string :=
  match nat_of_ascii a, nat_of_ascii b, nat_of_ascii c with
  | 239, 172, 128 => Some "FF"
  | 239, 172, 129 => Some "FI"
  | 239, 172, 130 => Some "FL"
  | 239, 172, 131 => Some "FFI"
  | 239, 172, 132 => Some "FFL"
  | 239, 172, 133 => Some "ST"
  | 239, 172, 134 => Some "ST"
  | _, _, _ => None
  end%nat.

(** [s.upper()], as far as it yields ASCII: the letters a to z and the ten
    code points above are mapped as Python maps them.  Every other code
    point outside ASCII is kept as it is; its upper case holds a code point
    outside ASCII too, so the comparison of the result with an ASCII word
    (the probe compares with ['POST'] and ['HEAD']) comes out as in
    Python. *)
Fixpoint upper (s : string) : string :=
  match s with
  | EmptyString => EmptyString
  | String a rest =>
      match rest with
      | String b (String c rest3 as rest2) =>
          match upper_three a b c, upper_two a b with
          | Some up, _ => up +:+ upper rest3
          | None, Some up => up +:+ upper rest2
          | None, None => String (upper_ascii a) (upper rest)
          end
      | String b EmptyString =>
          match upper_two a b with
          | Some up => up
          | None => String (upper_ascii a) (upper rest)
          end
      | EmptyString => String (upper_ascii a) EmptyString
      end
  end.

(** A byte that continues a code point. *)
Definition continues (a : ascii) : bool :=
  let n := nat_of_ascii a in Nat.leb 128 n && Nat.ltb n 192.

(** [len(s)]: the number of code points. *)
Fixpoint len (s : string) : nat :=
  match s with
  | EmptyString => O
  | String a rest => ((if continues a then 0 else 1) + len rest)%nat
  end.

(** [s[:n]]: the first [n] code points. *)
Fixpoint take (n : nat) (s : string) : string :=
  match s with
  | EmptyString => EmptyString
  | String a rest =>
      if continues a then String a (take n rest)
      else
        match n with
        | O => EmptyString
        | S k => String a (take k rest)
        end
  end.

(** [s[n:]], used where the first [n] code points of [s] are ASCII, so
    that they are its first [n] bytes *)
Fixpoint drop (n : nat) (s : string) : string :=
  match n, s with
  | O, _ => s
  | S n', String _ rest => drop n' rest
  | S _, EmptyString => EmptyString
  end.

(** truthiness of a string: [bool(s)] *)
Definition truthy (s : string) : bool :=
  match s with EmptyString => false | _ => true end.

End PyStr.

(** ** Exceptions *)

(** The exception classes the [except] clauses of the probes tell apart; an
    exception of any other class is [OtherException]. *)
Inductive ExnClass :=
  | RequestsTimeout          (* requests.exceptions.Timeout *)
  | RequestsSSLError         (* requests.exceptions.SSLError *)
  | RequestsConnectionError  (* requests.exceptions.ConnectionError *)
  | SocketTimeout            (* socket.timeout *)
  | SslSSLError              (* ssl.SSLError *)
  | OtherException.

(** An exception with its class and the text [str(e)]. *)
Record Exn := mkExn { exn_class : ExnClass; exn_str : string }.

Inductive Outcome (A : Type) : Type :=
  | Ret (a : A)
  | Raise (e : Exn).
Arguments Ret {A} a.
Arguments Raise {A} e.

(** ** Data model *)

(** The dictionary a probe returns. *)
Record CheckResult := mkResult {
  status : Z;
  response_time : Z;
  status_code : Z;
  message : string
}.

(** What [json.loads(monitor['headers'])] can give. *)
Inductive Headers :=
  | HeadersObject (kv : list (string * string))  (* a JSON object *)
  | HeadersUnparsable                            (* json.loads raises *)
  | HeadersNotObject (tyname : string).          (* a list, a str, an int, ... *)

(** A row of the table [monitors], with the JSON columns decoded ([m_types]
    is the list [json.loads(types)] yields, ['["http"]'] standing in for an
    unparsable column as in the source), and the key ['type'] that
    [{**monitor, 'type': check_type}] adds. *)
Record Monitor := mkMonitor {
  m_id : Z;
  m_name : string;
  m_types : list string;
  m_target : string;
  m_interval : Z;
  m_timeout : Z;
  m_method : string;
  m_headers : Headers;
  m_body : string;
  m_expected_status : Z;
  m_keyword : string;
  m_port : Z;
  m_notify_channels : list Z;
  m_enabled : Z;
  m_type : option string
}.

(** [{**monitor, 'type': check_type}] *)
Definition with_type (monitor : Monitor) (check_type : string) : Monitor :=
  mkMonitor (m_id monitor) (m_name monitor) (m_types monitor) (m_target monitor)
    (m_interval monitor) (m_timeout monitor) (m_method monitor)
    (m_headers monitor) (m_body monitor) (m_expected_status monitor)
    (m_keyword monitor) (m_port monitor) (m_notify_channels monitor)
    (m_enabled monitor) (Some check_type).

(** [monitor_copy = dict(monitor); monitor_copy['port'] = 80] *)
Definition with_port (monitor : Monitor) (port : Z) : Monitor :=
  mkMonitor (m_id monitor) (m_name monitor) (m_types monitor) (m_target monitor)
    (m_interval monitor) (m_timeout monitor) (m_method monitor)
    (m_headers monitor) (m_body monitor) (m_expected_status monitor)
    (m_keyword monitor) port (m_notify_channels monitor)
    (m_enabled monitor) (m_type monitor).

(** Rows of [heartbeats], [monitor_logs] and [events] (the columns the
    modelled code writes; [created_at] is kept where it is read back). *)
Record Heartbeat := mkHeartbeat {
  hb_monitor_id : Z;
  hb_status : Z;
  hb_message : string;
  hb_created_at : string
}.

Record LogRow := mkLog {
  log_monitor_id : Z;
  log_check_type : string;
  log_status : Z;
  log_response_time : Z;
  log_status_code : Z;
  log_message : string
}.

Record EventRow := mkEvent {
  ev_monitor_id : option Z;
  ev_type : string;
  ev_message : string
}.

(** A call [send_notification(monitor, status, message)]. *)
Record Notification := mkNotification {
  nt_monitor : Monitor;
  nt_status : Z;
  nt_message : string
}.

(** A job of the scheduler: [add_job(check_monitor, 'interval',
    seconds=interval, args=[monitor], id=job_id)]. *)
Record Job := mkJob {
  job_seconds : Z;
  job_args : Monitor
}.

(** The network operations a probe can perform. *)
Inductive NetOp :=
  | OpRequest (verb url : string) (headers : list (string * string))
              (data : string) (timeout : Z)
  | OpConnectEx (host : string) (port : Z) (timeout : Z)
  | OpTls (hostname : option string) (port : Z) (timeout : Z)
  | OpMysql (host : string) (port : Z) (user password : string)
            (database : option string) (connect_timeout : Z)
  | OpRedis (host : string) (port : Z) (socket_timeout : Z).

(** The world outside the program: what the [n]-th network operation of a
    run answers and how long it takes (microseconds), and the library
    functions whose results the code consumes. *)
Record Env := mkEnv {
  (* requests.post/head/get: (status_code, text) *)
  requests_reply : nat -> NetOp -> Outcome (Z * string);
  (* socket.connect_ex: the error indicator *)
  connect_ex_reply : nat -> NetOp -> Outcome Z;
  (* create_connection, wrap_socket, getpeercert: the entry 'notAfter' *)
  tls_reply : nat -> NetOp -> Outcome (option string);
  (* pymysql.connect and conn.ping *)
  mysql_reply : nat -> NetOp -> Outcome unit;
  (* redis.Redis and r.ping *)
  redis_reply : nat -> NetOp -> Outcome unit;
  elapsed : nat -> Z;
  (* int(delta.total_seconds() * 1000) of a difference of clock readings: the
     product is one of floating-point numbers and is truncated *)
  total_milliseconds : Z -> Z;
  py_int : string -> Outcome Z;
  urlparse_hostname : string -> Outcome (option string);
  (* datetime.strptime(text, format), microseconds since the epoch *)
  strptime : string -> string -> Outcome Z;
  (* SQLite's CURRENT_TIMESTAMP at a clock reading *)
  current_timestamp : Z -> string;
  has_pymysql : bool;
  has_redis : bool
}.

(** The state of the process and of its database. *)
Record State := mkState {
  clock : Z;                              (* datetime.now(), microseconds *)
  trace : list NetOp;                     (* network operations so far *)
  heartbeats : list Heartbeat;
  monitor_logs : list LogRow;
  events : list EventRow;
  monitors : list Monitor;                (* in the order get_all_monitors lists *)
  last_status : gmap Z (gmap string Z);   (* {monitor_id: {check_type: status}} *)
  jobs : gmap Z Job;                      (* job "monitor_<id>" under key id *)
  sent : list Notification
}.

Definition set_net (s : State) (c : Z) (t : list NetOp) : State :=
  mkState c t (heartbeats s) (monitor_logs s) (events s) (monitors s)
    (last_status s) (jobs s) (sent s).
Definition set_heartbeats (s : State) (h : list Heartbeat) : State :=
  mkState (clock s) (trace s) h (monitor_logs s) (events s) (monitors s)
    (last_status s) (jobs s) (sent s).
Definition set_monitor_logs (s : State) (l : list LogRow) : State :=
  mkState (clock s) (trace s) (heartbeats s) l (events s) (monitors s)
    (last_status s) (jobs s) (sent s).
Definition set_events (s : State) (e : list EventRow) : State :=
  mkState (clock s) (trace s) (heartbeats s) (monitor_logs s) e (monitors s)
    (last_status s) (jobs s) (sent s).
Definition set_monitors (s : State) (m : list Monitor) : State :=
  mkState (clock s) (trace s) (heartbeats s) (monitor_logs s) (events s) m
    (last_status s) (jobs s) (sent s).
Definition set_last_status (s : State) (l : gmap Z (gmap string Z)) : State :=
  mkState (clock s) (trace s) (heartbeats s) (monitor_logs s) (events s)
    (monitors s) l (jobs s) (sent s).
Definition set_jobs (s : State) (j : gmap Z Job) : State :=
  mkState (clock s) (trace s) (heartbeats s) (monitor_logs s) (events s)
    (monitors s) (last_status s) j (sent s).
Definition set_sent (s : State) (n : list Notification) : State :=
  mkState (clock s) (trace s) (heartbeats s) (monitor_logs s) (events s)
    (monitors s) (last_status s) (jobs s) n.

(** ** The monad of stateful code that may raise *)

Definition M (A : Type) : Type := State -> Outcome A * State.

Definition ret {A} (a : A) : M A := fun s => (Ret a, s).
Definition raise {A} (e : Exn) : M A := fun s => (Raise e, s).
Definition bind {A B} (c : M A) (k : A -> M B) : M B :=
  fun s =>
    match c s with
    | (Ret a, s1) => k a s1
    | (Raise e, s1) => (Raise e, s1)
    end.

(** [try: c except Exception as e: h e]; what [c] did to the state before it
    raised stays done. *)
Definition try_catch {A} (c : M A) (h : Exn -> M A) : M A :=
  fun s =>
    match c s with
    | (Ret a, s1) => (Ret a, s1)
    | (Raise e, s1) => h e s1
    end.

(** The result of a library call becomes a value or a raised exception. *)
Definition lift {A} (o : Outcome A) : M A := fun s => (o, s).

Definition gets {A} (f : State -> A) : M A := fun s => (Ret (f s), s).
Definition modify (f : State -> State) : M unit := fun s => (Ret tt, f s).

Notation "'let*' x ':=' c 'in' k" := (bind c (fun x => k))
  (at level 10, x pattern, c at level 100, k at level 200).
Notation "c ';;' k" := (bind c (fun _ => k))
  (at level 100, k at level 200, right associativity).

(** [for x in xs: body x] *)
Fixpoint for_each {A} (xs : list A) (body : A -> M unit) : M unit :=
  match xs with
  | [] => ret tt
  | x :: rest => body x ;; for_each rest body
  end.

(** ** database.py *)

Module Db.

(** [add_log]: [INSERT INTO monitor_logs ...] *)
Definition add_log (monitor_id : Z) (check_type : string) (st rt code : Z)
    (msg : string) : M unit :=
  modify (fun s =>
    set_monitor_logs s
      (monitor_logs s ++ [mkLog monitor_id check_type st rt code msg])).

(** [add_event]: [INSERT INTO events ...] *)
Definition add_event (monitor_id : option Z) (event_type msg : string) : M unit :=
  modify (fun s => set_events s (events s ++ [mkEvent monitor_id event_type msg])).

(** [get_all_monitors] *)
Definition get_all_monitors : M (list Monitor) := gets monitors.

(** [get_monitor]: [SELECT * FROM monitors WHERE id = ?], first row. *)
Definition get_monitor (monitor_id : Z) : M (option Monitor) :=
  gets (fun s => List.find (fun m => m_id m =? monitor_id) (monitors s)).

(** [delete_monitor]: [DELETE FROM monitors WHERE id = ?].  The connection
    never turns foreign keys on, so no other table is touched. *)
Definition delete_monitor (monitor_id : Z) : M unit :=
  modify (fun s =>
    set_monitors s
      (List.filter (fun m => negb (m_id m =? monitor_id)) (monitors s))).

(** The row [ORDER BY created_at DESC LIMIT 1] keeps: the greatest
    [created_at] as text; among equal ones the row inserted first, which is
    the one SQLite's sorter answers with. *)
Fixpoint latest (rows : list Heartbeat) (best : option Heartbeat) : option Heartbeat :=
  match rows with
  | [] => best
  | r :: rest =>
      match best with
      | None => latest rest (Some r)
      | Some b =>
          if String.ltb (hb_created_at b) (hb_created_at r)
          then latest rest (Some r)
          else latest rest (Some b)
      end
  end.

(** The row [SELECT * FROM heartbeats WHERE monitor_id = ? ORDER BY
    created_at DESC LIMIT 1] fetches from the table [rows]. *)
Definition last_heartbeat (rows : list Heartbeat) (monitor_id : Z) : option Heartbeat :=
  latest (List.filter (fun h => hb_monitor_id h =? monitor_id) rows) None.

(** [get_last_heartbeat] *)
Definition get_last_heartbeat (monitor_id : Z) : M (option Heartbeat) :=
  gets (fun s => last_heartbeat (heartbeats s) monitor_id).

Section WithEnv.
Variable env : Env.

(** [add_heartbeat]: the heartbeat row, then the same status in the log
    under check type ['push']. *)
Definition add_heartbeat (monitor_id : Z) (st : Z) (msg : string) : M unit :=
  modify (fun s =>
    set_heartbeats s
      (heartbeats s ++
       [mkHeartbeat monitor_id st msg (current_timestamp env (clock s))])) ;;
  add_log monitor_id "push" st 0 0 msg.
End WithEnv.

End Db.

(** ** monitor.py: class MonitorChecker *)

Module MonitorChecker.

(** [d.setdefault(k, v)] on the pairs of a dictionary *)
Definition setdefault (k v : string) (d : list (string * string))
    : list (string * string) :=
  if existsb (fun kv => String.eqb (fst kv) k) d then d else d ++ [(k, v)].

(** [delta.days] *)
Definition days (delta : Z) : Z := delta / 86400000000.

(** [timedelta(seconds=n)] *)
Definition seconds (n : Z) : Z := n * 1000000.

(** The dictionary of the outer handler of [check] and of the last handler
    of the probes. *)
Definition failure (msg : string) : CheckResult := mkResult 0 0 0 msg.

Section WithEnv.
Variable env : Env.

Definition now : M Z := gets clock.

(** [int(delta.total_seconds() * 1000)] of a difference of clock readings *)
Definition millis (delta : Z) : Z := total_milliseconds env delta.

(** One network operation: it is appended to the trace, the clock moves
    on, and the world's answer is returned or raised. *)
Definition perform {A} (reply : Env -> nat -> NetOp -> Outcome A) (op : NetOp) : M A :=
  fun s =>
    let n := length (trace s) in
    (reply env n op, set_net s (clock s + elapsed env n) (trace s ++ [op])).

Definition check_http (monitor : Monitor) : M CheckResult :=
  let url := m_target monitor in
  let method := m_method monitor in
  let timeout := m_timeout monitor in
  let expected_status := m_expected_status monitor in
  let* headers :=
    match m_headers monitor with
    | HeadersObject kv => ret kv
    | HeadersUnparsable => ret []
    | HeadersNotObject ty =>
        (* headers.setdefault on a value that is no dict *)
        raise (mkExn OtherException
                 ("'" +:+ ty +:+ "' object has no attribute 'setdefault'"))
    end in
  let headers := setdefault "User-Agent" "SiteMonitor/1.0" headers in
  try_catch
    (let* start_time := now in
     let* response :=
       if String.eqb (PyStr.upper method) "POST" then
         perform requests_reply (OpRequest "POST" url headers (m_body monitor) timeout)
       else if String.eqb (PyStr.upper method) "HEAD" then
         perform requests_reply (OpRequest "HEAD" url headers "" timeout)
       else
         perform requests_reply (OpRequest "GET" url headers "" timeout) in
     let* end_time := now in
     let response_time := millis (end_time - start_time) in
     let code := fst response in
     let st := if (code =? expected_status) || (code <? 400) then 1 else 0 in
     ret (mkResult st response_time code
            (if negb (st =? 0) then "OK" else "状态码 " +:+ pretty code)))
    (fun e =>
       match exn_class e with
       | RequestsTimeout => ret (mkResult 0 (timeout * 1000) 0 "请求超时")
       | RequestsSSLError =>
           ret (failure ("SSL证书错误: " +:+ PyStr.take 100 (exn_str e)))
       | RequestsConnectionError => ret (failure "连接失败")
       | _ => ret (failure (PyStr.take 200 (exn_str e)))
       end).

Definition check_keyword (monitor : Monitor) : M CheckResult :=
  let* result := check_http monitor in
  if (status result =? 1) && PyStr.truthy (m_keyword monitor) then
    let keyword := m_keyword monitor in
    let url := m_target monitor in
    try_catch
      (let* response :=
         perform requests_reply (OpRequest "GET" url [] "" (m_timeout monitor)) in
       if PyStr.contains keyword (snd response) then
         ret (mkResult (status result) (response_time result)
                (status_code result) ("包含关键词: " +:+ keyword))
       else
         ret (mkResult 0 (response_time result)
                (status_code result) ("未找到关键词: " +:+ keyword)))
      (fun _ => ret result)
  else ret result.

Definition check_port (monitor : Monitor) : M CheckResult :=
  let target := m_target monitor in
  let timeout := m_timeout monitor in
  let* host_port :=
    if PyStr.contains ":" target && negb (PyStr.startswith target "[") then
      let parts := default (target, "") (PyStr.split_last ":" target) in
      let* port := lift (py_int env (snd parts)) in
      ret (fst parts, port)
    else ret (target, m_port monitor) in
  let host := fst host_port in
  let port := snd host_port in
  try_catch
    (let* start_time := now in
     let* result := perform connect_ex_reply (OpConnectEx host port timeout) in
     let* end_time := now in
     let response_time := millis (end_time - start_time) in
     if result =? 0 then
       ret (mkResult 1 response_time 0 ("端口 " +:+ pretty port +:+ " 开放"))
     else
       ret (failure ("端口 " +:+ pretty port +:+ " 未开放")))
    (fun e =>
       match exn_class e with
       | SocketTimeout => ret (mkResult 0 (timeout * 1000) 0 "连接超时")
       | _ => ret (failure (exn_str e))
       end).

Definition check_ping (monitor : Monitor) : M CheckResult :=
  check_port (with_port monitor 80).

Definition check_ssl_cert (monitor : Monitor) : M CheckResult :=
  let target := m_target monitor in
  let* hostname :=
    if PyStr.startswith target "http" then lift (urlparse_hostname env target)
    else ret (Some (PyStr.before_first ":" target)) in
  let port := 443 in
  try_catch
    (let* start_time := now in
     let* cert := perform tls_reply (OpTls hostname port 10) in
     let* end_time := now in
     let response_time := millis (end_time - start_time) in
     let* expire_date_str :=
       match cert with
       | Some text => ret text
       | None => raise (mkExn OtherException "'notAfter'")
       end in
     let* expire_date :=
       lift (strptime env expire_date_str "%b %d %H:%M:%S %Y %Z") in
     let* today := now in
     let days_left := days (expire_date - today) in
     if days_left <=? 0 then
       ret (mkResult 0 response_time days_left "证书已过期")
     else if days_left <=? 7 then
       ret (mkResult 0 response_time days_left
              ("证书将在 " +:+ pretty days_left +:+ " 天后过期"))
     else if days_left <=? 30 then
       ret (mkResult 1 response_time days_left
              ("证书剩余 " +:+ pretty days_left +:+ " 天（即将过期）"))
     else
       ret (mkResult 1 response_time days_left
              ("证书有效，剩余 " +:+ pretty days_left +:+ " 天")))
    (fun e =>
       match exn_class e with
       | SslSSLError => ret (failure ("SSL错误: " +:+ PyStr.take 100 (exn_str e)))
       | _ => ret (failure (PyStr.take 200 (exn_str e)))
       end).

Definition check_push (monitor : Monitor) : M CheckResult :=
  let* last_beat := Db.get_last_heartbeat (m_id monitor) in
  match last_beat with
  | None => ret (failure "从未收到心跳")
  | Some beat =>
      let interval := m_interval monitor in
      let* beat_time := lift (strptime env (hb_created_at beat) "%Y-%m-%d %H:%M:%S") in
      let* today := now in
      let timeout_threshold := today - seconds (interval * 2) in
      if beat_time <? timeout_threshold then
        ret (failure ("心跳超时，上次: " +:+ hb_created_at beat))
      else
        ret (mkResult (hb_status beat) 0 0 (hb_message beat))
  end.

Definition check_mysql (monitor : Monitor) : M CheckResult :=
  if negb (has_pymysql env) then ret (failure "缺少 pymysql 模块")
  else
    let target := m_target monitor in
    let timeout := m_timeout monitor in
    try_catch
      (let* account :=
         if PyStr.contains "@" target then
           let auth_rest := default (target, "") (PyStr.split_first "@" target) in
           let* user_password :=
             match PyStr.split_first ":" (fst auth_rest) with
             | Some up => ret up
             | None =>
                 raise (mkExn OtherException
                          "not enough values to unpack (expected 2, got 1)")
             end in
           let rest := snd auth_rest in
           if PyStr.contains "/" rest then
             let hd := default (rest, "") (PyStr.split_last "/" rest) in
             ret (user_password, hd)
           else ret (user_password, (rest, ""))
         else ret (("root", ""), (target, "")) in
       let user := fst (fst account) in
       let password := snd (fst account) in
       let host_port := fst (snd account) in
       let db := snd (snd account) in
       let* address :=
         if PyStr.contains ":" host_port then
           let hp := default (host_port, "") (PyStr.split_last ":" host_port) in
           let* port := lift (py_int env (snd hp)) in
           ret (fst hp, port)
         else ret (host_port, 3306) in
       let* start_time := now in
       perform mysql_reply
         (OpMysql (fst address) (snd address) user password
            (if PyStr.truthy db then Some db else None) timeout) ;;
       let* end_time := now in
       let response_time := millis (end_time - start_time) in
       ret (mkResult 1 response_time 0 "MySQL 连接正常"))
      (fun e => ret (failure ("MySQL 连接失败: " +:+ PyStr.take 100 (exn_str e)))).

Definition check_redis (monitor : Monitor) : M CheckResult :=
  if negb (has_redis env) then ret (failure "缺少 redis 模块")
  else
    let target := m_target monitor in
    let timeout := m_timeout monitor in
    try_catch
      (let target :=
         if PyStr.startswith target "redis://" then PyStr.drop 8 target
         else target in
       let* address :=
         if PyStr.contains ":" target then
           let hp := default (target, "") (PyStr.split_last ":" target) in
           let* port := lift (py_int env (snd hp)) in
           ret (fst hp, port)
         else ret (target, 6379) in
       let* start_time := now in
       perform redis_reply (OpRedis (fst address) (snd address) timeout) ;;
       let* end_time := now in
       let response_time := millis (end_time - start_time) in
       ret (mkResult 1 response_time 0 "Redis 连接正常"))
      (fun e => ret (failure ("Redis 连接失败: " +:+ PyStr.take 100 (exn_str e)))).

(** The dictionary [checkers] of [check], in the order it is written. *)
Definition checkers : list (string * (Monitor -> M CheckResult)) :=
  [ ("http", check_http);
    ("https", check_http);
    ("keyword", check_keyword);
    ("port", check_port);
    ("tcp", check_port);
    ("ping", check_ping);
    ("ssl", check_ssl_cert);
    ("push", check_push);
    ("mysql", check_mysql);
    ("redis", check_redis) ].

(** [d.get(key, dflt)] *)
Fixpoint dict_get {V} (d : list (string * V)) (key : string) (dflt : V) : V :=
  match d with
  | [] => dflt
  | (k, v) :: rest => if String.eqb k key then v else dict_get rest key dflt
  end.

(** The handler of [check]: [except Exception as e]. *)
Definition on_exception (e : Exn) : M CheckResult := ret (failure (exn_str e)).

Definition check (monitor : Monitor) : M CheckResult :=
  let* monitor_type :=
    match m_type monitor with
    | Some t => ret t
    | None => raise (mkExn OtherException "'type'")
    end in
  let checker := dict_get checkers monitor_type check_http in
  try_catch (checker monitor) on_exception.
End WithEnv.

End MonitorChecker.

(** ** app.py: the state tracker, the scheduler glue and three routes *)

Module App.
Import MonitorChecker.

Definition TYPE_NAMES : list (string * string) :=
  [ ("http", "HTTP");
    ("keyword", "关键词");
    ("ssl", "SSL证书");
    ("port", "端口");
    ("push", "推送");
    ("mysql", "MySQL");
    ("redis", "Redis") ].

(** What a route answers. *)
Inductive Response :=
  | RespSuccess                                   (* {'success': True} *)
  | RespOk                                        (* {'ok': True} *)
  | RespCheck (overall_status : Z) (results : gmap string CheckResult)
  | RespError (code : Z) (error : string)
  | RespAbort (code : Z).          (* the response of an HTTPException *)

(** The keys of a JSON object that [api_push_heartbeat] looks at: the status
    when it is an integer, the messages when they are texts.  A status or a
    message of another JSON type (null, a float, a list) is not
    represented. *)
Record JsonBody := mkJsonBody {
  j_status : option Z;
  j_msg : option string;
  j_message : option string
}.

(** What [request.json] does with the body of a request (Flask 2.1 and
    later). *)
Inductive JsonPayload :=
  | NotJson                        (* the content type is not JSON: 415 *)
  | BadJson                        (* the body does not parse: 400 *)
  | JsonFalsy                      (* null, false, 0, an empty text, list or object *)
  | JsonObject (body : JsonBody)   (* an object with at least one key *)
  | JsonOther (tyname : string).   (* another value: a number, a text, a list *)

Record Request := mkRequest {
  req_method : string;
  req_json : JsonPayload;
  req_args_status : option string;
  req_args_msg : option string
}.

(** The call of [send_notification] is recorded; its fan-out to the
    channels is the business of notify.py. *)
Definition send_notification (monitor : Monitor) (st : Z) (msg : string) : M unit :=
  modify (fun s => set_sent s (sent s ++ [mkNotification monitor st msg])).

(** [last_status[monitor_id]], a [KeyError] when the key is absent *)
Definition tracker_row (monitor_id : Z) : M (gmap string Z) :=
  fun s =>
    match last_status s !! monitor_id with
    | Some row => (Ret row, s)
    | None => (Raise (mkExn OtherException (pretty monitor_id)), s)
    end.

(** [for x in xs: acc = body acc x] *)
Fixpoint fold_each {A B} (xs : list A) (acc : B) (body : B -> A -> M B) : M B :=
  match xs with
  | [] => ret acc
  | x :: rest => let* acc' := body acc x in fold_each rest acc' body
  end.

Section WithEnv.
Variable env : Env.

(** The test [prev_status is not None and prev_status != current_status] of
    [check_monitor] and the block it guards. *)
Definition report_change (monitor : Monitor) (check_type : string)
    (result : CheckResult) (prev_status : option Z) : M unit :=
  let monitor_id := m_id monitor in
  let current_status := status result in
  match prev_status with
  | Some prev =>
      if negb (prev =? current_status) then
        let type_name := dict_get TYPE_NAMES check_type check_type in
        let event :=
          if current_status =? 0 then
            ("down", m_name monitor +:+ " [" +:+ type_name +:+ "] 异常: "
                       +:+ message result)
          else
            ("up", m_name monitor +:+ " [" +:+ type_name +:+ "] 恢复正常") in
        Db.add_event (Some monitor_id) (fst event) (snd event) ;;
        send_notification monitor current_status
          ("[" +:+ type_name +:+ "] " +:+ message result)
      else ret tt
  | None => ret tt
  end.

(** The body of the loop of [check_monitor], for one check type. *)
Definition check_one_type (monitor : Monitor) (check_type : string) : M unit :=
  if String.eqb check_type "push" then ret tt
  else
    let monitor_id := m_id monitor in
    let check_monitor_obj := with_type monitor check_type in
    let* result := check env check_monitor_obj in
    Db.add_log monitor_id check_type (status result) (response_time result)
      (status_code result) (message result) ;;
    let* row := tracker_row monitor_id in
    let prev_status := row !! check_type in
    let current_status := status result in
    report_change monitor check_type result prev_status ;;
    let* row := tracker_row monitor_id in
    modify (fun s =>
      set_last_status s
        (<[monitor_id := <[check_type := current_status]> row]> (last_status s))).

Definition check_monitor (monitor : Monitor) : M unit :=
  if m_enabled monitor =? 0 then ret tt
  else
    let monitor_id := m_id monitor in
    let types := m_types monitor in
    modify (fun s =>
      match last_status s !! monitor_id with
      | Some _ => s
      | None => set_last_status s (<[monitor_id := ∅]> (last_status s))
      end) ;;
    for_each types (check_one_type monitor).

(** [scheduler.remove_job(job_id)] inside [try: ... except: pass] *)
Definition remove_job (monitor_id : Z) : M unit :=
  modify (fun s => set_jobs s (delete monitor_id (jobs s))).

Definition schedule_monitor (monitor : Monitor) : M unit :=
  let interval := m_interval monitor in
  remove_job (m_id monitor) ;;
  let types := m_types monitor in
  let has_active_types := existsb (fun t => negb (String.eqb t "push")) types in
  if negb (m_enabled monitor =? 0) && has_active_types then
    modify (fun s =>
      set_jobs s (<[m_id monitor := mkJob interval monitor]> (jobs s)))
  else ret tt.

(** The scheduler firing the job of a monitor id: the job's callable on
    the job's arguments, nothing when there is no such job. *)
Definition run_job (monitor_id : Z) : M unit :=
  let* job := gets (fun s => jobs s !! monitor_id) in
  match job with
  | Some j => check_monitor (job_args j)
  | None => ret tt
  end.

(** [authorized] is the result of [check_auth()]. *)
Definition api_delete_monitor (authorized : bool) (monitor_id : Z) : M Response :=
  if negb authorized then ret (RespError 401 "未授权")
  else
    let* monitor := Db.get_monitor monitor_id in
    match monitor with
    | None => ret (RespError 404 "监控项目不存在")
    | Some m =>
        remove_job monitor_id ;;
        Db.delete_monitor monitor_id ;;
        Db.add_event None "delete" ("删除监控项目: " +:+ m_name m) ;;
        ret RespSuccess
    end.

(** The body of the loop of [api_check_now]; [acc] is [results] and
    [overall_status]. *)
Definition check_now_type (monitor : Monitor) (monitor_id : Z)
    (acc : gmap string CheckResult * Z) (check_type : string)
    : M (gmap string CheckResult * Z) :=
  if String.eqb check_type "push" then ret acc
  else
    let check_monitor_obj := with_type monitor check_type in
    let* result := check env check_monitor_obj in
    Db.add_log monitor_id check_type (status result) (response_time result)
      (status_code result) (message result) ;;
    ret (<[check_type := result]> (fst acc),
         if status result =? 0 then 0 else snd acc).

Definition api_check_now (monitor_id : Z) : M Response :=
  let* monitor := Db.get_monitor monitor_id in
  match monitor with
  | None => ret (RespError 404 "监控项目不存在")
  | Some m =>
      let types := m_types m in
      let* acc := fold_each types (∅, 1) (check_now_type m monitor_id) in
      ret (RespCheck (snd acc) (fst acc))
  end.

Definition api_push_heartbeat (token : string) (request : Request) : M Response :=
  let* rows := Db.get_all_monitors in
  let monitor :=
    List.find
      (fun m =>
         existsb (String.eqb "push") (m_types m) &&
         (String.eqb (pretty (m_id m)) token || String.eqb (m_target m) token))
      rows in
  match monitor with
  | None => ret (RespError 404 "无效的推送token")
  | Some m =>
      (* request.method == 'POST' and request.json *)
      let* posted :=
        if String.eqb (req_method request) "POST" then
          match req_json request with
          | NotJson => ret (inl 415)
          | BadJson => ret (inl 400)
          | JsonFalsy => ret (inr None)
          | JsonObject body => ret (inr (Some body))
          | JsonOther ty =>
              (* request.json.get on a value that is no dict *)
              raise (mkExn OtherException
                       ("'" +:+ ty +:+ "' object has no attribute 'get'"))
          end
        else ret (inr None) in
      match posted with
      | inl code => ret (RespAbort code)
      | inr posted =>
          let* beat :=
            match posted with
            | Some body =>
                ret (default 1 (j_status body),
                     default (default "OK" (j_message body)) (j_msg body))
            | None =>
                let text := default "" (req_args_status request) in
                if PyStr.truthy text then
                  let* st := lift (py_int env text) in
                  ret (st, default "OK" (req_args_msg request))
                else ret (1, "OK")
            end in
          Db.add_heartbeat env (m_id m) (fst beat) (snd beat) ;;
          ret RespOk
      end
  end.
End WithEnv.

End App.

(** ** A concrete world, for running the model *)

Module Demo.

Fixpoint digits_value (s : string) (acc : Z) : option Z :=
  match s with
  | EmptyString => Some acc
  | String a rest =>
      let n := Z.of_nat (nat_of_ascii a) in
      if (48 <=? n) && (n <=? 57) then digits_value rest (acc * 10 + (n - 48))
      else None
  end.

(** [int(text)] on plain decimal numerals; anything else is a [ValueError]. *)
Definition decimal_int (text : string) : Outcome Z :=
  match (if PyStr.truthy text then digits_value text 0 else None) with
  | Some z => Ret z
  | None =>
      Raise (mkExn OtherException
               ("invalid literal for int() with base 10: '" +:+ text +:+ "'"))
  end.

(** A world whose [n]-th HTTP request is answered by [http n], where every
    other kind of connection is refused, every operation takes 5 ms (of
    which the floating-point product makes 5) and every timestamp reads as
    the epoch. *)
Definition world (http : nat -> Outcome (Z * string)) : Env :=
  mkEnv (fun n _ => http n)
        (fun _ _ => Ret 111)
        (fun _ _ => Raise (mkExn OtherException "[Errno 111] Connection refused"))
        (fun _ _ => Raise (mkExn OtherException "(2003, 'Connection refused')"))
        (fun _ _ => Raise (mkExn OtherException "Error 111 connecting"))
        (fun _ => 5000)
        (fun delta => Z.quot delta 1000)
        decimal_int
        (fun _ => Ret None)
        (fun _ _ => Ret 0)
        (fun _ => "1970-01-01 00:00:00")
        true true.

Definition site : Monitor :=
  mkMonitor 1 "site" ["http"] "https://example.com" 60 30 "GET"
    (HeadersObject []) "" 200 "" 0 [] 1 None.

(** A page that must show the word "welcome". *)
Definition page : Monitor :=
  mkMonitor 2 "page" ["keyword"] "https://example.com" 60 30 "GET"
    (HeadersObject []) "" 200 "welcome" 0 [] 1 None.

(** An agent that reports by heartbeats. *)
Definition beacon : Monitor :=
  mkMonitor 3 "beacon" ["push"] "agent-7" 60 30 "GET"
    (HeadersObject []) "" 200 "" 0 [] 1 None.

Definition empty_state : State := mkState 0 [] [] [] [] [] ∅ ∅ [].

(** [site] stored, scheduled, and last seen up by its HTTP check. *)
Definition watching : State :=
  mkState 0 [] [] [] [] [site] {[ 1 := {[ "http" := 1 ]} ]}
    {[ 1 := mkJob 60 site ]} [].

End Demo.

(** ** Vocabulary of the properties *)

Import MonitorChecker App.

(** [s'] is [s] after some network operations: the clock and the trace
    moved, nothing else did. *)
Definition probe_step (s s' : State) : Prop :=
  ∃ c ops, s' = set_net s c (trace s ++ ops).

(** A computation that only performs network operations. *)
Definition Probes {A} (c : M A) : Prop := ∀ s, probe_step s (c s).2.

(** A transition is reported between [s] and [s']: one event for the
    monitor, ["down"] when the new status is 0 and ["up"] otherwise, and one
    call of [send_notification] with the new status. *)
Definition fires (s s' : State) (monitor : Monitor) (current_status : Z) : Prop :=
  ∃ text note,
    events s' =
      events s ++ [mkEvent (Some (m_id monitor))
                     (if current_status =? 0 then "down" else "up") text] ∧
    sent s' = sent s ++ [mkNotification monitor current_status note].

(** Nothing is reported between [s] and [s']. *)
Definition silent (s s' : State) : Prop :=
  events s' = events s ∧ sent s' = sent s.

(** [last_status[monitor_id].get(check_type)], [None] also when the monitor
    has no entry. *)
Definition tracked (s : State) (monitor_id : Z) (check_type : string) : option Z :=
  last_status s !! monitor_id ≫= (λ row, row !! check_type).

(** The check types a tick or a manual check probes: all but push. *)
Definition active_types (types : list string) : list string :=
  List.filter (fun t => negb (String.eqb t "push")) types.

(** The row [add_log] writes for a result. *)
Definition log_of (monitor_id : Z) (check_type : string) (r : CheckResult) : LogRow :=
  mkLog monitor_id check_type (status r) (response_time r) (status_code r) (message r).

Definition raised {A} (o : Outcome A) : bool :=
  match o with
  | Raise _ => true
  | Ret _ => false
  end.

(** The operation [op], performed as the [n]-th of the run, fails in the
    world [env]: it raises (a timeout, a connection or protocol error, any
    exception), [connect_ex] reports an error, or the certificate that a TLS
    connection yields has no expiry date or one that [strptime] rejects. *)
Definition op_fails (env : Env) (n : nat) (op : NetOp) : bool :=
  match op with
  | OpRequest _ _ _ _ _ => raised (requests_reply env n op)
  | OpConnectEx _ _ _ =>
      match connect_ex_reply env n op with
      | Ret rc => negb (rc =? 0)
      | Raise _ => true
      end
  | OpTls _ _ _ =>
      match tls_reply env n op with
      | Ret (Some text) => raised (strptime env text "%b %d %H:%M:%S %Y %Z")
      | Ret None => true
      | Raise _ => true
      end
  | OpMysql _ _ _ _ _ _ => raised (mysql_reply env n op)
  | OpRedis _ _ _ => raised (redis_reply env n op)
  end.

(** A probe that answers status 0 whenever it returns without having
    performed a network operation: the driver is missing, the address does
    not parse. *)
Definition Quiet (c : M CheckResult) : Prop :=
  ∀ s r, trace (c s).2 = trace s → (c s).1 = Ret r → status r = 0.

(** A probe that performs at most [bound] network operations and answers
    status 0 whenever the first of them fails. *)
Definition Guarded (env : Env) (bound : nat) (c : M CheckResult) : Prop :=
  ∀ s, ∃ ops,
    trace (c s).2 = trace s ++ ops ∧
    (length ops ≤ bound)%nat ∧
    ∀ op r,
      head ops = Some op →
      op_fails env (length (trace s)) op = true →
      (c s).1 = Ret r →
      status r = 0.



(** ** database.py and app.py: updating a monitor, scheduling at start *)

Module Admin.

(** The value under ['types'] in the body of a request: a list, or one
    string. *)
Inductive TypesValue :=
  | TypesList (types : list string)
  | TypesText (type : string).

(** The body of a PUT on a monitor: for each key, its value when the key is
    there.  ['headers'] and ['notify_channels'] are given as the row will
    decode them after [json.dumps]. *)
Record MonitorData := mkMonitorData {
  d_name : option string;
  d_target : option string;
  d_interval : option Z;
  d_timeout : option Z;
  d_method : option string;
  d_expected_status : option Z;
  d_keyword : option string;
  d_port : option Z;
  d_enabled : option Z;
  d_types : option TypesValue;
  d_headers : option Headers;
  d_notify_channels : option (list Z);
  d_body : option string
}.

(** The row after [UPDATE monitors SET ... WHERE id = ?] with the fields
    [update_monitor] collects: the nine plain keys, then types, headers,
    notify_channels. *)
Definition updated (data : MonitorData) (row : Monitor) : Monitor :=
  mkMonitor (m_id row)
    (default (m_name row) (d_name data))
    (match d_types data with
     | Some (TypesList types) => types
     | Some (TypesText type) => [type]
     | None => m_types row
     end)
    (default (m_target row) (d_target data))
    (default (m_interval row) (d_interval data))
    (default (m_timeout row) (d_timeout data))
    (default (m_method row) (d_method data))
    (default (m_headers row) (d_headers data))
    (m_body row)
    (default (m_expected_status row) (d_expected_status data))
    (default (m_keyword row) (d_keyword data))
    (default (m_port row) (d_port data))
    (default (m_notify_channels row) (d_notify_channels data))
    (default (m_enabled row) (d_enabled data))
    (m_type row).

(** [update_monitor]: the rows with the id are rewritten; the result is
    [cursor.rowcount > 0]. *)
Definition update_monitor (monitor_id : Z) (data : MonitorData) : M bool :=
  let* rows := gets monitors in
  modify (fun s =>
    set_monitors s
      (List.map (fun m => if m_id m =? monitor_id then updated data m else m)
         (monitors s))) ;;
  ret (existsb (fun m => m_id m =? monitor_id) rows).

(** [authorized] is the result of [check_auth()]. *)
Definition api_update_monitor (authorized : bool) (monitor_id : Z)
    (data : MonitorData) : M Response :=
  if negb authorized then ret (RespError 401 "未授权")
  else
    let* ok := update_monitor monitor_id data in
    if negb ok then ret (RespError 400 "更新失败")
    else
      let* monitor := Db.get_monitor monitor_id in
      match monitor with
      | Some m => schedule_monitor m
      | None =>
          (* monitor['id'] on None *)
          raise (mkExn OtherException "'NoneType' object is not subscriptable")
      end ;;
      ret RespSuccess.

(** [init_scheduler], as far as the jobs of monitors go: the daily job of
    [cleanup_old_data] and [scheduler.start()] are outside the table
    [jobs]. *)
Definition init_scheduler : M unit :=
  let* rows := Db.get_all_monitors in
  for_each rows schedule_monitor.

End Admin.

(** The job [schedule_monitor] leaves for a monitor. *)
Definition job_for (monitor : Monitor) : option Job :=
  if negb (m_enabled monitor =? 0) &&
     existsb (fun t => negb (String.eqb t "push")) (m_types monitor)
  then Some (mkJob (m_interval monitor) monitor)
  else None.

(** An event of the monitor [monitor_id], of type "down" or "up". *)
Definition transition_event (monitor_id : Z) (e : EventRow) : Prop :=
  ev_monitor_id e = Some monitor_id ∧ (ev_type e = "down" ∨ ev_type e = "up").

(** The monitor answers to the token of a heartbeat: it has the type
    "push", and the token is its id in decimal or its target. *)
Definition accepts_token (m : Monitor) (token : string) : Prop :=
  "push" ∈ m_types m ∧ (pretty (m_id m) = token ∨ m_target m = token).


(** The heartbeat route takes the heartbeat from the query string: the
    request is no POST, or its JSON body is falsy. *)
Definition reads_query (request : Request) : Prop :=
  req_method request ≠ "POST" ∨ req_json request = JsonFalsy.

(** [requests.exceptions.Timeout], as opposed to the other failures of a
    request. *)
Definition is_timeout (c : ExnClass) : bool :=
  match c with RequestsTimeout => true | _ => false end.


(** ** app.py: the administrator and the tokens *)

Module Auth.

(** [s.replace(pat, '')] for a non-empty [pat]: the occurrences of [pat] are
    dropped from left to right; [skip] counts the bytes of an occurrence that
    are still to drop. *)
Fixpoint remove_from (pat : string) (skip : nat) (s : string) : string :=
  match s with
  | EmptyString => EmptyString
  | String a rest =>
      match skip with
      | S k => remove_from pat k rest
      | O =>
          if String.prefix pat s
          then remove_from pat (String.length pat - 1) rest
          else String a (remove_from pat 0 rest)
      end
  end.

Definition remove (pat s : string) : string := remove_from pat 0 s.

(** [len(s)] *)
Definition len (s : string) : nat := PyStr.len s.

(** The row of the table [admin] (username, password hash), and the set
    [admin_tokens] of the process. *)
Record Accounts := mkAccounts {
  admin : option (string * string);
  admin_tokens : gset string
}.

(** What a route of [/api/auth] answers. *)
Inductive Answer :=
  | Success                                  (* {'success': True, ...} *)
  | Token (token : string)                   (* {'success': True, 'token': token} *)
  | Authenticated (authenticated need_setup : bool)
  | Error (code : Z) (error : string).

Section WithHash.
(** [hashlib.sha256(text.encode()).hexdigest()] *)
Variable sha256 : string -> string.

Definition hash_password (password : string) : string := sha256 password.

(** [check_auth]; [authorization] is the header when the request has it. *)
Definition check_auth (authorization : option string) (a : Accounts) : bool :=
  let token := remove "Bearer " (default "" authorization) in
  bool_decide (token ∈ admin_tokens a).

(** [create_admin]: the row with id 1 is inserted or overwritten. *)
Definition create_admin (username password_hash : string) (a : Accounts) : Accounts :=
  mkAccounts (Some (username, password_hash)) (admin_tokens a).

(** [verify_admin] *)
Definition verify_admin (username password_hash : string) (a : Accounts) : bool :=
  match admin a with
  | Some (u, h) => String.eqb u username && String.eqb h password_hash
  | None => false
  end.

(** [api_auth_setup]; the arguments are the keys of the body when present. *)
Definition api_auth_setup (username password : option string) (a : Accounts)
    : Outcome Answer * Accounts :=
  match admin a with
  | Some _ => (Ret (Error 400 "管理员已存在"), a)
  | None =>
      let username := default "admin" username in
      let password := default "" password in
      if Nat.ltb (len password) 6 then (Ret (Error 400 "密码至少6位"), a)
      else (Ret Success, create_admin username (hash_password password) a)
  end.

(** [api_auth_login]; [fresh] is what [secrets.token_hex(32)] returns. *)
Definition api_auth_login (username password : option string) (fresh : string)
    (a : Accounts) : Outcome Answer * Accounts :=
  let username := default "" username in
  let password := default "" password in
  match admin a with
  | None => (Ret (Error 401 "请先初始化管理员"), a)
  | Some _ =>
      if verify_admin username (hash_password password) a then
        (Ret (Token fresh), mkAccounts (admin a) ({[ fresh ]} ∪ admin_tokens a))
      else (Ret (Error 401 "用户名或密码错误"), a)
  end.

(** [api_auth_logout] *)
Definition api_auth_logout (authorization : option string) (a : Accounts)
    : Outcome Answer * Accounts :=
  let token := remove "Bearer " (default "" authorization) in
  (Ret Success, mkAccounts (admin a) (admin_tokens a ∖ {[ token ]})).

(** [api_auth_check] *)
Definition api_auth_check (authorization : option string) (a : Accounts)
    : Outcome Answer * Accounts :=
  match admin a with
  | None => (Ret (Authenticated false true), a)
  | Some _ => (Ret (Authenticated (check_auth authorization a) false), a)
  end.

(** [api_auth_password] *)
Definition api_auth_password (authorization : option string)
    (old_password new_password : option string) (a : Accounts)
    : Outcome Answer * Accounts :=
  if negb (check_auth authorization a) then (Ret (Error 401 "未授权"), a)
  else
    let old_password := default "" old_password in
    let new_password := default "" new_password in
    match admin a with
    | None =>
        (* admin['username'] on None *)
        (Raise (mkExn OtherException "'NoneType' object is not subscriptable"), a)
    | Some (username, _) =>
        if negb (verify_admin username (hash_password old_password) a) then
          (Ret (Error 400 "原密码错误"), a)
        else if Nat.ltb (len new_password) 6 then
          (Ret (Error 400 "新密码至少6位"), a)
        else
          (Ret Success, create_admin username (hash_password new_password) a)
    end.

End WithHash.

End Auth.

(** ** notify.py: what a call of [send_notification] does *)

Module Notify.

(** The values of a flat provider configuration. *)
Inductive JVal :=
  | JStr (text : string)
  | JInt (n : Z)
  | JBool (b : bool)
  | JNull.

(** [str(v)], as an f-string renders a value *)
Definition str (v : JVal) : string :=
  match v with
  | JStr text => text
  | JInt n => pretty n
  | JBool true => "True"
  | JBool false => "False"
  | JNull => "None"
  end.

(** [bool(v)] *)
Definition truthy (v : JVal) : bool :=
  match v with
  | JStr text => PyStr.truthy text
  | JInt n => negb (n =? 0)
  | JBool b => b
  | JNull => false
  end.

(** A row of [notify_channels]; [c_config] is the configuration when the
    column decodes to a JSON object. *)
Record Channel := mkChannel {
  c_id : Z;
  c_name : string;
  c_type : string;
  c_config : option (gmap string JVal);
  c_enabled : Z
}.

(** What a provider is asked to do: where the request goes and under which
    title; the body of the message is not recorded. *)
Inductive Delivery :=
  | SmtpConnect (use_ssl : bool) (host port : JVal)
  | SmtpSubmit (user password from_email to_email : JVal) (subject : string)
  | HttpPost (url : JVal) (title : string)
  | HttpGet (url : string).

(** What the [n]-th request of a run answers: an HTTP status code (any
    number for SMTP), or an exception. *)
Definition Providers : Type := nat -> Delivery -> Outcome Z.

(** Code that sends requests and may raise. *)
Definition Sending (A : Type) : Type := list Delivery -> Outcome A * list Delivery.

Definition nret {A} (a : A) : Sending A := fun t => (Ret a, t).
Definition nraise {A} (e : Exn) : Sending A := fun t => (Raise e, t).
Definition nbind {A B} (c : Sending A) (k : A -> Sending B) : Sending B :=
  fun t =>
    match c t with
    | (Ret a, t1) => k a t1
    | (Raise e, t1) => (Raise e, t1)
    end.
Definition ntry {A} (c : Sending A) (h : Exn -> Sending A) : Sending A :=
  fun t =>
    match c t with
    | (Ret a, t1) => (Ret a, t1)
    | (Raise e, t1) => h e t1
    end.

Notation "'let+' x ':=' c 'in' k" := (nbind c (fun x => k))
  (at level 10, x pattern, c at level 100, k at level 200).

(** [config[key]], a [KeyError] when the key is absent *)
Definition item (config : gmap string JVal) (key : string) : Sending JVal :=
  match config !! key with
  | Some v => nret v
  | None => nraise (mkExn OtherException ("'" +:+ key +:+ "'"))
  end.

Section WithProviders.
Variable world : Providers.

Definition request (d : Delivery) : Sending Z :=
  fun t => (world (length t) d, t ++ [d]).

(** The title [format_message] builds. *)
Definition title (monitor : Monitor) (st : Z) : string :=
  let status_text := if negb (st =? 0) then "✅ 恢复正常" else "❌ 故障告警" in
  "[" +:+ status_text +:+ "] " +:+ m_name monitor.

Definition send_email (config : gmap string JVal) (monitor : Monitor) (st : Z)
    (message : string) : Sending bool :=
  ntry
    (let+ from_email := item config "from_email" in
     let+ to_email := item config "to_email" in
     let+ _ :=
       if truthy (default (JBool true) (config !! "use_ssl")) then
         let+ host := item config "smtp_host" in
         request (SmtpConnect true host (default (JInt 465) (config !! "smtp_port")))
       else
         let+ host := item config "smtp_host" in
         request (SmtpConnect false host (default (JInt 587) (config !! "smtp_port"))) in
     let+ user := item config "smtp_user" in
     let+ password := item config "smtp_pass" in
     let+ _ := request (SmtpSubmit user password from_email to_email (title monitor st)) in
     nret true)
    (fun _ => nret false).

Definition send_webhook (config : gmap string JVal) (monitor : Monitor) (st : Z)
    (message : string) : Sending bool :=
  let+ url := item config "url" in
  let+ _ :=
    (* the payload reads monitor['type'] *)
    match m_type monitor with
    | Some t => nret t
    | None => nraise (mkExn OtherException "'type'")
    end in
  ntry
    (let+ code := request (HttpPost url (title monitor st)) in
     nret (code <? 400))
    (fun _ => nret false).

Definition send_wechat (config : gmap string JVal) (monitor : Monitor) (st : Z)
    (message : string) : Sending bool :=
  let+ webhook_url := item config "webhook_url" in
  ntry
    (let+ code := request (HttpPost webhook_url (title monitor st)) in
     nret (code =? 200))
    (fun _ => nret false).

Definition send_telegram (config : gmap string JVal) (monitor : Monitor) (st : Z)
    (message : string) : Sending bool :=
  let+ bot_token := item config "bot_token" in
  let+ chat_id := item config "chat_id" in
  let url := "https://api.telegram.org/bot" +:+ str bot_token +:+ "/sendMessage" in
  ntry
    (let+ code := request (HttpPost (JStr url) (title monitor st)) in
     nret (code =? 200))
    (fun _ => nret false).

Definition send_bark (config : gmap string JVal) (monitor : Monitor) (st : Z)
    (message : string) : Sending bool :=
  let server := default (JStr "https://api.day.app") (config !! "server") in
  let+ key := item config "key" in
  let url :=
    str server +:+ "/" +:+ str key +:+ "/" +:+ title monitor st +:+ "/" +:+ message in
  ntry
    (let+ code := request (HttpGet url) in
     nret (code =? 200))
    (fun _ => nret false).

Definition send_pushplus (config : gmap string JVal) (monitor : Monitor) (st : Z)
    (message : string) : Sending bool :=
  let+ token := item config "token" in
  let url := "http://www.pushplus.plus/send" in
  ntry
    (let+ code := request (HttpPost (JStr url) (title monitor st)) in
     nret (code =? 200))
    (fun _ => nret false).

Definition send_serverchan (config : gmap string JVal) (monitor : Monitor) (st : Z)
    (message : string) : Sending bool :=
  let+ sendkey := item config "sendkey" in
  let url := "https://sctapi.ftqq.com/" +:+ str sendkey +:+ ".send" in
  ntry
    (let+ code := request (HttpPost (JStr url) (title monitor st)) in
     nret (code =? 200))
    (fun _ => nret false).

(** The dictionary [self.handlers] of [Notifier]. *)
Definition handlers
    : list (string * (gmap string JVal -> Monitor -> Z -> string -> Sending bool)) :=
  [ ("email", send_email);
    ("webhook", send_webhook);
    ("wechat", send_wechat);
    ("telegram", send_telegram);
    ("bark", send_bark);
    ("pushplus", send_pushplus);
    ("serverchan", send_serverchan) ].

(** [d.get(key)] *)
Fixpoint lookup_handler {V} (d : list (string * V)) (key : string) : option V :=
  match d with
  | [] => None
  | (k, v) :: rest => if String.eqb k key then Some v else lookup_handler rest key
  end.

(** [Notifier.send] *)
Definition send (channel : Channel) (monitor : Monitor) (st : Z) (message : string)
    : Sending bool :=
  let channel_type := c_type channel in
  match lookup_handler handlers channel_type with
  | None => nret false
  | Some handler =>
      ntry
        (let+ config :=
           match c_config channel with
           | Some config => nret config
           | None => nraise (mkExn OtherException "config")
           end in
         handler config monitor st message)
        (fun _ => nret false)
  end.

(** [for channel in channels: ...] of [send_notification] *)
Fixpoint send_each (channels : list Channel) (notify_channel_ids : list Z)
    (monitor : Monitor) (st : Z) (message : string) : Sending unit :=
  match channels with
  | [] => nret tt
  | channel :: rest =>
      let+ _ :=
        if existsb (Z.eqb (c_id channel)) notify_channel_ids
           && negb (c_enabled channel =? 0)
        then let+ _ := send channel monitor st message in nret tt
        else nret tt in
      send_each rest notify_channel_ids monitor st message
  end.

(** [send_notification]; [channels] is the table [notify_channels], read
    only when the monitor lists a channel. *)
Definition send_notification (channels : list Channel) (monitor : Monitor) (st : Z)
    (message : string) : Sending unit :=
  let notify_channel_ids := m_notify_channels monitor in
  match notify_channel_ids with
  | [] => nret tt
  | _ => send_each channels notify_channel_ids monitor st message
  end.

End WithProviders.

End Notify.

(** The keys a provider reads from its configuration before it sends
    anything. *)
Definition required_keys (channel_type : string) : list string :=
  if String.eqb channel_type "email" then ["from_email"; "to_email"; "smtp_host"]
  else if String.eqb channel_type "webhook" then ["url"]
  else if String.eqb channel_type "wechat" then ["webhook_url"]
  else if String.eqb channel_type "telegram" then ["bot_token"; "chat_id"]
  else if String.eqb channel_type "bark" then ["key"]
  else if String.eqb channel_type "pushplus" then ["token"]
  else if String.eqb channel_type "serverchan" then ["sendkey"]
  else [].

(** An HTTP request, as opposed to a step of an SMTP session. *)
Definition is_http (d : Notify.Delivery) : bool :=
  match d with
  | Notify.HttpPost _ _ | Notify.HttpGet _ => true
  | _ => false
  end.

(** The channel is one [send_notification] sends to: listed by the monitor
    and enabled. *)
Definition selected (notify_channel_ids : list Z) (channel : Notify.Channel) : bool :=
  existsb (Z.eqb (Notify.c_id channel)) notify_channel_ids
  && negb (Notify.c_enabled channel =? 0).


(** ** Sample monitors, requests, accounts and channels *)

Module Samples.


(** A database whose port is part of the address; the configured port is
    another one. *)
Definition gateway : Monitor :=
  mkMonitor 5 "gateway" ["port"] "db.internal:5432" 60 30 "GET"
    (HeadersObject []) "" 200 "" 22 [] 1 None.

(** An address whose port is the name of a service. *)
Definition misnamed : Monitor :=
  mkMonitor 6 "misnamed" ["port"] "db.internal:http" 60 30 "GET"
    (HeadersObject []) "" 200 "" 0 [] 1 (Some "port").

(** A shop that serves TLS on a port of its own. *)
Definition shop : Monitor :=
  mkMonitor 7 "shop" ["ssl"] "example.com:8443" 60 30 "GET"
    (HeadersObject []) "" 200 "" 0 [] 1 None.

Definition orders : Monitor :=
  mkMonitor 8 "orders" ["mysql"] "app:s3cret@db.internal:3307/shop" 60 30 "GET"
    (HeadersObject []) "" 200 "" 0 [] 1 None.

Definition cache : Monitor :=
  mkMonitor 9 "cache" ["redis"] "redis://cache.internal:6380" 60 30 "GET"
    (HeadersObject []) "" 200 "" 0 [] 1 None.

(** [n] times the text [s]. *)
Fixpoint repeat_text (n : nat) (s : string) : string :=
  match n with
  | O => EmptyString
  | S k => s +:+ repeat_text k s
  end.

(** A certificate error whose text is 150 times the code point U+8BC1, of
    three bytes. *)
Definition handshake_failure : Exn :=
  mkExn RequestsSSLError (repeat_text 150 "证").

(** A host given as an IPv6 address in brackets, with a port. *)
Definition loopback : Monitor :=
  mkMonitor 11 "loopback" ["ping"] "[::1]:8080" 60 30 "GET"
    (HeadersObject []) "" 200 "" 0 [] 1 None.


(** A world like that of [Demo], where the TLS handshake succeeds and the
    certificate carries no expiry date. *)
Definition undated : Env :=
  mkEnv (fun _ _ => Ret (200, ""))
        (fun _ _ => Ret 111)
        (fun _ _ => Ret None)
        (fun _ _ => Raise (mkExn OtherException "(2003, 'Connection refused')"))
        (fun _ _ => Raise (mkExn OtherException "Error 111 connecting"))
        (fun _ => 5000)
        (fun delta => Z.quot delta 1000)
        Demo.decimal_int
        (fun _ => Ret None)
        (fun _ _ => Ret 0)
        (fun _ => "1970-01-01 00:00:00")
        true true.

(** The site and the beacon stored, nothing scheduled yet. *)
Definition fleet : State :=
  set_monitors Demo.empty_state [Demo.site; Demo.beacon].

(** The body of a PUT that disables a monitor. *)
Definition pause : Admin.MonitorData :=
  Admin.mkMonitorData None None None None None None None None (Some 0)
    None None None None.


(** Two heartbeats of monitor 3 and one of monitor 1. *)
Definition beats : list Heartbeat :=
  [mkHeartbeat 3 1 "OK" "2024-05-01 10:00:00";
   mkHeartbeat 1 1 "OK" "2024-05-01 11:00:00";
   mkHeartbeat 3 0 "disk full" "2024-05-01 10:05:00"].

(** A stand-in for SHA-256. *)
Definition digest (text : string) : string := "sha256:" +:+ text.

(** No administrator yet. *)
Definition fresh_install : Auth.Accounts := Auth.mkAccounts None ∅.

(** An administrator with two sessions. *)
Definition two_sessions : Auth.Accounts :=
  Auth.mkAccounts (Some ("root", digest "secret1")) ({[ "t1" ]} ∪ {[ "t2" ]}).

(** A webhook, an enterprise WeChat robot whose address is missing, and a
    Bark device that is switched off. *)
Definition hook : Notify.Channel :=
  Notify.mkChannel 1 "ops" "webhook"
    (Some {[ "url" := Notify.JStr "https://hooks.example/ops" ]}) 1.

Definition robot : Notify.Channel :=
  Notify.mkChannel 2 "room" "wechat" (Some ∅) 1.

Definition phone : Notify.Channel :=
  Notify.mkChannel 3 "phone" "bark"
    (Some {[ "key" := Notify.JStr "k3y" ]}) 0.

(** Every provider answers 204. *)
Definition accepted : Notify.Providers := fun _ _ => Ret 204.

(** The site as a probe sees it, with the key ['type'], notifying the
    channels 1 and 3. *)
Definition typed_site : Monitor :=
  mkMonitor 1 "site" ["http"] "https://example.com" 60 30 "GET"
    (HeadersObject []) "" 200 "" 0 [1; 3] 1 (Some "http").

End Samples.

(** One observation of a scheduled check: between [s] and [s'] the check
    type [check_type] of the monitor was probed with the result [result].
    The result is logged and its status recorded under (monitor id, check
    type), every other key of the tracker keeping what it had; an event and
    a notification are produced exactly when a status was recorded under the
    key before and differs from the new one, and nothing is produced
    otherwise, so nothing on the first observation of the key. *)
Definition observed (monitor : Monitor) (check_type : string) (result : CheckResult)
    (s s' : State) : Prop :=
  let prev_status := tracked s (m_id monitor) check_type in
  let differs := ∃ prev, prev_status = Some prev ∧ prev ≠ status result in
  monitor_logs s' = monitor_logs s ++ [log_of (m_id monitor) check_type result] ∧
  tracked s' (m_id monitor) check_type = Some (status result) ∧
  (∀ other_id other_type,
     (other_id, other_type) ≠ (m_id monitor, check_type) →
     tracked s' other_id other_type = tracked s other_id other_type) ∧
  (fires s s' monitor (status result) ↔ differs) ∧
  (silent s s' ↔ ¬ differs) ∧
  (prev_status = None → silent s s').

(** The observations of a scheduled check over the check types [types], in
    their order, lead from [s] to [s']: push is passed over, and every other
    type is probed by [check] in the state the observations before it left,
    and observed. *)
Fixpoint passes (env : Env) (monitor : Monitor) (types : list string)
    (s s' : State) : Prop :=
  match types with
  | [] => s' = s
  | check_type :: rest =>
      if String.eqb check_type "push" then passes env monitor rest s s'
      else
        ∃ result s1,
          (check env (with_type monitor check_type) s).1 = Ret result ∧
          observed monitor check_type result s s1 ∧
          passes env monitor rest s1 s'
  end.


(** * Properties *)

(** ** The monad *)

Ltac unfold_monad :=
  unfold now, perform in *;
  unfold bind, ret, raise, try_catch, lift, gets, modify in *.

Lemma app_singleton_inv {A} (l : list A) (x y : A) : l ++ [x] = l ++ [y] → x = y.
Proof. intros H. apply app_inv_head in H. congruence. Qed.

Lemma app_nonempty_neq {A} (l : list A) (x : A) : l ≠ l ++ [x].
Proof.
  intros H. apply (f_equal (@length A)) in H.
  rewrite length_app in H. simpl in H. lia.
Qed.

(** ** The HTTP probe *)

(** C2. When the request of an HTTP probe is answered with code [c], the
    probe returns a result carrying [c] whose status is 1 exactly when
    [c < 400] or [c] is the expected status, and 0 exactly otherwise. *)
Theorem check_http_status_iff (env : Env) (monitor : Monitor) (s : State)
    (op : NetOp) (c : Z) (text : string) :
  trace (check_http env monitor s).2 = trace s ++ [op] →
  requests_reply env (length (trace s)) op = Ret (c, text) →
  ∃ r, (check_http env monitor s).1 = Ret r ∧
       status_code r = c ∧
       (status r = 1 ↔ c < 400 ∨ c = m_expected_status monitor) ∧
       (status r = 0 ↔ ¬ (c < 400 ∨ c = m_expected_status monitor)).
Proof.
  unfold check_http. unfold_monad.
  destruct (m_headers monitor) as [kv| |ty]; simpl;
    try (intros Habs; exfalso; exact (app_nonempty_neq _ _ Habs)).
  all: destruct (String.eqb (PyStr.upper (m_method monitor)) "POST");
    [|destruct (String.eqb (PyStr.upper (m_method monitor)) "HEAD")]; simpl.
  all: match goal with
       | |- context [requests_reply ?w ?n ?o] =>
           destruct (requests_reply w n o) as [[c' t']|e] eqn:Hreply; simpl
       end.
  all: try (destruct (exn_class e); simpl).
  all: intros Htr Hop; apply app_singleton_inv in Htr; subst op;
    rewrite Hreply in Hop; try discriminate; injection Hop as -> ->.
  all: eexists; split; [reflexivity|]; simpl; split; [reflexivity|].
  all: destruct (c =? m_expected_status monitor) eqn:E1;
    destruct (c <? 400) eqn:E2; simpl; split; split; intros; try lia; try discriminate.
Qed.

(** The probe applied to a site that answers 404 when 404 is expected. *)
Lemma check_http_status_iff_witness :
  ∃ r, (check_http (Demo.world (fun _ => Ret (404, "")))
          Demo.site Demo.empty_state).1 = Ret r ∧
       status_code r = 404 ∧
       (status r = 1 ↔ 404 < 400 ∨ 404 = 200) ∧
       (status r = 0 ↔ ¬ (404 < 400 ∨ 404 = 200)).
Proof.
  exact (check_http_status_iff (Demo.world (fun _ => Ret (404, "")))
           Demo.site Demo.empty_state
           (OpRequest "GET" "https://example.com"
              [("User-Agent", "SiteMonitor/1.0")] "" 30)
           404 "" eq_refl eq_refl).
Defined.

(** ** The certificate probe *)



(** ** The push probe *)

(** The order of the timestamps, which SQLite compares as texts. *)
Lemma ltb_lt (a b : string) : String.ltb a b = true ↔ String.compare a b = Lt.
Proof. unfold String.ltb. destruct (String.compare a b); split; done. Qed.

Lemma ltb_trans (a b c : string) :
  String.ltb a b = true → String.ltb b c = true → String.ltb a c = true.
Proof.
  rewrite !ltb_lt. intros Hab Hbc.
  apply OrderedTypeEx.String_as_OT.cmp_lt.
  eapply OrderedTypeEx.String_as_OT.lt_trans;
    apply OrderedTypeEx.String_as_OT.cmp_lt; eassumption.
Qed.

Lemma ltb_irrefl (a : string) : String.ltb a a = false.
Proof.
  apply not_true_is_false. intros H. apply ltb_lt in H.
  assert (String.compare a a = Eq) by (by apply OrderedTypeEx.String_as_OT.cmp_eq).
  congruence.
Qed.

Lemma ltb_asym (a b : string) : String.ltb a b = true → String.ltb b a = false.
Proof.
  intros H. apply ltb_lt in H. unfold String.ltb.
  pose proof (OrderedTypeEx.String_as_OT.cmp_antisym b a) as Hanti.
  unfold OrderedTypeEx.String_as_OT.cmp in Hanti. rewrite H in Hanti.
  by rewrite Hanti.
Qed.

(** Not below is transitive: the order is total. *)
Lemma not_ltb_trans (a b c : string) :
  String.ltb a b = false → String.ltb b c = false → String.ltb a c = false.
Proof.
  intros Hab Hbc. apply not_true_is_false. intros Hac.
  apply ltb_lt in Hac.
  destruct (String.compare b c) eqn:Ebc.
  - apply OrderedTypeEx.String_as_OT.cmp_eq in Ebc. subst c.
    apply ltb_lt in Hac. congruence.
  - apply ltb_lt in Ebc. congruence.
  - assert (Hcb : String.compare c b = Lt).
    { pose proof (OrderedTypeEx.String_as_OT.cmp_antisym c b) as Hanti.
      unfold OrderedTypeEx.String_as_OT.cmp in Hanti. rewrite Ebc in Hanti. exact Hanti. }
    assert (String.ltb a b = true) as Hlt
      by (eapply ltb_trans; apply ltb_lt; eassumption).
    congruence.
Qed.


(** What [Db.latest] answers: a row that none is later than. *)
Lemma latest_spec (rows : list Heartbeat) (best : option Heartbeat) :
  match Db.latest rows best with
  | Some b =>
      (b ∈ rows ∨ best = Some b) ∧
      (∀ x, x ∈ rows → String.ltb (hb_created_at b) (hb_created_at x) = false) ∧
      (∀ x, best = Some x → String.ltb (hb_created_at b) (hb_created_at x) = false)
  | None => rows = [] ∧ best = None
  end.
Proof.
  revert best. induction rows as [|r rows IH]; intros best; cbn [Db.latest].
  - destruct best as [b|]; [|done]. split; [by right|].
    split; [intros x Hx; by apply elem_of_nil in Hx|].
    intros x [= <-]. apply ltb_irrefl.
  - destruct best as [b|].
    + destruct (String.ltb (hb_created_at b) (hb_created_at r)) eqn:E.
      * specialize (IH (Some r)).
        destruct (Db.latest rows (Some r)) as [w|]; [|by destruct IH].
        destruct IH as (Hin & Hrows & Hbest). split; [|split].
        -- left. destruct Hin as [Hin|[= <-]]; apply elem_of_cons; [by right|by left].
        -- intros x Hx. apply elem_of_cons in Hx as [->|Hx]; [by apply Hbest|by apply Hrows].
        -- intros x [= <-]. specialize (Hbest r eq_refl).
           destruct (String.ltb (hb_created_at w) (hb_created_at b)) eqn:Ewb; [|done].
           pose proof (ltb_trans _ _ _ Ewb E). congruence.
      * specialize (IH (Some b)).
        destruct (Db.latest rows (Some b)) as [w|]; [|by destruct IH].
        destruct IH as (Hin & Hrows & Hbest). split; [|split].
        -- destruct Hin as [Hin|Hin]; [left; apply elem_of_cons; by right|by right].
        -- intros x Hx. apply elem_of_cons in Hx as [->|Hx]; [|by apply Hrows].
           eapply not_ltb_trans; [by apply Hbest|exact E].
        -- done.
    + specialize (IH (Some r)).
      destruct (Db.latest rows (Some r)) as [w|]; [|by destruct IH].
      destruct IH as (Hin & Hrows & Hbest). split; [|split].
      * left. destruct Hin as [Hin|[= <-]]; apply elem_of_cons; [by right|by left].
      * intros x Hx. apply elem_of_cons in Hx as [->|Hx]; [by apply Hbest|by apply Hrows].
      * done.
Qed.










(** ** The dispatcher *)

Lemma dict_get_absent {V} (d : list (string * V)) (key : string) (dflt : V) :
  key ∉ List.map fst d → dict_get d key dflt = dflt.
Proof.
  induction d as [|[k v] d IH]; simpl; [reflexivity|].
  intros Hnot. destruct (String.eqb_spec k key) as [->|_].
  - exfalso. apply Hnot. apply elem_of_cons. by left.
  - apply IH. intros Hin. apply Hnot. apply elem_of_cons. by right.
Qed.

(** C10. A monitor whose type is none of the ten keys of [checkers] is
    probed by [check_http], inside the handler of [check]. *)
Theorem check_unknown_type_uses_http (env : Env) (monitor : Monitor)
    (monitor_type : string) (s : State) :
  m_type monitor = Some monitor_type →
  monitor_type ∉ ["http"; "https"; "keyword"; "port"; "tcp"; "ping"; "ssl";
                  "push"; "mysql"; "redis"] →
  check env monitor s = try_catch (check_http env monitor) on_exception s.
Proof.
  intros Htype Hnot. unfold check. rewrite Htype. unfold bind at 1, ret at 1.
  rewrite dict_get_absent; [reflexivity|exact Hnot].
Qed.

(** A monitor of type "dns" whose address answers 200. *)
Lemma check_unknown_type_uses_http_witness :
  check (Demo.world (fun _ => Ret (200, ""))) (with_type Demo.site "dns")
    Demo.empty_state =
  try_catch (check_http (Demo.world (fun _ => Ret (200, ""))) (with_type Demo.site "dns"))
    on_exception Demo.empty_state.
Proof.
  apply (check_unknown_type_uses_http _ _ "dns"); [reflexivity|].
  intros H. repeat (apply elem_of_cons in H as [H|H]; [discriminate H|]).
  by apply elem_of_nil in H.
Defined.

(** ** What a probe may touch *)

Lemma probe_step_refl s : probe_step s s.
Proof. exists (clock s), []. destruct s. unfold set_net. simpl. by rewrite app_nil_r. Qed.

Lemma probe_step_trans s1 s2 s3 :
  probe_step s1 s2 → probe_step s2 s3 → probe_step s1 s3.
Proof.
  intros (c & ops & ->) (c' & ops' & ->). exists c', (ops ++ ops').
  unfold set_net. simpl. by rewrite app_assoc.
Qed.

Lemma Probes_ret {A} (a : A) : Probes (ret a).
Proof. intros s. apply probe_step_refl. Qed.

Lemma Probes_raise {A} e : Probes (@raise A e).
Proof. intros s. apply probe_step_refl. Qed.

Lemma Probes_lift {A} (o : Outcome A) : Probes (lift o).
Proof. intros s. apply probe_step_refl. Qed.

Lemma Probes_gets {A} (f : State → A) : Probes (gets f).
Proof. intros s. apply probe_step_refl. Qed.

Lemma Probes_perform {A} env (reply : Env → nat → NetOp → Outcome A) op :
  Probes (perform env reply op).
Proof. intros s. unfold perform. simpl. by eexists _, [op]. Qed.

Lemma Probes_bind {A B} (c : M A) (k : A → M B) :
  Probes c → (∀ a, Probes (k a)) → Probes (bind c k).
Proof.
  intros Hc Hk s. unfold bind. specialize (Hc s).
  destruct (c s) as [[a|e] s1]; simpl in *; [|exact Hc].
  eapply probe_step_trans; [exact Hc|apply Hk].
Qed.

Lemma Probes_try {A} (c : M A) (h : Exn → M A) :
  Probes c → (∀ e, Probes (h e)) → Probes (try_catch c h).
Proof.
  intros Hc Hh s. unfold try_catch. specialize (Hc s).
  destruct (c s) as [[a|e] s1]; simpl in *; [exact Hc|].
  eapply probe_step_trans; [exact Hc|apply Hh].
Qed.

Ltac probes_step :=
  first
    [ apply Probes_ret | apply Probes_raise | apply Probes_lift
    | apply Probes_gets | apply Probes_perform
    | apply Probes_bind; [|intros ?] | apply Probes_try; [|intros ?]
    | match goal with
      | |- Probes (if ?b then _ else _) => destruct b
      | |- Probes (match ?x with _ => _ end) => destruct x
      end ].

Ltac probes := repeat probes_step.

Lemma Probes_check_http env monitor : Probes (check_http env monitor).
Proof. unfold check_http, now. probes. Qed.

Lemma Probes_check_keyword env monitor : Probes (check_keyword env monitor).
Proof. unfold check_keyword, check_http, now. probes. Qed.

Lemma Probes_check_port env monitor : Probes (check_port env monitor).
Proof. unfold check_port, now. probes. Qed.

Lemma Probes_check_ssl_cert env monitor : Probes (check_ssl_cert env monitor).
Proof. unfold check_ssl_cert, now. probes. Qed.

Lemma Probes_check_push env monitor : Probes (check_push env monitor).
Proof. unfold check_push, Db.get_last_heartbeat, now. probes. Qed.

Lemma Probes_check_mysql env monitor : Probes (check_mysql env monitor).
Proof. unfold check_mysql, now. probes. Qed.

Lemma Probes_check_redis env monitor : Probes (check_redis env monitor).
Proof. unfold check_redis, now. probes. Qed.

(** The ten keys of [checkers]: the probe the dispatcher selects is one of
    nine functions. *)
Lemma dict_get_checkers env monitor_type :
  let checker := dict_get (checkers env) monitor_type (check_http env) in
  checker = check_http env ∨ checker = check_keyword env ∨
  checker = check_port env ∨ checker = check_ping env ∨
  checker = check_ssl_cert env ∨ checker = check_push env ∨
  checker = check_mysql env ∨ checker = check_redis env.
Proof.
  unfold checkers. cbn [dict_get].
  repeat match goal with
         | |- context [String.eqb ?k monitor_type] =>
             destruct (String.eqb k monitor_type)
         end; tauto.
Qed.

Lemma Probes_check env monitor : Probes (check env monitor).
Proof.
  unfold check. apply Probes_bind; [destruct (m_type monitor); probes|].
  intros monitor_type. apply Probes_try; [|intros e; apply Probes_ret].
  destruct (dict_get_checkers env monitor_type)
    as [-> | [-> | [-> | [-> | [-> | [-> | [-> | ->]]]]]]];
    auto using Probes_check_http, Probes_check_keyword, Probes_check_port,
      Probes_check_ssl_cert, Probes_check_push, Probes_check_mysql,
      Probes_check_redis.
  unfold check_ping. apply Probes_check_port.
Qed.

(** With its type set, a monitor always gets a result from [check]. *)
Lemma check_returns env monitor monitor_type s :
  m_type monitor = Some monitor_type →
  ∃ r, (check env monitor s).1 = Ret r.
Proof.
  intros Htype. unfold check. rewrite Htype. unfold bind at 1, ret at 1.
  unfold try_catch, on_exception, ret.
  destruct (dict_get (checkers env) monitor_type (check_http env) monitor s)
    as [[r|e] s1]; simpl; eauto.
Qed.

(** ** The state tracker in [check_monitor] *)

Lemma fires_not_silent s s' monitor st : fires s s' monitor st → ¬ silent s s'.
Proof.
  intros (text & note & Hev & _) [Hsame _]. rewrite Hsame in Hev.
  exact (app_nonempty_neq _ _ Hev).
Qed.

(** [report_change] returns, and touches [events] and [sent] only. *)
Lemma report_change_frame monitor check_type result prev_status s :
  ∃ ev nt,
    report_change monitor check_type result prev_status s =
      (Ret tt, set_sent (set_events s ev) nt).
Proof.
  unfold report_change, Db.add_event, send_notification. unfold_monad.
  destruct prev_status as [prev|]; [destruct (negb _)|]; simpl.
  - eauto.
  - exists (events s), (sent s). by destruct s.
  - exists (events s), (sent s). by destruct s.
Qed.

Lemma report_change_differs monitor check_type result prev s :
  prev ≠ status result →
  fires s (report_change monitor check_type result (Some prev) s).2
    monitor (status result).
Proof.
  intros Hne. unfold report_change, Db.add_event, send_notification. unfold_monad.
  apply Z.eqb_neq in Hne. rewrite Hne. cbn [negb]. unfold fires.
  destruct (status result =? 0); simpl; eauto.
Qed.

Lemma report_change_same monitor check_type result prev_status s :
  prev_status = None ∨ prev_status = Some (status result) →
  (report_change monitor check_type result prev_status s).2 = s.
Proof.
  intros [-> | ->]; unfold report_change; [reflexivity|].
  by rewrite Z.eqb_refl.
Qed.

(** One pass of the loop, step by step: the probe, the log row, the report,
    the update of the tracker. *)
Lemma check_one_type_run env monitor check_type s row :
  check_type ≠ "push" →
  last_status s !! m_id monitor = Some row →
  ∃ result s1 s2,
    check env (with_type monitor check_type) s = (Ret result, s1) ∧
    probe_step s s1 ∧
    report_change monitor check_type result (row !! check_type)
      (set_monitor_logs s1
         (monitor_logs s1 ++
          [mkLog (m_id monitor) check_type (status result) (response_time result)
             (status_code result) (message result)])) = (Ret tt, s2) ∧
    check_one_type env monitor check_type s =
      (Ret tt,
       set_last_status s2
         (<[m_id monitor := <[check_type := status result]> row]> (last_status s))).
Proof.
  intros Hpush Hrow.
  destruct (check_returns env (with_type monitor check_type) check_type s eq_refl)
    as [result Hres].
  pose proof (Probes_check env (with_type monitor check_type) s) as Hstep.
  destruct (check env (with_type monitor check_type) s) as [o s1] eqn:Hcheck.
  simpl in Hres, Hstep. subst o.
  set (logged :=
    set_monitor_logs s1
      (monitor_logs s1 ++
       [mkLog (m_id monitor) check_type (status result) (response_time result)
          (status_code result) (message result)])).
  destruct (report_change_frame monitor check_type result (row !! check_type) logged)
    as (ev & nt & Hrep).
  exists result, s1, (set_sent (set_events logged ev) nt).
  split; [reflexivity|]. split; [exact Hstep|]. split; [exact Hrep|].
  unfold check_one_type.
  destruct (String.eqb_spec check_type "push") as [->|_]; [done|].
  destruct Hstep as (c & ops & Hs1).
  assert (Hls : last_status s1 = last_status s) by (by rewrite Hs1).
  unfold bind at 1. rewrite Hcheck.
  unfold bind at 1. unfold Db.add_log, modify.
  unfold bind at 1. unfold tracker_row at 1.
  cbn [last_status set_monitor_logs]. rewrite Hls, Hrow.
  unfold bind at 1. fold logged. rewrite Hrep.
  unfold bind at 1. unfold tracker_row.
  cbn [last_status set_sent set_events]. subst logged.
  cbn [last_status set_monitor_logs]. rewrite Hls, Hrow.
  unfold modify. cbn [last_status set_sent set_events set_monitor_logs].
  by rewrite Hls.
Qed.

(** The loop keeps the monitor's entry in [last_status], so every pass finds
    it. *)
Lemma check_one_type_keeps_entry env monitor check_type s :
  is_Some (last_status s !! m_id monitor) →
  (check_one_type env monitor check_type s).1 = Ret tt ∧
  is_Some (last_status (check_one_type env monitor check_type s).2 !! m_id monitor).
Proof.
  intros [row Hrow].
  destruct (decide (check_type = "push")) as [->|Hpush].
  - unfold check_one_type. simpl. eauto.
  - destruct (check_one_type_run env monitor check_type s row Hpush Hrow)
      as (result & s1 & s2 & _ & _ & _ & ->).
    split; [reflexivity|]. simpl. rewrite lookup_insert_eq. eauto.
Qed.

Lemma for_each_check_one_type env monitor types s :
  is_Some (last_status s !! m_id monitor) →
  (for_each types (check_one_type env monitor) s).1 = Ret tt.
Proof.
  revert s. induction types as [|check_type types IH]; intros s Hentry; [reflexivity|].
  simpl. unfold bind.
  destruct (check_one_type_keeps_entry env monitor check_type s Hentry) as [Hret Hkeep].
  destruct (check_one_type env monitor check_type s) as [o s1].
  simpl in Hret, Hkeep. subst o. by apply IH.
Qed.

(** A scheduled check runs to its end. *)
Lemma check_monitor_returns env monitor s :
  (check_monitor env monitor s).1 = Ret tt.
Proof.
  unfold check_monitor. destruct (m_enabled monitor =? 0); [reflexivity|].
  unfold bind, modify. apply for_each_check_one_type.
  destruct (last_status s !! m_id monitor) eqn:E; simpl.
  - rewrite E. eauto.
  - rewrite lookup_insert_eq. eauto.
Qed.

(** A scheduled check of an enabled monitor with one check type is one pass
    of the loop, on the state where the monitor has its entry. *)
Lemma check_monitor_single_type env monitor check_type s :
  m_enabled monitor ≠ 0 →
  m_types monitor = [check_type] →
  check_monitor env monitor s =
  check_one_type env monitor check_type
    (match last_status s !! m_id monitor with
     | Some _ => s
     | None => set_last_status s (<[m_id monitor := ∅]> (last_status s))
     end).
Proof.
  intros Hen Htypes. unfold check_monitor. rewrite Htypes.
  apply Z.eqb_neq in Hen. rewrite Hen. cbn [for_each].
  unfold bind, modify, ret.
  by destruct (check_one_type env monitor check_type _) as [[[]|e] s1].
Qed.

Lemma check_monitor_enabled env monitor s :
  m_enabled monitor ≠ 0 →
  check_monitor env monitor s =
  for_each (m_types monitor) (check_one_type env monitor)
    (match last_status s !! m_id monitor with
     | Some _ => s
     | None => set_last_status s (<[m_id monitor := ∅]> (last_status s))
     end).
Proof.
  intros Hen. unfold check_monitor. apply Z.eqb_neq in Hen. by rewrite Hen.
Qed.

Lemma tracked_insert_same s monitor_id check_type st row base :
  tracked (set_last_status s (<[monitor_id := <[check_type := st]> row]> base))
    monitor_id check_type = Some st.
Proof.
  unfold tracked. cbn [last_status set_last_status].
  rewrite lookup_insert_eq. cbn [mbind option_bind]. by rewrite lookup_insert_eq.
Qed.

Lemma tracked_insert_other s monitor_id check_type st row base other_id other_type :
  base !! monitor_id = Some row →
  (other_id, other_type) ≠ (monitor_id, check_type) →
  tracked (set_last_status s (<[monitor_id := <[check_type := st]> row]> base))
    other_id other_type =
  base !! other_id ≫= (λ row, row !! other_type).
Proof.
  intros Hrow Hne. unfold tracked. cbn [last_status set_last_status].
  destruct (decide (other_id = monitor_id)) as [->|Hid].
  - rewrite lookup_insert_eq, Hrow. cbn [mbind option_bind].
    rewrite lookup_insert_ne; [done|]. intros ->. by apply Hne.
  - by rewrite lookup_insert_ne.
Qed.

(** One pass of the loop of [check_monitor] for a check type other than
    push, on a state where the monitor has its entry, is an observation. *)
Lemma check_one_type_observed (env : Env) (monitor : Monitor)
    (check_type : string) (s : State) :
  check_type ≠ "push" →
  is_Some (last_status s !! m_id monitor) →
  ∃ result,
    (check env (with_type monitor check_type) s).1 = Ret result ∧
    (check_one_type env monitor check_type s).1 = Ret tt ∧
    observed monitor check_type result s (check_one_type env monitor check_type s).2 ∧
    is_Some (last_status (check_one_type env monitor check_type s).2 !! m_id monitor).
Proof.
  intros Hpush [row Hrow].
  destruct (check_one_type_run env monitor check_type s row Hpush Hrow)
    as (result & s1 & s2 & Hcheck & (c & ops & Hs1) & Hrep & Hrun).
  exists result. rewrite Hcheck, Hrun. cbn [fst snd].
  split; [reflexivity|]. split; [reflexivity|].
  split; [|cbn [last_status set_last_status]; rewrite lookup_insert_eq; eauto].
  set (logged := set_monitor_logs s1 _) in Hrep.
  assert (Hev : events logged = events s) by (subst logged; by rewrite Hs1).
  assert (Hnt : sent logged = sent s) by (subst logged; by rewrite Hs1).
  destruct (report_change_frame monitor check_type result (row !! check_type) logged)
    as (ev & nt & Hframe).
  rewrite Hrep in Hframe. injection Hframe as ->.
  assert (Hquiet :
    row !! check_type = None ∨ row !! check_type = Some (status result) →
    silent s (set_last_status (set_sent (set_events logged ev) nt)
                (<[m_id monitor:=<[check_type:=status result]> row]> (last_status s)))).
  { intros Hsame.
    pose proof (report_change_same monitor check_type result _ logged Hsame) as Heq.
    rewrite Hrep in Heq. cbn [snd] in Heq.
    split; cbn [events sent set_last_status]; rewrite Heq; done. }
  assert (Hloud :
    ∀ prev, row !! check_type = Some prev → prev ≠ status result →
    fires s (set_last_status (set_sent (set_events logged ev) nt)
               (<[m_id monitor:=<[check_type:=status result]> row]> (last_status s)))
      monitor (status result)).
  { intros prev Hprev Hne.
    pose proof (report_change_differs monitor check_type result prev logged Hne) as Hf.
    rewrite <- Hprev, Hrep in Hf. cbn [snd] in Hf.
    destruct Hf as (text & note & He & Hn). exists text, note.
    cbn [events sent set_last_status]. by rewrite He, Hn, Hev, Hnt. }
  unfold observed. cbv zeta.
  assert (Htr : tracked s (m_id monitor) check_type = row !! check_type).
  { unfold tracked. by rewrite Hrow. }
  rewrite Htr.
  split; [|split; [apply tracked_insert_same|split]].
  - cbn [monitor_logs set_last_status set_sent set_events]. subst logged.
    cbn [monitor_logs set_monitor_logs]. by rewrite Hs1.
  - intros other_id other_type Hne.
    by rewrite (tracked_insert_other _ _ _ _ row _ other_id other_type Hrow Hne).
  - destruct (row !! check_type) as [prev|] eqn:Hprev.
    + destruct (decide (prev = status result)) as [->|Hne].
      * assert (Hno : ¬ (∃ p, Some (status result) = Some p ∧ p ≠ status result))
          by (intros (? & [= <-] & ?); done).
        specialize (Hquiet (or_intror eq_refl)).
        split; [split; [intros Hf|intros Hd]|split; [split|]]; try done.
        exfalso. exact (fires_not_silent _ _ _ _ Hf Hquiet).
      * specialize (Hloud prev eq_refl Hne).
        assert (Hyes : ∃ p, Some prev = Some p ∧ p ≠ status result) by eauto.
        split; [split; [intros Hf|intros Hd]|split; [split|]]; try done.
        intros Hsil. exfalso. exact (fires_not_silent _ _ _ _ Hloud Hsil).
    + specialize (Hquiet (or_introl eq_refl)).
      assert (Hno : ¬ (∃ p, @None Z = Some p ∧ p ≠ status result))
        by (intros (? & ? & _); done).
      split; [split; [intros Hf|intros Hd]|split; [split|]]; try done.
      exfalso. exact (fires_not_silent _ _ _ _ Hf Hquiet).
Qed.

(** The loop of [check_monitor] is the chain of its observations. *)
Lemma for_each_passes env monitor types s :
  is_Some (last_status s !! m_id monitor) →
  passes env monitor types s (for_each types (check_one_type env monitor) s).2.
Proof.
  revert s. induction types as [|check_type types IH]; intros s Hentry; [reflexivity|].
  cbn [passes for_each]. unfold bind.
  destruct (String.eqb_spec check_type "push") as [->|Hpush].
  - unfold check_one_type at 1. cbn. by apply IH.
  - destruct (check_one_type_observed env monitor check_type s Hpush Hentry)
      as (result & Hres & Hret & Hobs & Hkeep).
    destruct (check_one_type env monitor check_type s) as [o s1].
    cbn [fst snd] in *. subst o.
    exists result, s1. split; [exact Hres|]. split; [exact Hobs|]. by apply IH.
Qed.

(** C1. A scheduled check returns.  For a monitor that is not enabled it
    changes nothing.  For an enabled one it is the chain of the observations
    of its check types other than push, in their order, starting from the
    state in which the monitor has its entry in the tracker, an empty one
    when it had none.  In each observation the status of the probe is
    recorded under (monitor id, check type), and an event and a notification
    are produced if and only if a status was recorded under that key before
    and differs from the new one; nothing is produced otherwise, so nothing
    on the first observation of a key. *)
Theorem check_monitor_transition (env : Env) (monitor : Monitor) (s : State) :
  let run := check_monitor env monitor s in
  run.1 = Ret tt ∧
  (m_enabled monitor = 0 → run.2 = s) ∧
  (m_enabled monitor ≠ 0 →
   ∃ s0,
     (is_Some (last_status s !! m_id monitor) ∧ s0 = s ∨
      last_status s !! m_id monitor = None ∧
      s0 = set_last_status s (<[m_id monitor := ∅]> (last_status s))) ∧
     (∀ check_type, tracked s0 (m_id monitor) check_type =
                    tracked s (m_id monitor) check_type) ∧
     passes env monitor (m_types monitor) s0 run.2).
Proof.
  cbv zeta. split; [apply check_monitor_returns|]. split.
  - intros Hoff. unfold check_monitor. by rewrite Hoff.
  - intros Hen. rewrite (check_monitor_enabled env monitor s Hen).
    destruct (last_status s !! m_id monitor) as [row|] eqn:Hrow.
    + exists s. split; [left; eauto|]. split; [done|].
      apply for_each_passes. rewrite Hrow. eauto.
    + eexists. split; [right; split; reflexivity|]. split.
      * intros check_type. unfold tracked. cbn [last_status set_last_status].
        by rewrite lookup_insert_eq, Hrow.
      * apply for_each_passes. cbn [last_status set_last_status].
        rewrite lookup_insert_eq. eauto.
Qed.

(** The watched site, recorded as up, now answers 500: the tick produces one
    "down" event and one notification and records 0. *)
Lemma check_monitor_transition_witness :
  let env := Demo.world (fun _ => Ret (500, "")) in
  let s' := (check_monitor env Demo.site Demo.watching).2 in
  fires Demo.watching s' Demo.site 0 ∧ tracked s' 1 "http" = Some 0.
Proof.
  intros env s'.
  pose proof (check_monitor_transition env Demo.site Demo.watching) as H.
  cbv zeta in H. fold s' in H. destruct H as (_ & _ & Hon).
  destruct Hon as (s0 & Hs0 & _ & Hpass); [discriminate|].
  destruct Hs0 as [[_ ->]|[Hnone _]]; [|discriminate Hnone].
  destruct Hpass as (result & s1 & Hres & Hobs & Hs1).
  vm_compute in Hres. injection Hres as <-. rewrite <- Hs1 in Hobs.
  destruct Hobs as (_ & Htracked & _ & Hfires & _).
  split; [|exact Htracked].
  apply Hfires. exists 1. split; [reflexivity|discriminate].
Defined.

(** The scenario of a target whose first tick sees 200 and whose next two
    ticks see 500: one "down" event and one notification, at the second
    tick. *)
Lemma check_monitor_three_ticks :
  let env := Demo.world (fun n => match n with O => Ret (200, "") | _ => Ret (500, "") end) in
  let s1 := (check_monitor env Demo.site Demo.empty_state).2 in
  let s2 := (check_monitor env Demo.site s1).2 in
  let s3 := (check_monitor env Demo.site s2).2 in
  events s1 = [] ∧ sent s1 = [] ∧
  events s2 = [mkEvent (Some 1) "down" "site [HTTP] 异常: 状态码 500"] ∧
  sent s2 = [mkNotification Demo.site 0 "[HTTP] 状态码 500"] ∧
  events s3 = events s2 ∧ sent s3 = sent s2.
Proof. vm_compute. repeat split. Qed.

(** ** The keyword probe *)

Lemma append_cons (a : ascii) (p q : string) : String a p +:+ q = String a (p +:+ q).
Proof. reflexivity. Qed.

Lemma prefix_append (p s : string) :
  String.prefix p s = true ↔ ∃ post, s = p +:+ post.
Proof.
  revert s. induction p as [|a p IH]; intros [|b s]; simpl.
  - split; [intros _; by exists ""|done].
  - split; [intros _; by exists (String b s)|done].
  - split; [done|intros [post H]; rewrite append_cons in H; discriminate].
  - destruct (Ascii.ascii_dec a b) as [->|Hne].
    + rewrite IH. split; intros [post H]; exists post;
        rewrite append_cons in *; congruence.
    + split; [done|]. intros [post H]. rewrite append_cons in H. congruence.
Qed.

(** [PyStr.contains] is containment of the needle as a contiguous piece. *)
Lemma contains_substring (needle hay : string) :
  PyStr.contains needle hay = true ↔ ∃ pre post, hay = pre +:+ needle +:+ post.
Proof.
  induction hay as [|a hay IH]; cbn [PyStr.contains].
  - rewrite orb_false_r, prefix_append. split.
    + intros [post H]. by exists "", post.
    + intros (pre & post & H).
      destruct pre; [|rewrite append_cons in H; discriminate]. by exists post.
  - rewrite orb_true_iff, prefix_append, IH. split.
    + intros [[post H]|(pre & post & H)].
      * by exists "", post.
      * exists (String a pre), post. rewrite append_cons. by rewrite H.
    + intros (pre & post & H). destruct pre as [|b pre].
      * left. by exists post.
      * right. exists pre, post. rewrite append_cons in H. congruence.
Qed.

Lemma truthy_nonempty (text : string) : PyStr.truthy text = true ↔ text ≠ "".
Proof. destruct text; simpl; split; done. Qed.

Lemma check_keyword_unfold env monitor s :
  check_keyword env monitor s =
  match check_http env monitor s with
  | (Ret result, s1) =>
      if (status result =? 1) && PyStr.truthy (m_keyword monitor) then
        match requests_reply env (length (trace s1))
                (OpRequest "GET" (m_target monitor) [] "" (m_timeout monitor)) with
        | Ret response =>
            (Ret (if PyStr.contains (m_keyword monitor) (snd response) then
                    mkResult (status result) (response_time result)
                      (status_code result) ("包含关键词: " +:+ m_keyword monitor)
                  else
                    mkResult 0 (response_time result)
                      (status_code result) ("未找到关键词: " +:+ m_keyword monitor)),
             set_net s1 (clock s1 + elapsed env (length (trace s1)))
               (trace s1 ++
                [OpRequest "GET" (m_target monitor) [] "" (m_timeout monitor)]))
        | Raise _ =>
            (Ret result,
             set_net s1 (clock s1 + elapsed env (length (trace s1)))
               (trace s1 ++
                [OpRequest "GET" (m_target monitor) [] "" (m_timeout monitor)]))
        end
      else (Ret result, s1)
  | (Raise e, s1) => (Raise e, s1)
  end.
Proof.
  unfold check_keyword. unfold bind at 1.
  destruct (check_http env monitor s) as [[result|e] s1]; [|reflexivity].
  destruct ((status result =? 1) && PyStr.truthy (m_keyword monitor)); [|reflexivity].
  unfold_monad.
  destruct (requests_reply env (length (trace s1)) _) as [response|e]; [|reflexivity].
  simpl. by destruct (PyStr.contains (m_keyword monitor) response.2).
Qed.

(** C7, as the code has it.  The keyword probe starts with the HTTP probe.
    It then fetches the address a second time exactly when the HTTP probe
    returned status 1 and the configured keyword is not empty; no other
    request is made.  When that fetch is answered and the body does not
    contain the keyword, the result is down with the "keyword not found"
    message. *)
Theorem check_keyword_second_fetch (env : Env) (monitor : Monitor) (s : State) :
  let first := check_http env monitor s in
  let run := check_keyword env monitor s in
  let fetch := OpRequest "GET" (m_target monitor) [] "" (m_timeout monitor) in
  let succeeded := ∃ r, first.1 = Ret r ∧ status r = 1 in
  (trace run.2 = trace first.2 ++ [fetch] ↔ succeeded ∧ m_keyword monitor ≠ "") ∧
  (trace run.2 = trace first.2 ↔ ¬ (succeeded ∧ m_keyword monitor ≠ "")) ∧
  (∀ code text,
     succeeded → m_keyword monitor ≠ "" →
     requests_reply env (length (trace first.2)) fetch = Ret (code, text) →
     PyStr.contains (m_keyword monitor) text = false →
     ∃ r, run.1 = Ret r ∧ status r = 0 ∧
          message r = "未找到关键词: " +:+ m_keyword monitor).
Proof.
  cbv zeta. rewrite check_keyword_unfold.
  destruct (check_http env monitor s) as [[r|e] s1]; cbn [fst snd].
  - destruct (status r =? 1) eqn:Hst; cbn [andb].
    + apply Z.eqb_eq in Hst.
      destruct (PyStr.truthy (m_keyword monitor)) eqn:Hkw.
      * apply truthy_nonempty in Hkw.
        assert (Hyes : (∃ r0, Ret r = Ret r0 ∧ status r0 = 1) ∧ m_keyword monitor ≠ "")
          by eauto.
        destruct (requests_reply env (length (trace s1)) _) as [[code text]|e]
          eqn:Hreply; cbn [fst snd trace set_net].
        -- split; [done|]. split; [split; [intros H|done]|].
           ++ exfalso. exact (app_nonempty_neq _ _ (eq_sym H)).
           ++ intros c t _ _ [= <- <-] ->. eexists. split; [reflexivity|]. done.
        -- split; [done|]. split; [split; [intros H|done]|].
           ++ exfalso. exact (app_nonempty_neq _ _ (eq_sym H)).
           ++ intros c t _ _ [=].
      * assert (Hno : ¬ ((∃ r0, Ret r = Ret r0 ∧ status r0 = 1) ∧ m_keyword monitor ≠ "")).
        { intros [_ Hne]. apply truthy_nonempty in Hne. congruence. }
        split; [split; [intros H|done]|split; [done|]].
        -- exfalso. exact (app_nonempty_neq _ _ H).
        -- intros c t Hs Hne. exfalso. exact (Hno (conj Hs Hne)).
    + apply Z.eqb_neq in Hst.
      assert (Hno : ¬ ((∃ r0, Ret r = Ret r0 ∧ status r0 = 1) ∧ m_keyword monitor ≠ "")).
      { intros [(r0 & [= <-] & H1) _]. done. }
      split; [split; [intros H|done]|split; [done|]].
      * exfalso. exact (app_nonempty_neq _ _ H).
      * intros c t Hs Hne. exfalso. exact (Hno (conj Hs Hne)).
  - assert (Hno : ¬ ((∃ r0, @Raise CheckResult e = Ret r0 ∧ status r0 = 1)
                     ∧ m_keyword monitor ≠ "")).
    { intros [(r0 & [=] & _) _]. }
    split; [split; [intros H|done]|split; [done|]].
    + exfalso. exact (app_nonempty_neq _ _ H).
    + intros c t Hs Hne. exfalso. exact (Hno (conj Hs Hne)).
Qed.

(** A page without the word: the second fetch is made and the result is
    down. *)
Lemma check_keyword_second_fetch_witness :
  let env := Demo.world (fun _ => Ret (200, "hello")) in
  ∃ r, (check_keyword env Demo.page Demo.empty_state).1 = Ret r ∧
       status r = 0 ∧ message r = "未找到关键词: welcome".
Proof.
  intros env.
  destruct (check_keyword_second_fetch env Demo.page Demo.empty_state)
    as (_ & _ & Habsent).
  apply (Habsent 200 "hello").
  - eexists. split; reflexivity.
  - discriminate.
  - reflexivity.
  - reflexivity.
Defined.

(** C7 as stated fails: with the empty keyword (the default of the column)
    the HTTP probe succeeds and no second fetch follows. *)
Lemma check_keyword_empty_keyword_no_fetch :
  let env := Demo.world (fun _ => Ret (200, "hello")) in
  let first := check_http env Demo.site Demo.empty_state in
  let run := check_keyword env Demo.site Demo.empty_state in
  first.1 = Ret (mkResult 1 5 200 "OK") ∧
  m_keyword Demo.site = "" ∧
  trace run.2 = trace first.2 ∧
  length (trace run.2) = 1%nat.
Proof. vm_compute. repeat split. Qed.

(** ** Scheduling and deleting a monitor *)

(** A monitor whose types are all "push" gets no job. *)
Lemma schedule_monitor_push_only monitor s :
  Forall (λ t, t = "push") (m_types monitor) →
  jobs (schedule_monitor monitor s).2 !! m_id monitor = None.
Proof.
  intros Hpush. unfold schedule_monitor, remove_job. unfold_monad.
  assert (Hnone : existsb (λ t, negb (String.eqb t "push")) (m_types monitor) = false).
  { induction Hpush as [|t types -> _ IH]; [reflexivity|]. simpl. exact IH. }
  rewrite Hnone, andb_false_r. cbn [fst snd jobs set_jobs].
  apply lookup_delete_eq.
Qed.

(** Without authorization, or for an id that is not stored, the deletion
    changes nothing. *)
Lemma api_delete_monitor_refused authorized monitor_id s :
  authorized = false ∨ (Db.get_monitor monitor_id s).1 = Ret None →
  (api_delete_monitor authorized monitor_id s).2 = s.
Proof.
  unfold api_delete_monitor, Db.get_monitor. unfold_monad. cbn [fst snd].
  intros [-> | [= Hfind]]; [reflexivity|].
  destruct authorized; [|reflexivity]. cbn [negb]. by rewrite Hfind.
Qed.

Lemma find_filter_other (monitor_id : Z) (rows : list Monitor) :
  List.find (fun m => m_id m =? monitor_id)
    (List.filter (fun m => negb (m_id m =? monitor_id)) rows) = None.
Proof.
  induction rows as [|m rows IH]; simpl; [reflexivity|].
  destruct (m_id m =? monitor_id) eqn:E; simpl; [exact IH|]. by rewrite E.
Qed.

(** C8, as the code has it.  Deleting a stored monitor, when authorized,
    removes its job and its row: the scheduler firing that id afterwards does
    nothing, and a manual check is answered 404 without a probe.  The map
    [last_status] is left as it was. *)
Theorem api_delete_monitor_unschedules (env : Env) (monitor_id : Z)
    (monitor : Monitor) (s : State) :
  (Db.get_monitor monitor_id s).1 = Ret (Some monitor) →
  let s' := (api_delete_monitor true monitor_id s).2 in
  (api_delete_monitor true monitor_id s).1 = Ret RespSuccess ∧
  jobs s' !! monitor_id = None ∧
  run_job env monitor_id s' = (Ret tt, s') ∧
  api_check_now env monitor_id s' = (Ret (RespError 404 "监控项目不存在"), s') ∧
  last_status s' = last_status s.
Proof.
  unfold api_delete_monitor, Db.get_monitor, remove_job, Db.delete_monitor,
    Db.add_event.
  unfold_monad. cbn [fst snd negb].
  intros [= Hfind]. rewrite Hfind. cbn [fst snd].
  split; [reflexivity|].
  split; [cbn [jobs set_events set_monitors set_jobs]; apply lookup_delete_eq|].
  split.
  - unfold run_job. unfold_monad.
    cbn [jobs set_events set_monitors set_jobs]. by rewrite lookup_delete_eq.
  - split; [|reflexivity].
    unfold api_check_now, Db.get_monitor. unfold_monad.
    cbn [monitors set_events set_monitors set_jobs]. by rewrite find_filter_other.
Qed.

(** Deleting the watched site. *)
Lemma api_delete_monitor_unschedules_witness :
  let env := Demo.world (fun _ => Ret (200, "")) in
  let s' := (api_delete_monitor true 1 Demo.watching).2 in
  jobs s' !! 1 = None ∧ run_job env 1 s' = (Ret tt, s').
Proof.
  intros env.
  destruct (api_delete_monitor_unschedules env 1 Demo.site Demo.watching eq_refl)
    as (_ & Hjob & Hrun & _).
  split; [exact Hjob|exact Hrun].
Defined.

(** C8 as stated fails: after the deletion of the watched site its entry is
    still in [last_status]. *)
Lemma api_delete_monitor_keeps_last_status :
  let s' := (api_delete_monitor true 1 Demo.watching).2 in
  (api_delete_monitor true 1 Demo.watching).1 = Ret RespSuccess ∧
  jobs s' !! 1 = None ∧
  monitors s' = [] ∧
  last_status s' !! 1 = Some {[ "http" := 1 ]} ∧
  tracked s' 1 "http" = Some 1.
Proof. vm_compute. repeat split. Qed.

(** ** The manual check *)





(** ** The boundary of the probe set *)

Ltac split_cases :=
  repeat match goal with
         | |- context [match ?x with _ => _ end] =>
             lazymatch x with
             | context [match _ with _ => _ end] => fail
             | _ => destruct x eqn:?; cbn beta iota delta [fst snd]
             end
         end.

Ltac run_probe :=
  unfold_monad; cbn [fst snd];
  split_cases;
  cbn [fst snd trace clock set_net status failure].

Ltac guarded_case :=
  eexists; split;
  [ first [ symmetry; apply app_nil_r
          | reflexivity
          | rewrite <- app_assoc; reflexivity ]
  | split; [cbn [length app]; lia|];
    let op := fresh "op" in
    let r := fresh "r" in
    let Hhead := fresh "Hhead" in
    let Hfail := fresh "Hfail" in
    let Hret := fresh "Hret" in
    intros op r Hhead Hfail Hret;
    cbn [head app] in Hhead; simplify_eq; try reflexivity;
    unfold op_fails, raised in Hfail;
    repeat match goal with
           | H : _ = _ |- _ =>
               tryif constr_eq H Hfail then fail else rewrite H in Hfail
           end;
    simpl in Hfail; try discriminate; try congruence ].

Lemma Guarded_check_http env monitor : Guarded env 1 (check_http env monitor).
Proof. intros s. unfold check_http. run_probe; guarded_case. Qed.

Lemma Guarded_check_keyword env monitor : Guarded env 2 (check_keyword env monitor).
Proof. intros s. unfold check_keyword, check_http. run_probe; guarded_case. Qed.

Lemma Guarded_check_port env monitor : Guarded env 1 (check_port env monitor).
Proof. intros s. unfold check_port. run_probe; guarded_case. Qed.

Lemma Guarded_check_ssl_cert env monitor : Guarded env 1 (check_ssl_cert env monitor).
Proof. intros s. unfold check_ssl_cert. run_probe; guarded_case. Qed.

Lemma Guarded_check_push env monitor : Guarded env 1 (check_push env monitor).
Proof.
  intros s. unfold check_push, Db.get_last_heartbeat. run_probe; guarded_case.
Qed.

Lemma Guarded_check_mysql env monitor : Guarded env 1 (check_mysql env monitor).
Proof. intros s. unfold check_mysql. run_probe; guarded_case. Qed.

Lemma Guarded_check_redis env monitor : Guarded env 1 (check_redis env monitor).
Proof. intros s. unfold check_redis. run_probe; guarded_case. Qed.

(** The probe the dispatcher selects; only the keys "keyword" and "push"
    select the keyword probe and the push probe. *)
Lemma dict_get_checkers_cases env monitor_type :
  let checker := dict_get (checkers env) monitor_type (check_http env) in
  (monitor_type = "keyword" ∧ checker = check_keyword env) ∨
  (monitor_type = "push" ∧ checker = check_push env) ∨
  (monitor_type ≠ "keyword" ∧ monitor_type ≠ "push" ∧
   (checker = check_http env ∨ checker = check_port env ∨
    checker = check_ping env ∨ checker = check_ssl_cert env ∨
    checker = check_mysql env ∨ checker = check_redis env)).
Proof.
  unfold checkers. cbn [dict_get].
  repeat match goal with
         | |- context [String.eqb ?k monitor_type] =>
             destruct (String.eqb_spec k monitor_type) as [<-|?]
         end;
    first [ left; split; reflexivity
          | right; left; split; reflexivity
          | right; right;
            split; [first [discriminate | congruence]|];
            split; [first [discriminate | congruence]|]; auto 10 ].
Qed.

Lemma Guarded_checker env monitor monitor_type :
  Guarded env (if decide (monitor_type = "keyword") then 2 else 1)
    (dict_get (checkers env) monitor_type (check_http env) monitor).
Proof.
  destruct (dict_get_checkers_cases env monitor_type)
    as [[-> ->] | [[-> ->] | (Hne & _ & [-> | [-> | [-> | [-> | [-> | ->]]]]])]].
  - apply Guarded_check_keyword.
  - apply Guarded_check_push.
  - rewrite decide_False by done. apply Guarded_check_http.
  - rewrite decide_False by done. apply Guarded_check_port.
  - rewrite decide_False by done. apply Guarded_check_port.
  - rewrite decide_False by done. apply Guarded_check_ssl_cert.
  - rewrite decide_False by done. apply Guarded_check_mysql.
  - rewrite decide_False by done. apply Guarded_check_redis.
Qed.

Lemma app_longer {A} (l ops : list A) : l ++ ops = l → ops = [].
Proof.
  intros H. apply (f_equal length) in H. rewrite length_app in H.
  destruct ops; [reflexivity|]. cbn [length] in H. lia.
Qed.

Ltac quiet_case :=
  let Htr := fresh "Htr" in
  let Hret := fresh "Hret" in
  intros Htr Hret;
  first
    [ discriminate Hret
    | rewrite <- ?app_assoc in Htr; apply app_longer in Htr; discriminate Htr
    | simplify_eq; reflexivity ].

Lemma Quiet_check_http env monitor : Quiet (check_http env monitor).
Proof. intros s r. unfold check_http. run_probe; quiet_case. Qed.

Lemma Quiet_check_keyword env monitor : Quiet (check_keyword env monitor).
Proof. intros s r. unfold check_keyword, check_http. run_probe; quiet_case. Qed.

Lemma Quiet_check_port env monitor : Quiet (check_port env monitor).
Proof. intros s r. unfold check_port. run_probe; quiet_case. Qed.

Lemma Quiet_check_ssl_cert env monitor : Quiet (check_ssl_cert env monitor).
Proof. intros s r. unfold check_ssl_cert. run_probe; quiet_case. Qed.

Lemma Quiet_check_mysql env monitor : Quiet (check_mysql env monitor).
Proof. intros s r. unfold check_mysql. run_probe; quiet_case. Qed.

Lemma Quiet_check_redis env monitor : Quiet (check_redis env monitor).
Proof. intros s r. unfold check_redis. run_probe; quiet_case. Qed.

Lemma Quiet_checker env monitor monitor_type :
  monitor_type ≠ "push" →
  Quiet (dict_get (checkers env) monitor_type (check_http env) monitor).
Proof.
  intros Hpush.
  destruct (dict_get_checkers_cases env monitor_type)
    as [[-> ->] | [[-> ->] | (_ & _ & [-> | [-> | [-> | [-> | [-> | ->]]]]])]].
  - apply Quiet_check_keyword.
  - done.
  - apply Quiet_check_http.
  - apply Quiet_check_port.
  - apply Quiet_check_port.
  - apply Quiet_check_ssl_cert.
  - apply Quiet_check_mysql.
  - apply Quiet_check_redis.
Qed.

(** The second operation of the keyword probe is the fetch of the text: the
    HTTP probe returned status 1 before it, and when it raises that result
    is the answer. *)
Lemma check_keyword_second_operation env monitor s ops op :
  trace (check_keyword env monitor s).2 = trace s ++ ops →
  ops !! 1%nat = Some op →
  ∃ first,
    (check_http env monitor s).1 = Ret first ∧ status first = 1 ∧
    (raised (requests_reply env (S (length (trace s))) op) = true →
     (check_keyword env monitor s).1 = Ret first).
Proof.
  rewrite check_keyword_unfold.
  destruct (Guarded_check_http env monitor s) as (ops1 & Htrace1 & Hlen1 & _).
  destruct (check_http env monitor s) as [[first|e] s1]; cbn [fst snd] in *.
  2:{ intros Htr Hop. rewrite Htrace1 in Htr. apply app_inv_head in Htr. subst ops.
      exfalso. apply lookup_lt_Some in Hop. lia. }
  destruct (status first =? 1) eqn:Hst; cbn [andb fst snd].
  2:{ intros Htr Hop. rewrite Htrace1 in Htr. apply app_inv_head in Htr. subst ops.
      exfalso. apply lookup_lt_Some in Hop. lia. }
  destruct (PyStr.truthy (m_keyword monitor)); cbn [fst snd].
  2:{ intros Htr Hop. rewrite Htrace1 in Htr. apply app_inv_head in Htr. subst ops.
      exfalso. apply lookup_lt_Some in Hop. lia. }
  apply Z.eqb_eq in Hst.
  assert (Hshape :
            trace s1 ++ [OpRequest "GET" (m_target monitor) [] "" (m_timeout monitor)] =
            trace s ++ ops → ops !! 1%nat = Some op →
            op = OpRequest "GET" (m_target monitor) [] "" (m_timeout monitor) ∧
            length (trace s1) = S (length (trace s))).
  { intros Htr Hop. rewrite Htrace1, <- app_assoc in Htr.
    apply app_inv_head in Htr. subst ops.
    destruct ops1 as [|x [|y ops1]]; cbn [length] in Hlen1; [done| |lia].
    cbn in Hop. injection Hop as <-. split; [reflexivity|].
    rewrite Htrace1, length_app. cbn [length]. lia. }
  destruct (requests_reply env (length (trace s1)) _) as [response|e] eqn:Hreply;
    cbn [fst snd]; intros Htr Hop;
    destruct (Hshape Htr Hop) as [-> Hlen];
    exists first; (split; [reflexivity|]); (split; [exact Hst|]);
    rewrite <- Hlen, Hreply; [discriminate|reflexivity].
Qed.

(** C5, as the code has it.  For a monitor that carries its type, [check]
    returns a result and never raises; it performs at most one network
    operation, two for the keyword probe.  An exception that leaves the
    selected probe becomes the result with status 0, zeroes and the text of
    the exception.  The status is 0 when a probe other than the push probe
    comes to no network operation (the driver is missing, the address or the
    headers are not as they must be), and when the first operation fails: it
    raises, the connection is refused, or the certificate has no expiry date
    that parses.  The second operation, the fetch of the keyword probe, is
    the exception: it is made after the HTTP probe returned status 1, and
    when it raises, that result is returned as it is. *)
Theorem check_never_raises (env : Env) (monitor : Monitor) (monitor_type : string)
    (s : State) :
  m_type monitor = Some monitor_type →
  let checker := dict_get (checkers env) monitor_type (check_http env) in
  let run := check env monitor s in
  ∃ r ops,
    run.1 = Ret r ∧
    trace run.2 = trace s ++ ops ∧
    (length ops ≤ if decide (monitor_type = "keyword") then 2 else 1)%nat ∧
    (∀ r0, (checker monitor s).1 = Ret r0 → r = r0) ∧
    (∀ e, (checker monitor s).1 = Raise e → r = mkResult 0 0 0 (exn_str e)) ∧
    (monitor_type ≠ "push" → ops = [] → status r = 0) ∧
    (∀ op, ops !! 0%nat = Some op → op_fails env (length (trace s)) op = true →
           status r = 0) ∧
    (∀ op, ops !! 1%nat = Some op →
       monitor_type = "keyword" ∧
       ∃ first,
         (check_http env monitor s).1 = Ret first ∧ status first = 1 ∧
         (raised (requests_reply env (S (length (trace s))) op) = true →
          r = first)).
Proof.
  intros Htype checker run.
  assert (Hcheck : run = try_catch (checker monitor) on_exception s).
  { subst run. unfold check. rewrite Htype. reflexivity. }
  rewrite Hcheck. clear Hcheck run. unfold try_catch, on_exception, ret.
  destruct (Guarded_checker env monitor monitor_type s) as (ops & Htrace & Hlen & Hfirst).
  fold checker in Htrace, Hfirst.
  assert (Hquiet : monitor_type ≠ "push" → ops = [] →
            ∀ r0, (checker monitor s).1 = Ret r0 → status r0 = 0).
  { intros Hpush -> r0. apply (Quiet_checker env monitor monitor_type Hpush).
    fold checker. by rewrite Htrace, app_nil_r. }
  assert (Hsecond : ∀ op, ops !! 1%nat = Some op →
            monitor_type = "keyword" ∧
            ∃ first,
              (check_http env monitor s).1 = Ret first ∧ status first = 1 ∧
              (raised (requests_reply env (S (length (trace s))) op) = true →
               (checker monitor s).1 = Ret first)).
  { intros op Hop. destruct (decide (monitor_type = "keyword")) as [->|Hne].
    - split; [reflexivity|].
      assert (checker = check_keyword env) as Hsel by reflexivity.
      rewrite Hsel in Htrace |- *.
      exact (check_keyword_second_operation env monitor s ops op Htrace Hop).
    - exfalso. apply lookup_lt_Some in Hop. lia. }
  destruct (checker monitor s) as [[r|e] s1]; cbn [fst snd] in *.
  - exists r, ops. split; [reflexivity|]. split; [exact Htrace|]. split; [exact Hlen|].
    split; [by intros ? [= <-]|]. split; [discriminate|].
    split; [intros Hpush Hnil; by apply Hquiet|]. split.
    + intros op Hop Hfail. apply (Hfirst op r); [|done|done].
      by destruct ops.
    + intros op Hop. destruct (Hsecond op Hop) as (Hkw & first & Hhttp & Hst & Hswallow).
      split; [exact Hkw|]. exists first. split; [exact Hhttp|]. split; [exact Hst|].
      intros Hraise. by injection (Hswallow Hraise).
  - exists (failure (exn_str e)), ops. split; [reflexivity|]. split; [exact Htrace|].
    split; [exact Hlen|]. split; [discriminate|]. split; [by intros ? [= <-]|].
    split; [done|]. split; [done|].
    intros op Hop. destruct (Hsecond op Hop) as (Hkw & first & Hhttp & Hst & Hswallow).
    split; [exact Hkw|]. exists first. split; [exact Hhttp|]. split; [exact Hst|].
    intros Hraise. discriminate (Hswallow Hraise).
Qed.

(** A certificate without an expiry date: the handshake succeeds, and the
    result is down. *)
Lemma check_never_raises_witness :
  ∃ r, (check Samples.undated (with_type Samples.shop "ssl") Demo.empty_state).1 =
         Ret r ∧ status r = 0.
Proof.
  destruct (check_never_raises Samples.undated (with_type Samples.shop "ssl") "ssl"
              Demo.empty_state eq_refl)
    as (r & ops & Hret & Htrace & _ & _ & _ & _ & Hfirst & _).
  exists r. split; [exact Hret|].
  vm_compute in Htrace. apply (app_inv_head []) in Htrace. subst ops.
  eapply Hfirst; reflexivity.
Defined.

(** C5 as stated fails: the page answers 200 to the HTTP probe and the second
    fetch of the keyword probe times out; the failure is swallowed and the
    result is up. *)
Lemma check_keyword_swallows_fetch_failure :
  let env :=
    Demo.world (fun n =>
      match n with
      | O => Ret (200, "welcome")
      | _ => Raise (mkExn RequestsTimeout "Read timed out.")
      end) in
  let run := check env (with_type Demo.page "keyword") Demo.empty_state in
  run.1 = Ret (mkResult 1 5 200 "OK") ∧
  trace run.2 !! 1%nat =
    Some (OpRequest "GET" "https://example.com" [] "" 30) ∧
  op_fails env 1 (OpRequest "GET" "https://example.com" [] "" 30) = true.
Proof. vm_compute. repeat split. Qed.

(** ** The range of the status *)













Import Admin.

(** ** Strings *)

Lemma prefix_empty (s : string) : String.prefix "" s = true.
Proof. by destruct s. Qed.

(** [c in s] for a single character, one step. *)
Lemma contains_char_cons (c a : ascii) (s : string) :
  PyStr.contains (String c "") (String a s) =
  Ascii.eqb a c || PyStr.contains (String c "") s.
Proof.
  cbn [PyStr.contains]. f_equal. simpl.
  destruct (Ascii.ascii_dec c a) as [->|Hne].
  - by rewrite prefix_empty, Ascii.eqb_refl.
  - symmetry. apply Ascii.eqb_neq. congruence.
Qed.

Lemma contains_char_app (c : ascii) (a b : string) :
  PyStr.contains (String c "") (a +:+ b) =
  PyStr.contains (String c "") a || PyStr.contains (String c "") b.
Proof.
  induction a as [|x a IH].
  - simpl. destruct b; reflexivity.
  - rewrite append_cons, !contains_char_cons, IH. by rewrite orb_assoc.
Qed.

Lemma split_first_app (c : ascii) (a b : string) :
  PyStr.contains (String c "") a = false →
  PyStr.split_first c (a +:+ String c b) = Some (a, b).
Proof.
  induction a as [|x a IH]; intros Hno.
  - simpl. by rewrite Ascii.eqb_refl.
  - rewrite contains_char_cons in Hno. apply orb_false_elim in Hno as [Hx Ha].
    rewrite append_cons. cbn [PyStr.split_first]. rewrite Hx, (IH Ha). reflexivity.
Qed.

Lemma split_last_none (c : ascii) (s : string) :
  PyStr.contains (String c "") s = false → PyStr.split_last c s = None.
Proof.
  induction s as [|x s IH]; intros Hno; [reflexivity|].
  rewrite contains_char_cons in Hno. apply orb_false_elim in Hno as [Hx Hs].
  cbn [PyStr.split_last]. by rewrite (IH Hs), Hx.
Qed.

Lemma split_last_app (c : ascii) (a b : string) :
  PyStr.contains (String c "") b = false →
  PyStr.split_last c (a +:+ String c b) = Some (a, b).
Proof.
  intros Hno. induction a as [|x a IH].
  - simpl. by rewrite (split_last_none c b Hno), Ascii.eqb_refl.
  - rewrite append_cons. cbn [PyStr.split_last]. by rewrite IH.
Qed.

Lemma split_first_none (c : ascii) (s : string) :
  PyStr.contains (String c "") s = false → PyStr.split_first c s = None.
Proof.
  induction s as [|x s IH]; intros Hno; [reflexivity|].
  rewrite contains_char_cons in Hno. apply orb_false_elim in Hno as [Hx Hs].
  cbn [PyStr.split_first]. by rewrite Hx, (IH Hs).
Qed.

Lemma contains_char_mid (c : ascii) (a b : string) :
  PyStr.contains (String c "") (a +:+ String c b) = true.
Proof.
  rewrite contains_char_app, contains_char_cons, Ascii.eqb_refl.
  by rewrite orb_true_r.
Qed.

(** A slice of [n] code points has at most [n] code points. *)
Lemma len_take (n : nat) (s : string) : (PyStr.len (PyStr.take n s) ≤ n)%nat.
Proof.
  revert n. induction s as [|a s IH]; intros n; cbn [PyStr.take PyStr.len]; [lia|].
  destruct (PyStr.continues a) eqn:Ha.
  - cbn [PyStr.len]. rewrite Ha. specialize (IH n). lia.
  - destruct n as [|n]; cbn [PyStr.len]; [lia|]. rewrite Ha. specialize (IH n). lia.
Qed.

Lemma len_append (a b : string) :
  PyStr.len (a +:+ b) = (PyStr.len a + PyStr.len b)%nat.
Proof.
  induction a as [|x a IH]; [reflexivity|]. rewrite append_cons.
  cbn [PyStr.len]. rewrite IH. lia.
Qed.

(** ** The HTTP probe: failures and the request *)


(** X1. When the request of the HTTP probe raises, the probe still returns a
    result: status 0, status code 0, a message of at most 200 code points,
    and as response time the whole timeout in milliseconds when the request
    timed out and 0 for every other failure, whatever time the attempt took. *)
Theorem check_http_failure_bounded (env : Env) (monitor : Monitor) (s : State)
    (op : NetOp) (e : Exn) :
  trace (check_http env monitor s).2 = trace s ++ [op] →
  requests_reply env (length (trace s)) op = Raise e →
  ∃ r, (check_http env monitor s).1 = Ret r ∧
       status r = 0 ∧ status_code r = 0 ∧
       response_time r =
         (if is_timeout (exn_class e) then m_timeout monitor * 1000 else 0) ∧
       (PyStr.len (message r) ≤ 200)%nat.
Proof.
  unfold check_http. unfold_monad.
  destruct (m_headers monitor) as [kv| |ty]; cbn [fst snd];
    try (intros Habs; exfalso; exact (app_nonempty_neq _ _ Habs)).
  all: destruct (String.eqb (PyStr.upper (m_method monitor)) "POST");
    [|destruct (String.eqb (PyStr.upper (m_method monitor)) "HEAD")]; cbn [fst snd].
  all: match goal with
       | |- context [requests_reply ?w ?n ?o] =>
           destruct (requests_reply w n o) as [[c' t']|e'] eqn:Hreply; cbn [fst snd]
       end.
  all: try (destruct (exn_class e') eqn:Hclass; cbn [fst snd]).
  all: cbn [trace set_net]; intros Htr Hop; apply app_singleton_inv in Htr; subst op;
    rewrite Hreply in Hop; try discriminate; injection Hop as <-.
  all: rewrite Hclass; eexists; split; [reflexivity|]; cbn [status status_code
         response_time message failure is_timeout].
  all: repeat split; try reflexivity.
  all: first
         [ apply len_take
         | rewrite len_append; pose proof (len_take 100 (exn_str e'));
           change (PyStr.len "SSL证书错误: ") with 9%nat; lia
         | vm_compute; lia ].
Qed.

(** The site when the handshake fails with a text of 150 code points and
    450 bytes: the message keeps 100 of them after its 9 code points of
    prefix, and no response time is reported. *)
Lemma check_http_failure_bounded_witness :
  ∃ r, (check_http (Demo.world (fun _ => Raise Samples.handshake_failure))
          Demo.site Demo.empty_state).1 = Ret r ∧
       status r = 0 ∧ status_code r = 0 ∧ response_time r = 0 ∧
       PyStr.len (message r) = 109%nat.
Proof.
  destruct (check_http_failure_bounded
              (Demo.world (fun _ => Raise Samples.handshake_failure))
              Demo.site Demo.empty_state
              (OpRequest "GET" "https://example.com"
                 [("User-Agent", "SiteMonitor/1.0")] "" 30)
              Samples.handshake_failure eq_refl eq_refl)
    as (r & Hr & Hst & Hcode & Htime & _).
  exists r. split; [exact Hr|]. split; [exact Hst|]. split; [exact Hcode|].
  split; [exact Htime|].
  vm_compute in Hr. injection Hr as <-. reflexivity.
Defined.







(** ** The port probe *)

Lemma colon_append (a b : string) : a +:+ ":" +:+ b = a +:+ String ":" b.
Proof. reflexivity. Qed.

Lemma check_port_trace_embedded (env : Env) (monitor : Monitor) (s : State)
    (host text : string) (port : Z) :
  m_target monitor = host +:+ ":" +:+ text →
  PyStr.contains ":" text = false →
  PyStr.startswith (m_target monitor) "[" = false →
  py_int env text = Ret port →
  trace (check_port env monitor s).2 =
    trace s ++ [OpConnectEx host port (m_timeout monitor)].
Proof.
  intros Htarget Hlast Hbracket Hint. unfold check_port.
  rewrite Hbracket. rewrite Htarget, colon_append.
  rewrite contains_char_mid, split_last_app by exact Hlast.
  cbn [andb negb default from_option id fst snd]. rewrite Hint. unfold_monad. cbn [fst snd].
  destruct (connect_ex_reply env _ _) as [rc|e]; cbn [fst snd].
  - by destruct (rc =? 0).
  - by destruct (exn_class e).
Qed.

Lemma check_port_trace_configured (env : Env) (monitor : Monitor) (s : State) :
  PyStr.contains ":" (m_target monitor) = false ∨
  PyStr.startswith (m_target monitor) "[" = true →
  trace (check_port env monitor s).2 =
    trace s ++ [OpConnectEx (m_target monitor) (m_port monitor) (m_timeout monitor)].
Proof.
  intros Hcase. unfold check_port.
  assert (PyStr.contains ":" (m_target monitor) &&
          negb (PyStr.startswith (m_target monitor) "[") = false) as ->.
  { destruct Hcase as [-> | ->]; [reflexivity|]. apply andb_false_r. }
  unfold_monad. cbn [fst snd].
  destruct (connect_ex_reply env _ _) as [rc|e]; cbn [fst snd].
  - by destruct (rc =? 0).
  - by destruct (exn_class e).
Qed.

(** X3. Where the port probe connects: to the target and the configured
    port when the target has no colon or starts with a bracket; otherwise to
    the text before the last colon and the number after it, and the
    configured port is not used. *)
Theorem check_port_address (env : Env) (monitor : Monitor) (s : State) :
  (PyStr.contains ":" (m_target monitor) = false ∨
   PyStr.startswith (m_target monitor) "[" = true →
   trace (check_port env monitor s).2 =
     trace s ++ [OpConnectEx (m_target monitor) (m_port monitor) (m_timeout monitor)]) ∧
  (∀ host text port,
     m_target monitor = host +:+ ":" +:+ text →
     PyStr.contains ":" text = false →
     PyStr.startswith (m_target monitor) "[" = false →
     py_int env text = Ret port →
     trace (check_port env monitor s).2 =
       trace s ++ [OpConnectEx host port (m_timeout monitor)]).
Proof.
  split.
  - apply check_port_trace_configured.
  - intros host text port. apply check_port_trace_embedded.
Qed.

(** The gateway: the port of the address, not the configured port 22. *)
Lemma check_port_address_witness :
  trace (check_port (Demo.world (fun _ => Ret (200, "")))
           Samples.gateway Demo.empty_state).2 =
    [OpConnectEx "db.internal" 5432 30].
Proof.
  exact (proj2 (check_port_address (Demo.world (fun _ => Ret (200, "")))
                  Samples.gateway Demo.empty_state)
           "db.internal" "5432" 5432 eq_refl eq_refl eq_refl eq_refl).
Defined.

(** X4. The port probe reports status 1 exactly when [connect_ex] answers
    0, and status 0 for every other code; the status code is 0 and the message
    names the port that was tried. *)
Theorem check_port_status_iff (env : Env) (monitor : Monitor) (s : State)
    (host : string) (port timeout rc : Z) :
  trace (check_port env monitor s).2 = trace s ++ [OpConnectEx host port timeout] →
  connect_ex_reply env (length (trace s)) (OpConnectEx host port timeout) = Ret rc →
  ∃ r, (check_port env monitor s).1 = Ret r ∧
       (status r = 1 ↔ rc = 0) ∧ (status r = 0 ↔ rc ≠ 0) ∧
       status_code r = 0 ∧
       message r = "端口 " +:+ pretty port +:+ (if rc =? 0 then " 开放" else " 未开放").
Proof.
  unfold check_port. unfold_monad.
  destruct (PyStr.contains ":" (m_target monitor) &&
            negb (PyStr.startswith (m_target monitor) "[")); cbn [fst snd].
  1: destruct (py_int env _) as [p|e0]; cbn [fst snd];
    [|intros Habs; exfalso; exact (app_nonempty_neq _ _ Habs)].
  all: match goal with
       | |- context [connect_ex_reply ?w ?n ?o] =>
           destruct (connect_ex_reply w n o) as [rc'|e] eqn:Hreply; cbn [fst snd]
       end.
  all: try (destruct (rc' =? 0) eqn:Hrc; cbn [fst snd]).
  all: try (destruct (exn_class e); cbn [fst snd]).
  all: cbn [trace set_net]; intros Htr Hop; apply app_singleton_inv in Htr;
    rewrite <- Htr in Hop; rewrite Hreply in Hop; try discriminate;
    injection Hop as <-; injection Htr as <- <- <-.
  all: rewrite Hrc; eexists; split; [reflexivity|]; cbn [status status_code message failure].
  all: first [apply Z.eqb_eq in Hrc | apply Z.eqb_neq in Hrc].
  all: repeat split; intros; try done; try lia.
Qed.

(** The gateway when the connection is refused with code 111. *)
Lemma check_port_status_iff_witness :
  ∃ r, (check_port (Demo.world (fun _ => Ret (200, "")))
          Samples.gateway Demo.empty_state).1 = Ret r ∧
       status r = 0 ∧ message r = "端口 5432 未开放".
Proof.
  destruct (check_port_status_iff (Demo.world (fun _ => Ret (200, "")))
              Samples.gateway Demo.empty_state "db.internal" 5432 30 111
              eq_refl eq_refl)
    as (r & Hr & _ & Hdown & _ & Hm).
  exists r. split; [exact Hr|]. split; [apply Hdown; discriminate|exact Hm].
Defined.

(** X5. When the text after the last colon of the target is not a number,
    the port probe raises before it opens any connection, and [check] turns
    this into a result with status 0 whose message is the text of the
    exception. *)
Theorem check_port_bad_port (env : Env) (monitor : Monitor) (s : State)
    (host text : string) (e : Exn) :
  m_type monitor = Some "port" →
  m_target monitor = host +:+ ":" +:+ text →
  PyStr.contains ":" text = false →
  PyStr.startswith (m_target monitor) "[" = false →
  py_int env text = Raise e →
  check_port env monitor s = (Raise e, s) ∧
  check env monitor s = (Ret (mkResult 0 0 0 (exn_str e)), s).
Proof.
  intros Htype Htarget Hlast Hbracket Hint.
  assert (Hport : check_port env monitor s = (Raise e, s)).
  { unfold check_port. rewrite Hbracket. rewrite Htarget, colon_append.
    rewrite contains_char_mid, split_last_app by exact Hlast.
    cbn [andb negb default from_option id fst snd]. rewrite Hint. reflexivity. }
  split; [exact Hport|].
  unfold check. rewrite Htype. unfold bind at 1, ret at 1.
  change (dict_get (checkers env) "port" (check_http env)) with (check_port env).
  unfold try_catch. by rewrite Hport.
Qed.

(** The address [db.internal:http]. *)
Lemma check_port_bad_port_witness :
  check (Demo.world (fun _ => Ret (200, ""))) Samples.misnamed Demo.empty_state =
    (Ret (mkResult 0 0 0 "invalid literal for int() with base 10: 'http'"),
     Demo.empty_state).
Proof.
  exact (proj2 (check_port_bad_port (Demo.world (fun _ => Ret (200, "")))
                  Samples.misnamed Demo.empty_state "db.internal" "http"
                  (mkExn OtherException
                     "invalid literal for int() with base 10: 'http'")
                  eq_refl eq_refl eq_refl eq_refl eq_refl)).
Defined.

(** X6. The ping connects to port 80 of the target as it is written when
    the target has no colon or begins with a bracket: the brackets and a
    port that follows them are then part of the host.  For every other
    target it connects to the text before the last colon, at the port
    written after it when that is a number. *)
Theorem check_ping_port (env : Env) (monitor : Monitor) (s : State) :
  (PyStr.contains ":" (m_target monitor) = false ∨
   PyStr.startswith (m_target monitor) "[" = true →
   trace (check_ping env monitor s).2 =
     trace s ++ [OpConnectEx (m_target monitor) 80 (m_timeout monitor)]) ∧
  (∀ host text port,
     m_target monitor = host +:+ ":" +:+ text →
     PyStr.contains ":" text = false →
     PyStr.startswith (m_target monitor) "[" = false →
     py_int env text = Ret port →
     trace (check_ping env monitor s).2 =
       trace s ++ [OpConnectEx host port (m_timeout monitor)]).
Proof.
  unfold check_ping. split.
  - intros Hcase.
    by apply (check_port_trace_configured env (with_port monitor 80) s).
  - intros host text port Htarget Hlast Hbracket Hint.
    by apply (check_port_trace_embedded env (with_port monitor 80) s host text port).
Qed.

(** A ping of the gateway connects to 5432, of the bare host to 80, and of
    the bracketed address to port 80 of the whole text. *)
Lemma check_ping_port_witness :
  trace (check_ping (Demo.world (fun _ => Ret (200, "")))
           Samples.gateway Demo.empty_state).2 =
    [OpConnectEx "db.internal" 5432 30] ∧
  trace (check_ping (Demo.world (fun _ => Ret (200, "")))
           Demo.beacon Demo.empty_state).2 =
    [OpConnectEx "agent-7" 80 30] ∧
  trace (check_ping (Demo.world (fun _ => Ret (200, "")))
           Samples.loopback Demo.empty_state).2 =
    [OpConnectEx "[::1]:8080" 80 30].
Proof.
  split; [|split].
  - exact (proj2 (check_ping_port (Demo.world (fun _ => Ret (200, "")))
                    Samples.gateway Demo.empty_state)
             "db.internal" "5432" 5432 eq_refl eq_refl eq_refl eq_refl).
  - exact (proj1 (check_ping_port (Demo.world (fun _ => Ret (200, "")))
                    Demo.beacon Demo.empty_state) (or_introl eq_refl)).
  - exact (proj1 (check_ping_port (Demo.world (fun _ => Ret (200, "")))
                    Samples.loopback Demo.empty_state) (or_intror eq_refl)).
Defined.

(** ** The certificate probe: where it connects *)

Lemma before_first_app (c : ascii) (a b : string) :
  PyStr.contains (String c "") a = false →
  PyStr.before_first c (a +:+ String c b) = a.
Proof. intros H. unfold PyStr.before_first. by rewrite split_first_app. Qed.

Lemma before_first_none (c : ascii) (s : string) :
  PyStr.contains (String c "") s = false → PyStr.before_first c s = s.
Proof. intros H. unfold PyStr.before_first. by rewrite split_first_none. Qed.

Lemma check_ssl_cert_trace env monitor s hostname :
  (if PyStr.startswith (m_target monitor) "http"
   then urlparse_hostname env (m_target monitor)
   else Ret (Some (PyStr.before_first ":" (m_target monitor)))) = Ret hostname →
  trace (check_ssl_cert env monitor s).2 = trace s ++ [OpTls hostname 443 10].
Proof.
  intros Hhost. unfold check_ssl_cert.
  destruct (PyStr.startswith (m_target monitor) "http").
  - rewrite Hhost. run_probe; reflexivity.
  - injection Hhost as <-. run_probe; reflexivity.
Qed.

(** X7. The certificate probe always connects to port 443 with a timeout
    of 10 seconds, whatever port the target names and whatever timeout is
    configured: to the host of a URL, to the target itself, or to the text
    before its first colon. *)
Theorem check_ssl_cert_endpoint (env : Env) (monitor : Monitor) (s : State) :
  let target := m_target monitor in
  let connects hostname :=
    trace (check_ssl_cert env monitor s).2 = trace s ++ [OpTls hostname 443 10] in
  (∀ hostname, PyStr.startswith target "http" = true →
     urlparse_hostname env target = Ret hostname → connects hostname) ∧
  (PyStr.startswith target "http" = false →
     PyStr.contains ":" target = false → connects (Some target)) ∧
  (∀ host rest, PyStr.startswith target "http" = false →
     target = host +:+ ":" +:+ rest →
     PyStr.contains ":" host = false → connects (Some host)).
Proof.
  cbv zeta. split; [|split].
  - intros hostname Hhttp Hparse. apply check_ssl_cert_trace. by rewrite Hhttp.
  - intros Hhttp Hno. apply check_ssl_cert_trace. rewrite Hhttp.
    by rewrite before_first_none.
  - intros host rest Hhttp Htarget Hno. apply check_ssl_cert_trace. rewrite Hhttp.
    rewrite Htarget, colon_append. by rewrite before_first_app.
Qed.

(** The shop serves TLS on 8443; the probe asks port 443. *)
Lemma check_ssl_cert_endpoint_witness :
  trace (check_ssl_cert (Demo.world (fun _ => Ret (200, "")))
           Samples.shop Demo.empty_state).2 =
    [OpTls (Some "example.com") 443 10].
Proof.
  exact (proj2 (proj2 (check_ssl_cert_endpoint (Demo.world (fun _ => Ret (200, "")))
                         Samples.shop Demo.empty_state))
           "example.com" "8443" eq_refl eq_refl eq_refl).
Defined.

(** ** The database probes: how the address is read *)

Lemma at_append (a b : string) : a +:+ "@" +:+ b = a +:+ String "@" b.
Proof. reflexivity. Qed.

Lemma slash_append (a b : string) : a +:+ "/" +:+ b = a +:+ String "/" b.
Proof. reflexivity. Qed.

Lemma check_mysql_trace_full (env : Env) (monitor : Monitor) (s : State)
    (user password host text db : string) (port : Z) :
  has_pymysql env = true →
  m_target monitor =
    (user +:+ ":" +:+ password) +:+ "@" +:+ ((host +:+ ":" +:+ text) +:+ "/" +:+ db) →
  PyStr.contains "@" user = false →
  PyStr.contains ":" user = false →
  PyStr.contains "@" password = false →
  PyStr.contains "/" db = false →
  PyStr.contains ":" text = false →
  py_int env text = Ret port →
  trace (check_mysql env monitor s).2 =
    trace s ++ [OpMysql host port user password
                  (if PyStr.truthy db then Some db else None) (m_timeout monitor)].
Proof.
  intros Hmod Htarget Hu1 Hu2 Hp Hdb Htext Hint. unfold check_mysql.
  rewrite Hmod. cbn [negb]. rewrite Htarget.
  rewrite at_append, contains_char_mid.
  rewrite split_first_app.
  2:{ rewrite colon_append, contains_char_app, contains_char_cons, Hu1, Hp.
      reflexivity. }
  cbn [default from_option id fst snd].
  rewrite (colon_append user), split_first_app by exact Hu2.
  rewrite slash_append, contains_char_mid, split_last_app by exact Hdb.
  cbn [default from_option id fst snd].
  unfold_monad. cbn [fst snd].
  rewrite colon_append, contains_char_mid, split_last_app by exact Htext.
  cbn [default from_option id fst snd]. rewrite Hint. cbn [fst snd].
  destruct (mysql_reply env _ _) as [[]|e]; reflexivity.
Qed.

Lemma check_mysql_trace_bare (env : Env) (monitor : Monitor) (s : State) :
  has_pymysql env = true →
  PyStr.contains "@" (m_target monitor) = false →
  PyStr.contains ":" (m_target monitor) = false →
  trace (check_mysql env monitor s).2 =
    trace s ++ [OpMysql (m_target monitor) 3306 "root" "" None (m_timeout monitor)].
Proof.
  intros Hmod Hat Hcolon. unfold check_mysql. rewrite Hmod, Hat. cbn [negb].
  unfold_monad. cbn [fst snd]. rewrite Hcolon. cbn [fst snd PyStr.truthy].
  destruct (mysql_reply env _ _) as [[]|e]; reflexivity.
Qed.

(** X8. How the MySQL probe reads its target.
    [user:password@host:port/database] is taken apart at the first [@], the
    first colon of the credentials, the last slash and the last colon of the
    address; a target with neither [@] nor colon is the host, with user root,
    an empty password, port 3306 and no database. *)
Theorem check_mysql_address (env : Env) (monitor : Monitor) (s : State) :
  has_pymysql env = true →
  (∀ user password host text db port,
     m_target monitor =
       (user +:+ ":" +:+ password) +:+ "@" +:+
       ((host +:+ ":" +:+ text) +:+ "/" +:+ db) →
     PyStr.contains "@" user = false →
     PyStr.contains ":" user = false →
     PyStr.contains "@" password = false →
     PyStr.contains "/" db = false →
     PyStr.contains ":" text = false →
     py_int env text = Ret port →
     trace (check_mysql env monitor s).2 =
       trace s ++ [OpMysql host port user password
                     (if PyStr.truthy db then Some db else None) (m_timeout monitor)]) ∧
  (PyStr.contains "@" (m_target monitor) = false →
   PyStr.contains ":" (m_target monitor) = false →
   trace (check_mysql env monitor s).2 =
     trace s ++ [OpMysql (m_target monitor) 3306 "root" "" None (m_timeout monitor)]).
Proof.
  intros Hmod. split.
  - intros user password host text db port. by apply check_mysql_trace_full.
  - by apply check_mysql_trace_bare.
Qed.

(** The orders database. *)
Lemma check_mysql_address_witness :
  trace (check_mysql (Demo.world (fun _ => Ret (200, "")))
           Samples.orders Demo.empty_state).2 =
    [OpMysql "db.internal" 3307 "app" "s3cret" (Some "shop") 30].
Proof.
  exact (proj1 (check_mysql_address (Demo.world (fun _ => Ret (200, "")))
                  Samples.orders Demo.empty_state eq_refl)
           "app" "s3cret" "db.internal" "3307" "shop" 3307
           eq_refl eq_refl eq_refl eq_refl eq_refl eq_refl eq_refl).
Defined.

Lemma redis_scheme (rest : string) :
  PyStr.startswith ("redis://" +:+ rest) "redis://" = true ∧
  PyStr.drop 8 ("redis://" +:+ rest) = rest.
Proof.
  split; [|reflexivity]. unfold PyStr.startswith. apply prefix_append. by exists rest.
Qed.

(** X9. How the Redis probe reads its target: a leading [redis://] is
    dropped; the port is the number after the last colon, and 6379 when there
    is no colon. *)
Theorem check_redis_address (env : Env) (monitor : Monitor) (s : State) (rest : string) :
  has_redis env = true →
  m_target monitor = rest ∧ PyStr.startswith rest "redis://" = false ∨
  m_target monitor = "redis://" +:+ rest →
  (PyStr.contains ":" rest = false →
   trace (check_redis env monitor s).2 =
     trace s ++ [OpRedis rest 6379 (m_timeout monitor)]) ∧
  (∀ host text port,
     rest = host +:+ ":" +:+ text →
     PyStr.contains ":" text = false →
     py_int env text = Ret port →
     trace (check_redis env monitor s).2 =
       trace s ++ [OpRedis host port (m_timeout monitor)]).
Proof.
  intros Hmod Htarget. unfold check_redis. rewrite Hmod. cbn [negb].
  assert ((if PyStr.startswith (m_target monitor) "redis://"
           then PyStr.drop 8 (m_target monitor) else m_target monitor) = rest) as Hrest.
  { destruct Htarget as [[-> ->] | ->]; [reflexivity|].
    destruct (redis_scheme rest) as [-> ->]. reflexivity. }
  unfold_monad. cbn [fst snd]. rewrite Hrest. split.
  - intros Hno. rewrite Hno. cbn [fst snd].
    destruct (redis_reply env _ _) as [[]|e]; reflexivity.
  - intros host text port -> Htext Hint.
    rewrite colon_append, contains_char_mid, split_last_app by exact Htext.
    cbn [default from_option id fst snd]. rewrite Hint. cbn [fst snd].
    destruct (redis_reply env _ _) as [[]|e]; reflexivity.
Qed.

(** The cache, given as a URL. *)
Lemma check_redis_address_witness :
  trace (check_redis (Demo.world (fun _ => Ret (200, "")))
           Samples.cache Demo.empty_state).2 =
    [OpRedis "cache.internal" 6380 30].
Proof.
  exact (proj2 (check_redis_address (Demo.world (fun _ => Ret (200, "")))
                  Samples.cache Demo.empty_state "cache.internal:6380"
                  eq_refl (or_intror eq_refl))
           "cache.internal" "6380" 6380 eq_refl eq_refl eq_refl).
Defined.

(** ** What [check] leaves alone *)

(** X10. A probe run by [check] only extends the trace of network
    operations: heartbeats, logs, events, monitors, the status tracker, the
    jobs and the notifications are as before, whatever the type and whatever
    the network answers. *)
Theorem check_touches_network_only (env : Env) (monitor : Monitor) (s : State) :
  let s' := (check env monitor s).2 in
  (∃ ops, trace s' = trace s ++ ops) ∧
  heartbeats s' = heartbeats s ∧ monitor_logs s' = monitor_logs s ∧
  events s' = events s ∧ monitors s' = monitors s ∧
  last_status s' = last_status s ∧ jobs s' = jobs s ∧ sent s' = sent s.
Proof.
  destruct (Probes_check env monitor s) as (c & ops & Hs'). cbv zeta.
  rewrite Hs'. cbn. eauto 10.
Qed.

(** ** The keyword probe: the keyword is there *)

(** X11. When the page is up and its text contains the keyword, the
    keyword probe reports status 1 with the response time and the status code
    of the first request; the second request, which fetches the text, is not
    timed. *)
Theorem check_keyword_found (env : Env) (monitor : Monitor) (s : State)
    (first : CheckResult) (code : Z) (before after : string) :
  let s1 := (check_http env monitor s).2 in
  (check_http env monitor s).1 = Ret first →
  status first = 1 →
  m_keyword monitor ≠ "" →
  requests_reply env (length (trace s1))
    (OpRequest "GET" (m_target monitor) [] "" (m_timeout monitor)) =
    Ret (code, before +:+ m_keyword monitor +:+ after) →
  (check_keyword env monitor s).1 =
    Ret (mkResult 1 (response_time first) (status_code first)
           ("包含关键词: " +:+ m_keyword monitor)).
Proof.
  cbv zeta. intros Hfirst Hst Hkw Hreply. rewrite check_keyword_unfold.
  destruct (check_http env monitor s) as [o s1]. cbn [fst snd] in *. subst o.
  rewrite Hst. apply truthy_nonempty in Hkw. rewrite Hkw. cbn [Z.eqb Pos.eqb andb].
  rewrite Hreply. cbn [fst snd].
  assert (PyStr.contains (m_keyword monitor) (before +:+ m_keyword monitor +:+ after) = true)
    as -> by (apply contains_substring; eauto).
  reflexivity.
Qed.

(** The page greets with the word. *)
Lemma check_keyword_found_witness :
  (check_keyword (Demo.world (fun _ => Ret (200, "hello, welcome home")))
     Demo.page Demo.empty_state).1 =
  Ret (mkResult 1 5 200 "包含关键词: welcome").
Proof.
  refine (check_keyword_found (Demo.world (fun _ => Ret (200, "hello, welcome home")))
            Demo.page Demo.empty_state _ 200 "hello, " " home"
            eq_refl eq_refl _ eq_refl).
  discriminate.
Defined.



(** ** Scheduling *)

Lemma schedule_monitor_run monitor s :
  schedule_monitor monitor s =
  (Ret tt,
   set_jobs s
     (match job_for monitor with
      | Some job => <[m_id monitor := job]> (delete (m_id monitor) (jobs s))
      | None => delete (m_id monitor) (jobs s)
      end)).
Proof.
  unfold schedule_monitor, remove_job, job_for. unfold_monad.
  destruct (negb (m_enabled monitor =? 0) && existsb _ (m_types monitor));
    reflexivity.
Qed.

Lemma existsb_not_push (types : list string) :
  existsb (fun t => negb (String.eqb t "push")) types = true ↔
  ∃ t, t ∈ types ∧ t ≠ "push".
Proof.
  rewrite existsb_exists. split.
  - intros (t & Hin & Ht). exists t. split; [by apply list_elem_of_In|].
    intros ->. discriminate.
  - intros (t & Hin & Ht). exists t. split; [by apply list_elem_of_In|].
    by destruct (String.eqb_spec t "push").
Qed.

(** X12. After [schedule_monitor] the monitor has a job exactly when it is
    enabled and has a type other than push; the job carries the monitor and its
    interval; the jobs of other monitors and the rest of the state are
    untouched. *)
Theorem schedule_monitor_job (monitor : Monitor) (s : State) :
  let s' := (schedule_monitor monitor s).2 in
  let active := m_enabled monitor ≠ 0 ∧ ∃ t, t ∈ m_types monitor ∧ t ≠ "push" in
  (active → jobs s' !! m_id monitor = Some (mkJob (m_interval monitor) monitor)) ∧
  (¬ active → jobs s' !! m_id monitor = None) ∧
  (∀ other, other ≠ m_id monitor → jobs s' !! other = jobs s !! other) ∧
  set_jobs s' (jobs s) = s.
Proof.
  cbv zeta. rewrite schedule_monitor_run. cbn [fst snd jobs set_jobs].
  unfold job_for.
  destruct (negb (m_enabled monitor =? 0) &&
            existsb (fun t => negb (String.eqb t "push")) (m_types monitor)) eqn:E.
  - apply andb_true_iff in E as [Hen Hact].
    apply negb_true_iff, Z.eqb_neq in Hen. apply existsb_not_push in Hact.
    split; [intros _; apply lookup_insert_eq|].
    split; [intros Hno; exfalso; apply Hno; by split|].
    split; [|by destruct s].
    intros other Hne. rewrite lookup_insert_ne by done. by rewrite lookup_delete_ne.
  - split.
    + intros [Hen Hact]. exfalso. apply existsb_not_push in Hact.
      apply Z.eqb_neq in Hen. rewrite Hen, Hact in E. discriminate.
    + split; [intros _; apply lookup_delete_eq|].
      split; [|by destruct s].
      intros other Hne. by rewrite lookup_delete_ne.
Qed.

(** The site gets a job, the beacon none. *)
Lemma schedule_monitor_job_witness :
  jobs (schedule_monitor Demo.site Demo.empty_state).2 !! 1 =
    Some (mkJob 60 Demo.site) ∧
  jobs (schedule_monitor Demo.beacon Demo.empty_state).2 !! 3 = None.
Proof.
  split.
  - apply (proj1 (schedule_monitor_job Demo.site Demo.empty_state)).
    split; [discriminate|]. exists "http".
    split; [apply elem_of_cons; by left|discriminate].
  - apply (proj1 (proj2 (schedule_monitor_job Demo.beacon Demo.empty_state))).
    intros [_ (t & Hin & Hne)].
    apply elem_of_cons in Hin as [->|Hin]; [by apply Hne|by apply elem_of_nil in Hin].
Defined.

Lemma job_for_lookup monitor s :
  jobs (schedule_monitor monitor s).2 !! m_id monitor = job_for monitor.
Proof.
  rewrite schedule_monitor_run. cbn [snd jobs set_jobs].
  destruct (job_for monitor); [apply lookup_insert_eq|apply lookup_delete_eq].
Qed.

Lemma schedule_monitor_other monitor s other :
  other ≠ m_id monitor →
  jobs (schedule_monitor monitor s).2 !! other = jobs s !! other.
Proof.
  intros Hne. rewrite schedule_monitor_run. cbn [snd jobs set_jobs].
  destruct (job_for monitor);
    [rewrite lookup_insert_ne by done|]; by rewrite lookup_delete_ne.
Qed.

Lemma for_each_schedule rows s :
  NoDup (List.map m_id rows) →
  let run := for_each rows schedule_monitor s in
  run.1 = Ret tt ∧
  (∀ m, m ∈ rows → jobs run.2 !! m_id m = job_for m) ∧
  (∀ other, other ∉ List.map m_id rows → jobs run.2 !! other = jobs s !! other) ∧
  set_jobs run.2 (jobs s) = s.
Proof.
  revert s. induction rows as [|m rows IH]; intros s Hnd; cbv zeta.
  - cbn. repeat split; try done. intros m Hin. by apply elem_of_nil in Hin. by destruct s.
  - cbn [for_each]. unfold bind. rewrite schedule_monitor_run.
    cbn [List.map] in Hnd. apply NoDup_cons in Hnd as [Hfresh Hnd].
    set (s1 := set_jobs s _).
    destruct (IH s1 Hnd) as (Hret & Hin & Hout & Hrest).
    destruct (for_each rows schedule_monitor s1) as [o s2]. cbn [fst snd] in *.
    subst o. split; [reflexivity|]. split; [|split].
    + intros m' Hm'. apply elem_of_cons in Hm' as [->|Hm']; [|by apply Hin].
      rewrite (Hout (m_id m) Hfresh). subst s1.
      pose proof (job_for_lookup m s) as Hj. by rewrite schedule_monitor_run in Hj.
    + intros other Hother. cbn [List.map] in Hother.
      apply not_elem_of_cons in Hother as [Hne Hother].
      rewrite (Hout other Hother). subst s1.
      pose proof (schedule_monitor_other m s other Hne) as Hj.
      by rewrite schedule_monitor_run in Hj.
    + subst s1. destruct s2, s. unfold set_jobs in *. cbn in *. congruence.
Qed.

(** X13. At start every stored monitor is scheduled as [schedule_monitor]
    would schedule it alone, and no other job changes, provided the ids of the
    stored monitors are distinct. *)
Theorem init_scheduler_jobs (s : State) :
  NoDup (List.map m_id (monitors s)) →
  let s' := (init_scheduler s).2 in
  (init_scheduler s).1 = Ret tt ∧
  (∀ m, m ∈ monitors s → jobs s' !! m_id m = job_for m) ∧
  (∀ other, other ∉ List.map m_id (monitors s) → jobs s' !! other = jobs s !! other).
Proof.
  intros Hnd. unfold init_scheduler, Db.get_all_monitors. unfold bind, gets.
  destruct (for_each_schedule (monitors s) s Hnd) as (Hret & Hin & Hout & _).
  cbv zeta. destruct (for_each (monitors s) schedule_monitor s) as [o s2].
  cbn [fst snd] in *. by subst o.
Qed.

(** The fleet at start. *)
Lemma init_scheduler_jobs_witness :
  let s' := (init_scheduler Samples.fleet).2 in
  jobs s' !! 1 = Some (mkJob 60 Demo.site) ∧ jobs s' !! 3 = None.
Proof.
  intros s'.
  assert (Hnd : NoDup (List.map m_id (monitors Samples.fleet))).
  { apply (bool_decide_unpack _). vm_compute. exact I. }
  destruct (init_scheduler_jobs Samples.fleet Hnd) as (_ & Hin & _).
  split.
  - apply (Hin Demo.site). apply elem_of_cons. by left.
  - apply (Hin Demo.beacon). apply elem_of_cons. right. apply elem_of_cons. by left.
Defined.

(** ** Updating a monitor *)

Lemma find_updated (monitor_id : Z) (data : MonitorData) (rows : list Monitor) :
  List.find (fun m => m_id m =? monitor_id)
    (List.map (fun m => if m_id m =? monitor_id then updated data m else m) rows) =
  updated data <$> List.find (fun m => m_id m =? monitor_id) rows.
Proof.
  induction rows as [|m rows IH]; [reflexivity|]. cbn [List.map List.find].
  destruct (m_id m =? monitor_id) eqn:E.
  - cbn [updated m_id]. by rewrite E.
  - by rewrite E.
Qed.

Lemma find_none_unchanged (monitor_id : Z) (data : MonitorData) (rows : list Monitor) :
  List.find (fun m => m_id m =? monitor_id) rows = None →
  List.map (fun m => if m_id m =? monitor_id then updated data m else m) rows = rows ∧
  existsb (fun m => m_id m =? monitor_id) rows = false.
Proof.
  induction rows as [|m rows IH]; [done|]. cbn [List.map List.find existsb].
  destruct (m_id m =? monitor_id); [discriminate|]. intros H.
  destruct (IH H) as [-> ->]. done.
Qed.

Lemma find_some_exists (monitor_id : Z) (rows : list Monitor) (m : Monitor) :
  List.find (fun m => m_id m =? monitor_id) rows = Some m →
  existsb (fun m => m_id m =? monitor_id) rows = true ∧ m_id m = monitor_id.
Proof.
  induction rows as [|x rows IH]; [done|]. cbn [List.find existsb].
  destruct (m_id x =? monitor_id) eqn:E.
  - intros [= <-]. split; [done|]. by apply Z.eqb_eq.
  - intros H. destruct (IH H) as [-> ?]. done.
Qed.

Lemma api_update_monitor_run (monitor_id : Z) (data : MonitorData)
    (old : Monitor) (s : State) :
  List.find (fun m => m_id m =? monitor_id) (monitors s) = Some old →
  api_update_monitor true monitor_id data s =
  (Ret RespSuccess,
   (schedule_monitor (updated data old)
      (set_monitors s
         (List.map (fun m => if m_id m =? monitor_id then updated data m else m)
            (monitors s)))).2).
Proof.
  intros Hfind. destruct (find_some_exists _ _ _ Hfind) as [Hex Hid].
  unfold api_update_monitor, update_monitor, Db.get_monitor.
  unfold_monad. cbn [negb fst snd]. rewrite Hex. cbn [negb monitors set_monitors].
  rewrite find_updated, Hfind. cbn [fmap option_fmap option_map].
  by rewrite schedule_monitor_run.
Qed.

(** X14. An authorized update of a stored monitor answers success, stores
    the updated row, and replaces the job of the monitor by the one for the
    updated row, so that disabling a monitor unschedules it.  The jobs of other
    monitors and the status tracker are untouched, and the body of the request
    the monitor sends is never updated. *)
Theorem api_update_monitor_reschedules (monitor_id : Z) (data : MonitorData)
    (old : Monitor) (s : State) :
  (Db.get_monitor monitor_id s).1 = Ret (Some old) →
  let run := api_update_monitor true monitor_id data s in
  let new := updated data old in
  run.1 = Ret RespSuccess ∧
  (Db.get_monitor monitor_id run.2).1 = Ret (Some new) ∧
  jobs run.2 !! monitor_id = job_for new ∧
  (∀ other, other ≠ monitor_id → jobs run.2 !! other = jobs s !! other) ∧
  last_status run.2 = last_status s ∧
  m_body new = m_body old.
Proof.
  unfold Db.get_monitor, gets. cbn [fst]. intros [= Hfind].
  destruct (find_some_exists _ _ _ Hfind) as [Hex Hid].
  cbv zeta. rewrite (api_update_monitor_run _ _ _ _ Hfind). cbn [fst snd].
  assert (Hnew : m_id (updated data old) = monitor_id) by exact Hid.
  split; [reflexivity|]. split; [|split; [|split; [|split; [|reflexivity]]]].
  - rewrite schedule_monitor_run. cbn [snd monitors set_jobs set_monitors].
    by rewrite find_updated, Hfind.
  - rewrite <- Hnew at 1. apply job_for_lookup.
  - intros other Hne. rewrite schedule_monitor_other by congruence. reflexivity.
  - rewrite schedule_monitor_run. reflexivity.
Qed.

(** The watched site is disabled by a PUT. *)
Lemma api_update_monitor_reschedules_witness :
  let run := api_update_monitor true 1 Samples.pause Demo.watching in
  run.1 = Ret RespSuccess ∧ jobs run.2 !! 1 = None ∧
  last_status run.2 = last_status Demo.watching.
Proof.
  intros run.
  destruct (api_update_monitor_reschedules 1 Samples.pause Demo.site Demo.watching
              eq_refl) as (Hret & _ & Hjob & _ & Hls & _).
  split; [exact Hret|]. split; [exact Hjob|exact Hls].
Defined.

(** X15. An update without authorization answers the error 401, whether
    or not the monitor is stored; an authorized update of a monitor that is
    not stored answers the error 400.  Neither changes the state. *)
Theorem api_update_monitor_refused (authorized : bool) (monitor_id : Z)
    (data : MonitorData) (s : State) :
  let run := api_update_monitor authorized monitor_id data s in
  (authorized = false → run = (Ret (RespError 401 "未授权"), s)) ∧
  (authorized = true → (Db.get_monitor monitor_id s).1 = Ret None →
   run = (Ret (RespError 400 "更新失败"), s)).
Proof.
  cbv zeta. unfold Db.get_monitor, gets. cbn [fst].
  unfold api_update_monitor, update_monitor. unfold_monad. split.
  - intros ->. reflexivity.
  - intros -> [= Hfind]. cbn [negb fst snd].
    destruct (find_none_unchanged monitor_id data _ Hfind) as [Hmap Hex].
    rewrite Hex, Hmap. cbn [negb]. by destruct s.
Qed.

(** The same PUT without a session, and a PUT for a monitor that is not
    stored. *)
Lemma api_update_monitor_refused_witness :
  api_update_monitor false 1 Samples.pause Demo.watching =
    (Ret (RespError 401 "未授权"), Demo.watching) ∧
  api_update_monitor true 9 Samples.pause Demo.watching =
    (Ret (RespError 400 "更新失败"), Demo.watching).
Proof.
  split.
  - exact (proj1 (api_update_monitor_refused false 1 Samples.pause Demo.watching)
             eq_refl).
  - exact (proj2 (api_update_monitor_refused true 9 Samples.pause Demo.watching)
             eq_refl eq_refl).
Defined.

(** ** A whole scheduled check *)

Lemma report_change_appends monitor check_type result prev_status s :
  ∃ evs nts,
    report_change monitor check_type result prev_status s =
      (Ret tt, set_sent (set_events s (events s ++ evs)) (sent s ++ nts)) ∧
    length evs = length nts ∧ (length evs ≤ 1)%nat ∧
    Forall (transition_event (m_id monitor)) evs ∧
    (prev_status = None → evs = []) ∧
    Forall (λ n, nt_monitor n = monitor) nts.
Proof.
  unfold report_change, Db.add_event, send_notification. unfold_monad.
  destruct prev_status as [prev|]; [destruct (negb _)|]; cbn [fst snd].
  - eexists [_], [_]. split; [reflexivity|]. split; [reflexivity|].
    split; [simpl; lia|]. split; [|split; [discriminate|by apply Forall_singleton]].
    apply Forall_singleton. unfold transition_event.
    destruct (status result =? 0); simpl; auto.
  - exists [], []. rewrite !app_nil_r. split; [by destruct s|].
    repeat split; first [done | simpl; lia].
  - exists [], []. rewrite !app_nil_r. split; [by destruct s|].
    repeat split; first [done | simpl; lia].
Qed.

(** One pass of the loop, as a change of the state. *)
Lemma check_one_type_effect env monitor check_type s row :
  last_status s !! m_id monitor = Some row →
  ∃ c ops logs evs nts row',
    check_one_type env monitor check_type s =
      (Ret tt,
       mkState c (trace s ++ ops) (heartbeats s) (monitor_logs s ++ logs)
         (events s ++ evs) (monitors s)
         (<[m_id monitor := row']> (last_status s)) (jobs s) (sent s ++ nts)) ∧
    (check_type = "push" → logs = [] ∧ evs = [] ∧ row' = row) ∧
    (check_type ≠ "push" →
       ∃ r, logs = [log_of (m_id monitor) check_type r] ∧
            row' = <[check_type := status r]> row) ∧
    length evs = length nts ∧ (length evs ≤ length logs)%nat ∧
    Forall (transition_event (m_id monitor)) evs ∧
    (row !! check_type = None → evs = []) ∧
    Forall (λ n, nt_monitor n = monitor) nts.
Proof.
  intros Hrow. destruct (decide (check_type = "push")) as [->|Hpush].
  - exists (clock s), [], [], [], [], row. unfold check_one_type. cbn.
    rewrite !app_nil_r, insert_id by done.
    split; [by destruct s|]. repeat split; done.
  - destruct (check_one_type_run env monitor check_type s row Hpush Hrow)
      as (result & s1 & s2 & _ & (c & ops & ->) & Hrep & ->).
    destruct (report_change_appends monitor check_type result (row !! check_type)
                (set_monitor_logs (set_net s c (trace s ++ ops))
                   (monitor_logs (set_net s c (trace s ++ ops)) ++
                    [mkLog (m_id monitor) check_type (status result)
                       (response_time result) (status_code result)
                       (message result)])))
      as (evs & nts & Hrep' & Hlen & Hle & Hall & Hnone & Hwho).
    rewrite Hrep in Hrep'. injection Hrep' as ->.
    exists c, ops, [log_of (m_id monitor) check_type result], evs, nts,
      (<[check_type := status result]> row).
    split; [reflexivity|]. split; [done|]. split; [intros _; by exists result|].
    repeat split; done.
Qed.

(** X16. A scheduled check of an enabled monitor writes one log row per
    type other than push, in the order of the types; it adds as many
    notifications as events, at most one per probed type; every event is a
    down or up event of this monitor, every notification carries the monitor
    as it was passed, not the copy with the key [type] that the probes were
    given; the tracker entries
    of other monitors, the heartbeats, the monitors and the jobs are
    untouched. *)
Theorem check_monitor_effect (env : Env) (monitor : Monitor) (s : State) :
  m_enabled monitor ≠ 0 →
  let s' := (check_monitor env monitor s).2 in
  let probed := active_types (m_types monitor) in
  ∃ results evs nts,
    length results = length probed ∧
    monitor_logs s' =
      monitor_logs s ++ zip_with (log_of (m_id monitor)) probed results ∧
    events s' = events s ++ evs ∧
    sent s' = sent s ++ nts ∧
    length evs = length nts ∧ (length evs ≤ length probed)%nat ∧
    Forall (transition_event (m_id monitor)) evs ∧
    Forall (λ n, nt_monitor n = monitor) nts ∧
    (∀ other, other ≠ m_id monitor → last_status s' !! other = last_status s !! other) ∧
    heartbeats s' = heartbeats s ∧ monitors s' = monitors s ∧ jobs s' = jobs s.
Proof.
  intros Hen. cbv zeta. rewrite (check_monitor_enabled env monitor s Hen).
  set (s0 := match last_status s !! m_id monitor with Some _ => s | None => _ end).
  assert (Hentry : is_Some (last_status s0 !! m_id monitor)).
  { subst s0. destruct (last_status s !! m_id monitor) eqn:E; [by rewrite E|].
    cbn. rewrite lookup_insert_eq. eauto. }
  assert (Hs0 : monitor_logs s0 = monitor_logs s ∧ events s0 = events s ∧
                sent s0 = sent s ∧ heartbeats s0 = heartbeats s ∧
                monitors s0 = monitors s ∧ jobs s0 = jobs s ∧
                ∀ other, other ≠ m_id monitor →
                  last_status s0 !! other = last_status s !! other).
  { subst s0. destruct (last_status s !! m_id monitor); [by repeat split|].
    cbn. repeat split. intros other Hne. by rewrite lookup_insert_ne. }
  destruct Hs0 as (<- & <- & <- & <- & <- & <- & Hother0).
  clearbody s0. clear Hen.
  assert (Hloop : ∃ results evs nts,
    length results = length (active_types (m_types monitor)) ∧
    monitor_logs (for_each (m_types monitor) (check_one_type env monitor) s0).2 =
      monitor_logs s0 ++
      zip_with (log_of (m_id monitor)) (active_types (m_types monitor)) results ∧
    events (for_each (m_types monitor) (check_one_type env monitor) s0).2 =
      events s0 ++ evs ∧
    sent (for_each (m_types monitor) (check_one_type env monitor) s0).2 =
      sent s0 ++ nts ∧
    length evs = length nts ∧
    (length evs ≤ length (active_types (m_types monitor)))%nat ∧
    Forall (transition_event (m_id monitor)) evs ∧
    Forall (λ n, nt_monitor n = monitor) nts ∧
    (∀ other, other ≠ m_id monitor →
       last_status (for_each (m_types monitor) (check_one_type env monitor) s0).2
         !! other = last_status s0 !! other) ∧
    heartbeats (for_each (m_types monitor) (check_one_type env monitor) s0).2 =
      heartbeats s0 ∧
    monitors (for_each (m_types monitor) (check_one_type env monitor) s0).2 =
      monitors s0 ∧
    jobs (for_each (m_types monitor) (check_one_type env monitor) s0).2 = jobs s0).
  { clear Hother0. revert s0 Hentry.
    induction (m_types monitor) as [|check_type types IH]; intros s0 [row Hrow].
    - exists [], [], []. cbn. rewrite !app_nil_r. repeat split; done.
    - cbn [for_each]. unfold bind at 1 2 3 4 5 6 7.
      destruct (check_one_type_effect env monitor check_type s0 row Hrow)
        as (c & ops & logs & evs & nts & row' & -> & Hp & Hnp & Hlen & Hle & Hall & _
            & Hwho).
      set (s1 := mkState _ _ _ _ _ _ _ _ _).
      destruct (IH s1) as (results & evs' & nts' & Hlr & Hlogs & Hev & Hnt & Hlen'
                           & Hle' & Hall' & Hwho' & Hoth & Hhb & Hmon & Hjobs).
      { subst s1. cbn. rewrite lookup_insert_eq. eauto. }
      assert (Hs1 : monitor_logs s1 = monitor_logs s0 ++ logs ∧
                    events s1 = events s0 ++ evs ∧ sent s1 = sent s0 ++ nts ∧
                    heartbeats s1 = heartbeats s0 ∧ monitors s1 = monitors s0 ∧
                    jobs s1 = jobs s0 ∧
                    ∀ other, other ≠ m_id monitor →
                      last_status s1 !! other = last_status s0 !! other).
      { subst s1. cbn. repeat split. intros other Ho. by rewrite lookup_insert_ne. }
      destruct Hs1 as (Hl1 & He1 & Hn1 & Hh1 & Hm1 & Hj1 & Ho1).
      clearbody s1.
      rewrite Hlogs, Hev, Hnt, Hhb, Hmon, Hjobs, Hl1, He1, Hn1, Hh1, Hm1, Hj1.
      assert (Hoth1 : ∀ other, other ≠ m_id monitor →
                last_status (for_each types (check_one_type env monitor) s1).2 !! other =
                last_status s0 !! other).
      { intros other Ho. rewrite Hoth by done. by apply Ho1. }
      unfold active_types. cbn [List.filter]. fold (active_types types).
      destruct (decide (check_type = "push")) as [->|Hne].
      + destruct (Hp eq_refl) as (-> & -> & _). cbn in Hlen.
        destruct nts; [|discriminate]. simpl String.eqb. cbn [negb].
        exists results, evs', nts'. rewrite !app_nil_r.
        repeat split; done.
      + destruct (Hnp Hne) as (r & -> & _).
        destruct (String.eqb_spec check_type "push") as [|_]; [done|]. cbn [negb].
        exists (r :: results), (evs ++ evs'), (nts ++ nts').
        cbn [zip_with length] in *. rewrite <- !app_assoc. rewrite !length_app.
        repeat split; try done; try lia; by apply Forall_app. }
  destruct Hloop as (results & evs & nts & H1 & H2 & H3 & H4 & H5 & H6 & H7 & Hwho
                     & H8 & H9 & H10 & H11).
  exists results, evs, nts. repeat split; try done.
  intros other Ho. rewrite H8 by done. by apply Hother0.
Qed.

(** A tick of the watched site while it answers 500. *)
Lemma check_monitor_effect_witness :
  let s' := (check_monitor (Demo.world (fun _ => Ret (500, "")))
               Demo.site Demo.watching).2 in
  ∃ evs nts,
    events s' = evs ∧ sent s' = nts ∧ length evs = length nts ∧
    Forall (transition_event 1) evs ∧
    Forall (λ n, nt_monitor n = Demo.site) nts ∧
    jobs s' = jobs Demo.watching.
Proof.
  intros s'.
  destruct (check_monitor_effect (Demo.world (fun _ => Ret (500, "")))
              Demo.site Demo.watching)
    as (results & evs & nts & _ & _ & Hev & Hnt & Hlen & _ & Hall & Hwho & _ & _ & _
        & Hjobs); [discriminate|].
  exists evs, nts. split; [exact Hev|]. split; [exact Hnt|]. split; [exact Hlen|].
  split; [exact Hall|]. split; [exact Hwho|exact Hjobs].
Defined.

Lemma for_each_first_observations env monitor types s row :
  last_status s !! m_id monitor = Some row →
  NoDup (active_types types) →
  (∀ t, t ∈ active_types types → row !! t = None) →
  let s' := (for_each types (check_one_type env monitor) s).2 in
  events s' = events s ∧ sent s' = sent s.
Proof.
  revert s row. induction types as [|check_type types IH]; intros s row Hrow Hnd Hnew.
  - done.
  - cbv zeta. cbn [for_each]. unfold bind.
    destruct (check_one_type_effect env monitor check_type s row Hrow)
      as (c & ops & logs & evs & nts & row' & -> & Hp & Hnp & Hlen & _ & _ & Hnone & _).
    set (s1 := mkState _ _ _ _ _ _ _ _ _).
    unfold active_types in Hnd, Hnew. cbn [List.filter] in Hnd, Hnew.
    fold (active_types types) in Hnd, Hnew.
    assert (Hquiet : evs = [] ∧ nts = [] ∧ NoDup (active_types types) ∧
                     ∀ t, t ∈ active_types types → row' !! t = None).
    { destruct (decide (check_type = "push")) as [->|Hne].
      - destruct (Hp eq_refl) as (_ & -> & ->). simpl in Hnd, Hnew.
        destruct nts; [|discriminate]. done.
      - destruct (Hnp Hne) as (r & _ & ->).
        destruct (String.eqb_spec check_type "push") as [|_]; [done|].
        cbn [negb] in Hnd, Hnew. apply NoDup_cons in Hnd as [Hfresh Hnd].
        assert (evs = []) as -> by (apply Hnone, Hnew, elem_of_cons; by left).
        destruct nts; [|discriminate]. repeat split; try done.
        intros t Ht. rewrite lookup_insert_ne by (intros ->; done).
        apply Hnew, elem_of_cons. by right. }
    destruct Hquiet as (-> & -> & Hnd' & Hnew').
    destruct (IH s1 row') as [Hev Hnt]; try done.
    { subst s1. cbn. apply lookup_insert_eq. }
    rewrite Hev, Hnt. subst s1. cbn. by rewrite !app_nil_r.
Qed.

(** X17. The first scheduled check of a monitor, when the tracker has no
    entry for it, reports nothing, even when every probe fails, provided no
    type is listed twice. *)
Theorem check_monitor_first_tick_silent (env : Env) (monitor : Monitor) (s : State) :
  m_enabled monitor ≠ 0 →
  last_status s !! m_id monitor = None →
  NoDup (active_types (m_types monitor)) →
  let s' := (check_monitor env monitor s).2 in
  events s' = events s ∧ sent s' = sent s.
Proof.
  intros Hen Hnew Hnd. cbv zeta. rewrite (check_monitor_enabled env monitor s Hen).
  rewrite Hnew.
  destruct (for_each_first_observations env monitor (m_types monitor)
              (set_last_status s (<[m_id monitor := ∅]> (last_status s))) ∅)
    as [Hev Hnt]; [cbn; apply lookup_insert_eq|exact Hnd|done|].
  by rewrite Hev, Hnt.
Qed.

(** The first tick of the site, which answers 500 from the start. *)
Lemma check_monitor_first_tick_silent_witness :
  let s' := (check_monitor (Demo.world (fun _ => Ret (500, "")))
               Demo.site Demo.empty_state).2 in
  events s' = [] ∧ sent s' = [].
Proof.
  apply (check_monitor_first_tick_silent (Demo.world (fun _ => Ret (500, "")))
           Demo.site Demo.empty_state); [discriminate|reflexivity|].
  exact (NoDup_singleton "http").
Defined.

(** ** Heartbeats *)

Lemma existsb_push (types : list string) :
  existsb (String.eqb "push") types = true ↔ "push" ∈ types.
Proof.
  rewrite existsb_exists. split.
  - intros (t & Hin & Ht). apply String.eqb_eq in Ht. subst t. by apply list_elem_of_In.
  - intros Hin. exists "push". split; [by apply list_elem_of_In|]. apply String.eqb_refl.
Qed.

Lemma token_match_iff (m : Monitor) (token : string) :
  existsb (String.eqb "push") (m_types m) &&
  (String.eqb (pretty (m_id m)) token || String.eqb (m_target m) token) = true ↔
  accepts_token m token.
Proof.
  unfold accepts_token.
  rewrite andb_true_iff, orb_true_iff, existsb_push, !String.eqb_eq. done.
Qed.

Lemma find_some_elem {A} (f : A → bool) (l : list A) (x : A) :
  List.find f l = Some x → x ∈ l ∧ f x = true.
Proof. intros H. apply find_some in H as [Hin Hf]. split; [by apply list_elem_of_In|done]. Qed.

Lemma find_none_elem {A} (f : A → bool) (l : list A) :
  List.find f l = None → ∀ x, x ∈ l → f x = false.
Proof. intros H x Hin. apply (find_none f l H). by apply list_elem_of_In. Qed.

Lemma find_accepting (token : string) (rows : list Monitor) :
  (∃ m, m ∈ rows ∧ accepts_token m token) →
  ∃ m, List.find
         (fun m =>
            existsb (String.eqb "push") (m_types m) &&
            (String.eqb (pretty (m_id m)) token || String.eqb (m_target m) token))
         rows = Some m.
Proof.
  intros (m & Hin & Hacc). destruct (List.find _ rows) as [m'|] eqn:Hfind; [eauto|].
  apply token_match_iff in Hacc.
  pose proof (find_none_elem _ _ Hfind m Hin) as Hno. cbn beta in Hno. congruence.
Qed.

(** X18. What a heartbeat request does to the state, for a body whose
    status is an integer.  A token that no stored monitor accepts is
    answered 404.  When a monitor accepts it: a POST whose content type is
    not JSON is answered 415 and one whose body does not parse 400; a status
    of the query string that is no number raises.  In all these cases
    nothing is stored.  And when the answer is ok, exactly one heartbeat and
    one log row of type push were stored, for a stored monitor that has the
    type push and whose id or target is the token. *)
Theorem api_push_heartbeat_effect (env : Env) (token : string) (request : Request)
    (s : State) :
  let run := api_push_heartbeat env token request s in
  let accepted := ∃ m, m ∈ monitors s ∧ accepts_token m token in
  (¬ accepted → run = (Ret (RespError 404 "无效的推送token"), s)) ∧
  (accepted → req_method request = "POST" → req_json request = NotJson →
   run = (Ret (RespAbort 415), s)) ∧
  (accepted → req_method request = "POST" → req_json request = BadJson →
   run = (Ret (RespAbort 400), s)) ∧
  (∀ text e, accepted → reads_query request →
     req_args_status request = Some text → text ≠ "" →
     py_int env text = Raise e →
     run = (Raise e, s)) ∧
  (run.1 = Ret RespOk →
   ∃ m st msg,
     m ∈ monitors s ∧ accepts_token m token ∧
     run.2 =
       set_monitor_logs
         (set_heartbeats s
            (heartbeats s ++
             [mkHeartbeat (m_id m) st msg (current_timestamp env (clock s))]))
         (monitor_logs s ++ [mkLog (m_id m) "push" st 0 0 msg])).
Proof.
  cbv zeta.
  assert (Hquery : reads_query request →
            (if String.eqb (req_method request) "POST"
             then match req_json request with
                  | NotJson => ret (inl 415)
                  | BadJson => ret (inl 400)
                  | JsonFalsy => ret (inr None)
                  | JsonObject body => ret (inr (Some body))
                  | JsonOther ty =>
                      raise (mkExn OtherException
                               ("'" +:+ ty +:+ "' object has no attribute 'get'"))
                  end
             else ret (inr None)) s = (Ret (inr (@None JsonBody) : Z + option JsonBody), s)).
  { intros [Hm | ->]; [|by destruct (String.eqb _ _)].
    by destruct (String.eqb_spec (req_method request) "POST"). }
  split; [|split; [|split; [|split]]].
  1-4: unfold api_push_heartbeat, Db.get_all_monitors, Db.add_heartbeat, Db.add_log;
    unfold bind at 1; unfold gets at 1; cbn [fst snd].
  - intros Hnone. destruct (List.find _ (monitors s)) as [m|] eqn:Hfind; [|reflexivity].
    exfalso. apply Hnone. apply find_some_elem in Hfind as [Hin Hm].
    apply token_match_iff in Hm. eauto.
  - intros Hacc Hpost Hjson. destruct (find_accepting token _ Hacc) as [m ->].
    rewrite Hpost, Hjson. reflexivity.
  - intros Hacc Hpost Hjson. destruct (find_accepting token _ Hacc) as [m ->].
    rewrite Hpost, Hjson. reflexivity.
  - intros text e Hacc Hq Hstatus Htext Hint.
    destruct (find_accepting token _ Hacc) as [m ->].
    unfold bind at 1. rewrite (Hquery Hq). unfold bind at 1.
    rewrite Hstatus. cbn [default from_option id].
    apply truthy_nonempty in Htext. rewrite Htext.
    unfold bind at 1, lift. by rewrite Hint.
  - clear Hquery.
    unfold api_push_heartbeat, Db.get_all_monitors, Db.add_heartbeat, Db.add_log.
    unfold_monad. cbn [fst snd].
    destruct (List.find _ (monitors s)) as [m|] eqn:Hfind; [|discriminate].
    apply find_some_elem in Hfind as [Hin Hm]. apply token_match_iff in Hm.
    destruct (String.eqb (req_method request) "POST"); cbn [fst snd].
    1: destruct (req_json request) as [| | |body|ty]; cbn [fst snd]; try discriminate.
    all: try (intros _; eexists m, _, _; split; [done|]; split; [done|]; reflexivity).
    all: destruct (PyStr.truthy (default "" (req_args_status request))); cbn [fst snd].
    all: try (destruct (py_int env _) as [st|e]; cbn [fst snd]; [|discriminate]).
    all: intros _; eexists m, _, _; split; [done|]; split; [done|]; reflexivity.
Qed.

(** The beacon is sent a form instead of JSON. *)
Lemma api_push_heartbeat_effect_witness :
  api_push_heartbeat (Demo.world (fun _ => Ret (200, ""))) "agent-7"
    (mkRequest "POST" NotJson None None) Samples.fleet =
  (Ret (RespAbort 415), Samples.fleet).
Proof.
  apply (proj1 (proj2 (api_push_heartbeat_effect (Demo.world (fun _ => Ret (200, "")))
                         "agent-7" (mkRequest "POST" NotJson None None) Samples.fleet)));
    [|reflexivity|reflexivity].
  exists Demo.beacon. split.
  - apply elem_of_cons. right. apply elem_of_cons. by left.
  - split; [apply elem_of_cons; by left|by right].
Defined.



(** ** The latest heartbeat *)

(** X20. The heartbeat read for a monitor is one of its own, and none of
    its heartbeats has a later timestamp; none is read only when the monitor
    has no heartbeat. *)
Theorem last_heartbeat_newest (rows : list Heartbeat) (monitor_id : Z) :
  match Db.last_heartbeat rows monitor_id with
  | Some b =>
      b ∈ rows ∧ hb_monitor_id b = monitor_id ∧
      ∀ x, x ∈ rows → hb_monitor_id x = monitor_id →
           String.ltb (hb_created_at b) (hb_created_at x) = false
  | None => ∀ x, x ∈ rows → hb_monitor_id x ≠ monitor_id
  end.
Proof.
  unfold Db.last_heartbeat.
  pose proof (latest_spec (List.filter (λ h, hb_monitor_id h =? monitor_id) rows) None) as H.
  destruct (Db.latest _ None) as [b|].
  - destruct H as ([Hin|Hin] & Hrows & _); [|done].
    apply list_elem_of_In, filter_In in Hin as [Hin Hid].
    split; [by apply list_elem_of_In|]. split; [by apply Z.eqb_eq|].
    intros x Hx Hxid. apply Hrows. apply list_elem_of_In, filter_In.
    split; [by apply list_elem_of_In|by apply Z.eqb_eq].
  - destruct H as [Hnil _]. intros x Hx Hxid.
    assert (x ∈ List.filter (λ h, hb_monitor_id h =? monitor_id) rows) as Hin.
    { apply list_elem_of_In, filter_In. split; [by apply list_elem_of_In|by apply Z.eqb_eq]. }
    rewrite Hnil in Hin. by apply elem_of_nil in Hin.
Qed.

(** Of the two heartbeats of monitor 3, the one of 10:05 is read; the one
    of 10:00 is not later. *)
Lemma last_heartbeat_newest_witness :
  ∃ b, Db.last_heartbeat Samples.beats 3 = Some b ∧
       b ∈ Samples.beats ∧ hb_monitor_id b = 3 ∧
       String.ltb (hb_created_at b) "2024-05-01 10:00:00" = false.
Proof.
  pose proof (last_heartbeat_newest Samples.beats 3) as H.
  exists (mkHeartbeat 3 0 "disk full" "2024-05-01 10:05:00").
  split; [reflexivity|]. split; [exact (proj1 H)|].
  split; [exact (proj1 (proj2 H))|].
  apply (proj2 (proj2 H) (mkHeartbeat 3 1 "OK" "2024-05-01 10:00:00"));
    [|reflexivity].
  apply elem_of_cons. by left.
Defined.




(** ** The manual check: the overall status *)




(** ** Rows of monitors *)

(** X23. After [delete_monitor] the monitor is not found any more, every
    other monitor is found as before, and the table holds the other rows. *)
Theorem delete_monitor_get_monitor (deleted wanted : Z) (s : State) :
  let s' := (Db.delete_monitor deleted s).2 in
  (Db.get_monitor wanted s').1 =
    (if decide (wanted = deleted) then Ret None else (Db.get_monitor wanted s).1) ∧
  (∀ m, m ∈ monitors s' ↔ m ∈ monitors s ∧ m_id m ≠ deleted).
Proof.
  cbv zeta. unfold Db.delete_monitor, Db.get_monitor. unfold_monad.
  cbn [fst snd monitors set_monitors]. split.
  - destruct (decide (wanted = deleted)) as [->|Hne]; [by rewrite find_filter_other|].
    f_equal. induction (monitors s) as [|m rows IH]; [reflexivity|].
    cbn [List.filter List.find]. destruct (m_id m =? deleted) eqn:E; cbn [negb].
    + apply Z.eqb_eq in E. destruct (m_id m =? wanted) eqn:E2; [|exact IH].
      apply Z.eqb_eq in E2. congruence.
    + cbn [List.find]. destruct (m_id m =? wanted); [reflexivity|exact IH].
  - intros m. rewrite !list_elem_of_In, filter_In, negb_true_iff, Z.eqb_neq. done.
Qed.

(** The watched site, deleted and asked for. *)
Lemma delete_monitor_get_monitor_witness :
  (Db.get_monitor 1 (Db.delete_monitor 1 Demo.watching).2).1 = Ret None.
Proof.
  exact (proj1 (delete_monitor_get_monitor 1 1 Demo.watching)).
Defined.

Import Auth.

(** ** The administrator and the tokens *)

Lemma remove_no_start (tok : string) :
  PyStr.contains "B" tok = false → remove_from "Bearer " 0 tok = tok.
Proof.
  induction tok as [|a tok IH]; intros Hno; [reflexivity|].
  cbn [PyStr.contains] in Hno. apply orb_false_elim in Hno as [Hp Hrest].
  cbn [remove_from].
  assert (String.prefix "Bearer " (String a tok) = false) as ->.
  { destruct (Ascii.ascii_dec a "B") as [->|Hne].
    - simpl in Hp. by rewrite prefix_empty in Hp.
    - cbn [String.prefix]. destruct (Ascii.ascii_dec "B" a); congruence. }
  by rewrite (IH Hrest).
Qed.

Lemma remove_bearer (tok : string) :
  PyStr.contains "B" tok = false → remove "Bearer " ("Bearer " +:+ tok) = tok.
Proof.
  intros Hno. unfold remove.
  change ("Bearer " +:+ tok) with
    (String "B" (String "e" (String "a" (String "r" (String "e" (String "r"
       (String " " tok))))))).
  cbn [remove_from String.length Nat.sub].
  assert (String.prefix "Bearer "
            (String "B" (String "e" (String "a" (String "r" (String "e" (String "r"
               (String " " tok))))))) = true) as ->.
  { apply prefix_append. by exists tok. }
  by apply remove_no_start.
Qed.

(** X24. On an installation without administrator, setup with a password
    of at least 6 characters stores the administrator with the hash of the
    password; a login with the same credentials then answers a token, and a
    request that bears this token is authorized (the token is hexadecimal,
    so it holds no B). *)
Theorem auth_setup_then_login (sha256 : string → string) (username password : string)
    (fresh : string) (a : Accounts) :
  admin a = None →
  (6 ≤ len password)%nat →
  let a1 := (api_auth_setup sha256 (Some username) (Some password) a).2 in
  let login := api_auth_login sha256 (Some username) (Some password) fresh a1 in
  admin a1 = Some (username, sha256 password) ∧
  login.1 = Ret (Token fresh) ∧
  (PyStr.contains "B" fresh = false →
   check_auth (Some ("Bearer " +:+ fresh)) login.2 = true).
Proof.
  intros Hnone Hlen. cbv zeta. unfold api_auth_setup. rewrite Hnone.
  cbn [default from_option id].
  assert (Nat.ltb (len password) 6 = false) as -> by (apply Nat.ltb_ge; lia).
  cbn [snd create_admin admin]. split; [reflexivity|].
  unfold api_auth_login, verify_admin, hash_password.
  cbn [admin create_admin default from_option id].
  rewrite !String.eqb_refl. cbn [andb fst snd]. split; [reflexivity|].
  intros Hfresh. unfold check_auth. cbn [default from_option id admin_tokens].
  rewrite (remove_bearer fresh Hfresh). apply bool_decide_eq_true. set_solver.
Qed.

(** A fresh installation: setup, then login with the same credentials. *)
Lemma auth_setup_then_login_witness :
  let a1 := (api_auth_setup Samples.digest (Some "root") (Some "secret1")
               Samples.fresh_install).2 in
  let login := api_auth_login Samples.digest (Some "root") (Some "secret1") "a1b2" a1 in
  login.1 = Ret (Token "a1b2") ∧ check_auth (Some "Bearer a1b2") login.2 = true.
Proof.
  intros a1 login.
  destruct (auth_setup_then_login Samples.digest "root" "secret1" "a1b2"
              Samples.fresh_install eq_refl) as (_ & Hlogin & Hauth);
    [vm_compute; lia|].
  split; [exact Hlogin|exact (Hauth eq_refl)].
Defined.

(** X25. After a logout the token of the request is not accepted any more;
    the administrator and every other token are as before. *)
Theorem auth_logout_revokes (authorization : option string) (a : Accounts) :
  let a' := (api_auth_logout authorization a).2 in
  check_auth authorization a' = false ∧
  admin a' = admin a ∧
  ∀ other, other ≠ remove "Bearer " (default "" authorization) →
           (other ∈ admin_tokens a' ↔ other ∈ admin_tokens a).
Proof.
  cbv zeta. unfold api_auth_logout, check_auth. cbn [snd admin admin_tokens].
  split.
  { apply bool_decide_eq_false. rewrite elem_of_difference, elem_of_singleton.
    by intros [_ Hne]. }
  split; [reflexivity|].
  intros other Hne. rewrite elem_of_difference, elem_of_singleton.
  split; [by intros [Hin _]|by intros Hin].
Qed.

(** Of two sessions, one logs out. *)
Lemma auth_logout_revokes_witness :
  let a' := (api_auth_logout (Some "Bearer t1") Samples.two_sessions).2 in
  check_auth (Some "Bearer t1") a' = false ∧ "t2" ∈ admin_tokens a'.
Proof.
  intros a'.
  destruct (auth_logout_revokes (Some "Bearer t1") Samples.two_sessions)
    as (Hout & _ & Hrest).
  split; [exact Hout|]. apply (Hrest "t2"); [vm_compute; discriminate|].
  apply elem_of_union. right. by apply elem_of_singleton.
Defined.

(** X26. A change of password never touches the tokens: the sessions
    opened with the old password stay valid.  It succeeds only for an
    authorized request that gives the stored password and a new one of at
    least 6 characters, and then stores the hash of the new password under the
    same user name; in every other case the accounts are unchanged. *)
Theorem auth_password_change (sha256 : string → string)
    (authorization : option string) (old_password new_password : option string)
    (a : Accounts) :
  let run := api_auth_password sha256 authorization old_password new_password a in
  admin_tokens run.2 = admin_tokens a ∧
  match run.1 with
  | Ret Success =>
      check_auth authorization a = true ∧
      (6 ≤ len (default "" new_password))%nat ∧
      ∃ username,
        admin a = Some (username, sha256 (default "" old_password)) ∧
        admin run.2 = Some (username, sha256 (default "" new_password))
  | _ => run.2 = a
  end.
Proof.
  cbv zeta. unfold api_auth_password.
  destruct (check_auth authorization a) eqn:Hauth; cbn [negb]; [|done].
  destruct (admin a) as [[username stored]|] eqn:Hadmin; [|done].
  unfold verify_admin, hash_password. rewrite Hadmin. rewrite String.eqb_refl.
  cbn [andb].
  destruct (String.eqb_spec stored (sha256 (default "" old_password))) as [->|Hne];
    cbn [negb]; [|done].
  destruct (Nat.ltb (len (default "" new_password)) 6) eqn:Hlen; [done|].
  apply Nat.ltb_ge in Hlen. cbn [fst snd create_admin admin admin_tokens].
  split; [reflexivity|]. split; [reflexivity|]. split; [exact Hlen|].
  by exists username.
Qed.

(** The session t2 changes the password; both sessions stay. *)
Lemma auth_password_change_witness :
  let run := api_auth_password Samples.digest (Some "Bearer t2") (Some "secret1")
               (Some "secret2") Samples.two_sessions in
  admin_tokens run.2 = admin_tokens Samples.two_sessions ∧
  ∃ username, admin run.2 = Some (username, Samples.digest "secret2").
Proof.
  intros run.
  destruct (auth_password_change Samples.digest (Some "Bearer t2") (Some "secret1")
              (Some "secret2") Samples.two_sessions)
    as (Htokens & _ & _ & username & _ & Hnew).
  split; [exact Htokens|]. exists username. exact Hnew.
Defined.

Import Notify.

Ltac unfold_notify :=
  unfold request, item in *;
  unfold nbind, nret, nraise, ntry in *.

Lemma send_returns world channel monitor st message t :
  ∃ b, (send world channel monitor st message t).1 = Ret b.
Proof.
  unfold send. destruct (lookup_handler _ _) as [handler|]; [|by exists false].
  unfold ntry.
  destruct (nbind _ _ t) as [[b|e] t1]; [by exists b|by exists false].
Qed.

Ltac split_lookups :=
  repeat match goal with
         | |- context [?config !! ?key] =>
             lazymatch type of config with
             | gmap string JVal => destruct (config !! key) eqn:?
             end
         end.

(** X27. Sending to a channel answers False without any request when the
    type of the channel has no provider, when its configuration does not
    decode, or when the configuration lacks a key the provider reads first. *)
Theorem send_without_request (world : Providers) (channel : Channel)
    (monitor : Monitor) (st : Z) (message : string) (t : list Delivery) :
  lookup_handler (handlers world) (c_type channel) = None ∨
  c_config channel = None ∨
  (∃ config key, c_config channel = Some config ∧
                 key ∈ required_keys (c_type channel) ∧ config !! key = None) →
  send world channel monitor st message t = (Ret false, t).
Proof.
  intros [Hnone | [Hconfig | (config & key & Hconfig & Hkey & Hmissing)]].
  - unfold send. by rewrite Hnone.
  - unfold send. rewrite Hconfig.
    destruct (lookup_handler _ _); reflexivity.
  - unfold send. rewrite Hconfig. unfold required_keys in Hkey.
    destruct (c_type channel) as [|a ct] eqn:Htype;
      [simpl in Hkey; by apply elem_of_nil in Hkey|].
    rewrite <- Htype in *. clear Htype a ct.
    repeat match type of Hkey with
           | context [String.eqb ?a ?b] =>
               destruct (String.eqb_spec a b) as [->|?]
           end;
      try (by apply elem_of_nil in Hkey).
    all: repeat (apply elem_of_cons in Hkey as [->|Hkey]);
      try (by apply elem_of_nil in Hkey).
    all: cbn [handlers lookup_handler String.eqb Ascii.eqb Bool.eqb].
    all: unfold send_email, send_webhook, send_wechat, send_telegram, send_bark,
           send_pushplus, send_serverchan; unfold_notify; rewrite ?Hmissing;
         split_lookups; try reflexivity; try congruence.
    all: destruct (truthy _); reflexivity.
Qed.

(** The robot has no address. *)
Lemma send_without_request_witness :
  send Samples.accepted Samples.robot Samples.typed_site 0 "状态码 500" [] =
    (Ret false, []).
Proof.
  apply send_without_request. right. right. exists ∅, "webhook_url".
  split; [reflexivity|]. split; [|reflexivity].
  change ("webhook_url" ∈ ["webhook_url"]). apply elem_of_cons. by left.
Defined.

(** X28. A webhook is never called for a monitor without the key [type],
    which the rows of the table of monitors do not have: the payload reads
    that key, and the failure is answered as False. *)
Theorem send_webhook_needs_type (world : Providers) (channel : Channel)
    (monitor : Monitor) (st : Z) (message : string) (t : list Delivery) :
  c_type channel = "webhook" →
  m_type monitor = None →
  send world channel monitor st message t = (Ret false, t).
Proof.
  intros Htype Hnone. unfold send. rewrite Htype.
  cbn [handlers lookup_handler String.eqb Ascii.eqb Bool.eqb].
  unfold send_webhook. unfold_notify. rewrite Hnone.
  destruct (c_config channel) as [config|]; [|reflexivity].
  by destruct (config !! "url").
Qed.

(** The stored site, as [check_monitor] passes it on. *)
Lemma send_webhook_needs_type_witness :
  send Samples.accepted Samples.hook Demo.site 0 "状态码 500" [] = (Ret false, []).
Proof.
  exact (send_webhook_needs_type Samples.accepted Samples.hook Demo.site 0
           "状态码 500" [] eq_refl eq_refl).
Defined.

(** X29. When the last request of a provider is an HTTP request that is
    answered, the webhook counts every code below 400 as delivered and every
    other provider only the code 200. *)
Theorem send_http_verdict (world : Providers) (channel : Channel)
    (monitor : Monitor) (st : Z) (message : string) (t : list Delivery)
    (d : Delivery) (code : Z) :
  (send world channel monitor st message t).2 = t ++ [d] →
  is_http d = true →
  world (length t) d = Ret code →
  (send world channel monitor st message t).1 =
    Ret (if String.eqb (c_type channel) "webhook" then code <? 400 else code =? 200).
Proof.
  unfold send, handlers. cbn [lookup_handler].
  repeat match goal with
         | |- context [String.eqb ?k (c_type ?c)] =>
             destruct (String.eqb_spec k (c_type c)) as [Heq|?];
               [rewrite <- Heq; cbn [String.eqb Ascii.eqb Bool.eqb]|]
         end.
  all: try (cbn [fst snd]; intros Habs; exfalso; exact (app_nonempty_neq _ _ Habs)).
  all: destruct (c_config channel) as [config|];
    try (unfold_notify; cbn [fst snd]; intros Habs; exfalso;
         exact (app_nonempty_neq _ _ Habs)).
  all: unfold send_email, send_webhook, send_wechat, send_telegram, send_bark,
         send_pushplus, send_serverchan; unfold_notify; split_lookups.
  all: repeat match goal with
         | |- context [match m_type ?m with _ => _ end] => destruct (m_type m)
         | |- context [if truthy ?v then _ else _] => destruct (truthy v)
         end.
  all: cbn [fst snd].
  all: try (intros Habs; exfalso; exact (app_nonempty_neq _ _ Habs)).
  all: split_cases; cbn [fst snd].
  all: intros Htr Hhttp Hcode.
  all: try (apply app_singleton_inv in Htr; subst d; try discriminate;
            repeat match goal with
                   | H : _ = _ |- _ =>
                       tryif constr_eq H Hcode then fail else rewrite H in Hcode
                   end;
            try discriminate; injection Hcode as <-; reflexivity).
  all: try (rewrite <- app_assoc in Htr; apply app_inv_head in Htr; discriminate).
  all: try (exfalso; exact (app_nonempty_neq _ _ Htr)).
Qed.

(** The webhook answers 204. *)
Lemma send_http_verdict_witness :
  (send Samples.accepted Samples.hook Samples.typed_site 0 "状态码 500" []).1 =
    Ret true.
Proof.
  exact (send_http_verdict Samples.accepted Samples.hook Samples.typed_site 0
           "状态码 500" []
           (HttpPost (JStr "https://hooks.example/ops") (title Samples.typed_site 0))
           204 eq_refl eq_refl eq_refl).
Defined.

Lemma send_each_run world channels ids monitor st message t :
  send_each world channels ids monitor st message t =
  (Ret tt,
   fold_left (fun t channel => (send world channel monitor st message t).2)
     (List.filter (selected ids) channels) t).
Proof.
  revert t. induction channels as [|channel channels IH]; intros t; [reflexivity|].
  cbn [send_each List.filter]. unfold selected at 1. unfold nbind at 1.
  destruct (existsb (Z.eqb (c_id channel)) ids && negb (c_enabled channel =? 0)).
  - unfold nbind at 1, nret at 1.
    destruct (send_returns world channel monitor st message t) as [b Hb].
    cbn [fold_left].
    destruct (send world channel monitor st message t) as [o t1]. cbn [fst snd] in *.
    subst o. apply IH.
  - unfold nret at 1. apply IH.
Qed.

(** X30. A notification goes to the channels that the monitor lists and
    that are enabled, in the order of the table, each one sent whatever
    happened to the ones before; a monitor that lists no channel causes no
    request. *)
Theorem send_notification_fans_out (world : Providers) (channels : list Channel)
    (monitor : Monitor) (st : Z) (message : string) (t : list Delivery) :
  (m_notify_channels monitor = [] →
   send_notification world channels monitor st message t = (Ret tt, t)) ∧
  send_notification world channels monitor st message t =
    (Ret tt,
     fold_left (fun t channel => (send world channel monitor st message t).2)
       (List.filter (selected (m_notify_channels monitor)) channels) t).
Proof.
  unfold send_notification. split.
  - by intros ->.
  - destruct (m_notify_channels monitor) as [|i ids] eqn:Hids.
    + assert (List.filter (selected []) channels = []) as ->; [|reflexivity].
      induction channels as [|c cs IH]; [reflexivity|]. cbn. exact IH.
    + apply send_each_run.
Qed.

(** The site lists the webhook and the switched-off phone; the stored site
    lists no channel. *)
Lemma send_notification_fans_out_witness :
  send_notification Samples.accepted [Samples.hook; Samples.robot; Samples.phone]
    Samples.typed_site 0 "状态码 500" [] =
    (Ret tt,
     [HttpPost (JStr "https://hooks.example/ops") (title Samples.typed_site 0)]) ∧
  send_notification Samples.accepted [Samples.hook; Samples.robot; Samples.phone]
    Demo.site 0 "状态码 500" [] = (Ret tt, []).
Proof.
  split.
  - exact (proj2 (send_notification_fans_out Samples.accepted
                    [Samples.hook; Samples.robot; Samples.phone]
                    Samples.typed_site 0 "状态码 500" [])).
  - exact (proj1 (send_notification_fans_out Samples.accepted
                    [Samples.hook; Samples.robot; Samples.phone]
                    Demo.site 0 "状态码 500" []) eq_refl).
Defined.
